(** * log4go: the panic file log writer (paniclog.go)

    A shallow embedding of [PanicFileLogWriter]: the rotation policy computed
    by [prepare], the construction path ([NewPanicFileLogWriter], [run],
    [intRotate]), the producer entry point [LogWrite], the worker goroutine
    started by [run], [Close] and [SetFormat].

    The operating system is an explicit [World]: a clock, the environment,
    a file system, the descriptor table of the process and the bytes that
    reached the terminal.  Goroutines are interleaved by a step function
    over actions; a panic that nothing recovers ends the run, with the
    report of the runtime written on descriptor 2. *)

From Stdlib Require Import ZArith String Ascii List Bool Lia.
From stdpp Require Import base option list gmap strings.

Local Open Scope string_scope.
Local Open Scope list_scope.
Local Open Scope Z_scope.

(** ** Machine integers *)

Module Int64.

Definition min_int : Z := - 2 ^ 63.
Definition max_int : Z := 2 ^ 63 - 1.

(** Two's complement wrap-around of Go's [int64]. *)
Definition wrap (z : Z) : Z := (z + 2 ^ 63) mod 2 ^ 64 - 2 ^ 63.

Definition add (a b : Z) : Z := wrap (a + b).
Definition mul (a b : Z) : Z := wrap (a * b).
(** Go's [/] on integers truncates toward zero. *)
Definition div (a b : Z) : Z := wrap (Z.quot a b).

Definition in_range (z : Z) : Prop := min_int <= z <= max_int.

End Int64.

(** ** Strings *)

Definition nl : string := String (ascii_of_nat 10) EmptyString.

Definition is_lower (c : ascii) : bool :=
  let n := nat_of_ascii c in (Nat.leb 97 n && Nat.leb n 122)%bool.

Definition upper_ascii (c : ascii) : ascii :=
  if is_lower c then ascii_of_nat (nat_of_ascii c - 32) else c.

(** [strings.ToUpper] on the bytes of the string.  Go maps runes; on the
    ASCII letters this is the byte map below, and no rune outside ASCII has
    M, H or D for upper case, so the unit switch of [prepare] sees the same
    cases. *)
Fixpoint ToUpper (s : string) : string :=
  match s with
  | EmptyString => EmptyString
  | String c r => String (upper_ascii c) (ToUpper r)
  end.

(** ** A fragment of Go's [regexp]

    The patterns of [prepare] use the anchors, the class [\d], literal
    characters and counted repetition.  [compile] reads exactly that
    fragment, and [MatchString] searches a match at every offset as the
    library does. *)

Module Regexp.

Inductive Atom := ADigit | ALit (c : ascii).
Inductive Item := IBegin | IEnd | IRep (a : Atom) (n : nat).
Definition t := list Item.

Definition is_digit (c : ascii) : bool :=
  let n := nat_of_ascii c in (Nat.leb 48 n && Nat.leb n 57)%bool.

Definition atom_ok (a : Atom) (c : ascii) : bool :=
  match a with
  | ADigit => is_digit c
  | ALit l => Ascii.eqb l c
  end.

(** *** Compilation *)

Inductive Mode := Normal | Escape | InCount (n : nat).

(** Items are accumulated newest first. *)
Definition step_compile (st : option (Mode * list Item)) (c : ascii)
  : option (Mode * list Item) :=
  match st with
  | None => None
  | Some (Normal, acc) =>
      if Ascii.eqb c "^" then Some (Normal, IBegin :: acc)
      else if Ascii.eqb c "$" then Some (Normal, IEnd :: acc)
      else if Ascii.eqb c "\" then Some (Escape, acc)
      else if Ascii.eqb c "{" then
        match acc with
        | IRep _ _ :: _ => Some (InCount 0, acc)
        | _ => None
        end
      else if Ascii.eqb c "}" then None
      else Some (Normal, IRep (ALit c) 1 :: acc)
  | Some (Escape, acc) =>
      if Ascii.eqb c "d" then Some (Normal, IRep ADigit 1 :: acc) else None
  | Some (InCount n, acc) =>
      if is_digit c then
        Some (InCount (10 * n + (nat_of_ascii c - 48)), acc)
      else if Ascii.eqb c "}" then
        match acc with
        | IRep a _ :: acc' => Some (Normal, IRep a n :: acc')
        | _ => None
        end
      else None
  end.

Definition compile (pat : string) : option t :=
  match fold_left step_compile (list_ascii_of_string pat) (Some (Normal, nil)) with
  | Some (Normal, acc) => Some (rev acc)
  | _ => None
  end.

(** *** Matching *)

(** Consume [n] characters accepted by [a]. *)
Fixpoint eat (a : Atom) (n : nat) (s : list ascii) : option (list ascii) :=
  match n with
  | O => Some s
  | S n' =>
      match s with
      | c :: r => if atom_ok a c then eat a n' r else None
      | nil => None
      end
  end.

(** Match the items at the current offset; [bot] says whether the offset
    is the beginning of the text. *)
Fixpoint match_here (re : t) (bot : bool) (s : list ascii) : bool :=
  match re with
  | nil => true
  | IBegin :: re' => bot && match_here re' bot s
  | IEnd :: re' =>
      match s with nil => match_here re' bot s | _ => false end
  | IRep a n :: re' =>
      match eat a n s with
      | Some r => match_here re' (bot && Nat.eqb n 0) r
      | None => false
      end
  end.

Fixpoint search (re : t) (bot : bool) (s : list ascii) : bool :=
  match_here re bot s ||
  match s with
  | nil => false
  | _ :: r => search re false r
  end.

Definition MatchString (re : t) (s : string) : bool :=
  search re true (list_ascii_of_string s).

End Regexp.

(** A file-name shape of the rotation table: [None] stands for one decimal
    digit, [Some c] for the character [c]. *)
Definition Shape := list (option ascii).

Fixpoint has_shape_list (sh : Shape) (s : list ascii) : bool :=
  match sh, s with
  | nil, nil => true
  | None :: sh', c :: r => Regexp.is_digit c && has_shape_list sh' r
  | Some l :: sh', c :: r => Ascii.eqb l c && has_shape_list sh' r
  | _, _ => false
  end.

Definition has_shape (sh : Shape) (s : string) : bool :=
  has_shape_list sh (list_ascii_of_string s).

Definition digits (n : nat) : Shape := repeat None n.
Definition lit (c : ascii) : Shape := Some c :: nil.

(** YYYY-MM-DD_HH-MM *)
Definition shape_minute : Shape :=
  (digits 4 ++ lit "-" ++ digits 2 ++ lit "-" ++ digits 2 ++ lit "_"
   ++ digits 2 ++ lit "-" ++ digits 2)%list.
(** ten digits *)
Definition shape_hour : Shape := digits 10.
(** YYYY-MM-DD *)
Definition shape_day : Shape :=
  (digits 4 ++ lit "-" ++ digits 2 ++ lit "-" ++ digits 2)%list.

(** ** The operating system *)

Inductive Target :=
| TtyOut                    (* the standard output the process started with *)
| TtyErr                    (* the standard error the process started with *)
| Regular (path : string).  (* an open file, in append mode *)

Inductive Event :=
| EvOpen (path : string) (flags perm : Z) (res : option nat)
| EvClose (fd : nat)
| EvDup2 (oldfd newfd : nat)
| EvWrite (fd : nat) (data : list Byte.byte).

(** [mode] is the permission the file was created with (no umask). *)
Record FileNode := { mtime : Z; mode : Z; data : list Byte.byte }.

Record World := {
  now : Z;                                   (* time.Now().Unix() *)
  environ : gmap string string;
  fs : gmap string FileNode;
  fdt : gmap nat Target;                     (* descriptor table *)
  tty_out : list Byte.byte;
  tty_err : list Byte.byte;
  abs_res : string -> string + string;       (* filepath.Abs: path or error *)
  open_err : string -> option string;        (* paths that cannot be opened *)
  io_res : nat -> option (nat * string);     (* n-th file write: stops after k bytes with an error *)
  nwrites : nat;
  trace : list Event                         (* system calls issued, oldest first *)
}.

Definition O_WRONLY : Z := 1.
Definition O_CREATE : Z := 64.
Definition O_APPEND : Z := 1024.

Module OS.

Definition log (e : Event) (W : World) : World :=
  {| now := now W; environ := environ W; fs := fs W; fdt := fdt W;
     tty_out := tty_out W; tty_err := tty_err W; abs_res := abs_res W;
     open_err := open_err W; io_res := io_res W; nwrites := nwrites W;
     trace := (trace W ++ e :: nil)%list |}.

Definition set_fdt (t : gmap nat Target) (W : World) : World :=
  {| now := now W; environ := environ W; fs := fs W; fdt := t;
     tty_out := tty_out W; tty_err := tty_err W; abs_res := abs_res W;
     open_err := open_err W; io_res := io_res W; nwrites := nwrites W;
     trace := trace W |}.

Definition set_fs (f : gmap string FileNode) (W : World) : World :=
  {| now := now W; environ := environ W; fs := f; fdt := fdt W;
     tty_out := tty_out W; tty_err := tty_err W; abs_res := abs_res W;
     open_err := open_err W; io_res := io_res W; nwrites := nwrites W;
     trace := trace W |}.

Definition set_tty (o e : list Byte.byte) (W : World) : World :=
  {| now := now W; environ := environ W; fs := fs W; fdt := fdt W;
     tty_out := o; tty_err := e; abs_res := abs_res W;
     open_err := open_err W; io_res := io_res W; nwrites := nwrites W;
     trace := trace W |}.

Definition count_write (W : World) : World :=
  {| now := now W; environ := environ W; fs := fs W; fdt := fdt W;
     tty_out := tty_out W; tty_err := tty_err W; abs_res := abs_res W;
     open_err := open_err W; io_res := io_res W; nwrites := S (nwrites W);
     trace := trace W |}.

Definition set_now (t : Z) (W : World) : World :=
  {| now := t; environ := environ W; fs := fs W; fdt := fdt W;
     tty_out := tty_out W; tty_err := tty_err W; abs_res := abs_res W;
     open_err := open_err W; io_res := io_res W; nwrites := nwrites W;
     trace := trace W |}.

(** os.Getenv: the empty string when the variable is unset. *)
Definition Getenv (W : World) (key : string) : string :=
  default "" (environ W !! key).

(** os.Stat, as far as the writer looks: the file's node when it exists. *)
Definition Stat (W : World) (path : string) : option FileNode :=
  fs W !! path.

(** The lowest descriptor that is not in use. *)
Fixpoint first_free (t : gmap nat Target) (fuel n : nat) : nat :=
  match fuel with
  | O => n
  | S fuel' => match t !! n with
               | None => n
               | Some _ => first_free t fuel' (S n)
               end
  end.

Definition lowest_free (t : gmap nat Target) : nat :=
  first_free t (size t) 0.

(** os.OpenFile with O_APPEND and O_CREATE: an absent file is created
    empty, an existing one is kept. *)
Definition OpenFile (W : World) (path : string) (flags perm : Z)
  : World * (nat + string) :=
  match open_err W path with
  | Some e => (log (EvOpen path flags perm None) W, inr e)
  | None =>
      let fd := lowest_free (fdt W) in
      let f := match fs W !! path with
               | Some _ => fs W
               | None => <[path := {| mtime := now W; mode := perm; data := nil |}]> (fs W)
               end in
      (log (EvOpen path flags perm (Some fd))
         (set_fdt (<[fd := Regular path]> (fdt W)) (set_fs f W)), inl fd)
  end.

Definition Close (W : World) (fd : nat) : World :=
  log (EvClose fd) (set_fdt (delete fd (fdt W)) W).

(** syscall.Dup2: [newfd] now names what [oldfd] names. *)
Definition Dup2 (W : World) (oldfd newfd : nat) : World :=
  log (EvDup2 oldfd newfd)
    match fdt W !! oldfd with
    | Some t => set_fdt (<[newfd := t]> (fdt W)) W
    | None => W
    end.

Definition append_file (W : World) (path : string) (d : list Byte.byte) : World :=
  set_fs (alter (fun f => {| mtime := now W; mode := mode f;
                             data := (data f ++ d)%list |}) path (fs W)) W.

(** A write on a descriptor: the terminal takes everything; a file takes
    what the device accepts. *)
Definition Write (W : World) (fd : nat) (d : list Byte.byte)
  : World * option string :=
  let W := log (EvWrite fd d) W in
  match fdt W !! fd with
  | None => (W, Some "bad file descriptor")
  | Some TtyOut => (set_tty (tty_out W ++ d)%list (tty_err W) W, None)
  | Some TtyErr => (set_tty (tty_out W) (tty_err W ++ d)%list W, None)
  | Some (Regular p) =>
      match io_res W (nwrites W) with
      | None => (count_write (append_file W p d), None)
      | Some (k, e) => (count_write (append_file W p (take k d)), Some e)
      end
  end.

(** fmt.Fprintf(os.Stderr, ...): descriptor 2, result ignored. *)
Definition Stderr : nat := 2%nat.
Definition Stdout : nat := 1%nat.

Definition eprint (W : World) (msg : string) : World :=
  fst (Write W Stderr (list_byte_of_string msg)).

End OS.

(** ** Records, channels and the closer *)

(** Modelled from the spec: the record type is declared outside
    paniclog.go.  Section 3 gives it a timestamp, a severity level, a source
    tag, a message and an optional binary payload; [None] is the nil slice. *)
Record LogRecord := {
  Level : Z;
  Created : Z;
  Source : string;
  Message : string;
  Binary : option (list Byte.byte)
}.

(** A value of type [*LogRecord]: [None] is the nil pointer. *)
Definition Msg := option LogRecord.

(** A buffered channel of [*LogRecord]. *)
Record Chan := { buf : list Msg; cap : nat; closed : bool }.

Module Channel.

Definition make (n : nat) : Chan := {| buf := nil; cap := n; closed := false |}.

Definition len (c : Chan) : nat := length (buf c).

Inductive SendResult := Sent (c : Chan) | SendBlocks | SendPanics.

(** [c <- m]: panics on a closed channel, waits while the buffer is full. *)
Definition send (c : Chan) (m : Msg) : SendResult :=
  if closed c then SendPanics
  else if Nat.ltb (len c) (cap c)
       then Sent {| buf := (buf c ++ m :: nil)%list; cap := cap c; closed := closed c |}
       else SendBlocks.

Inductive RecvResult := Received (m : Msg) (c : Chan) | RecvClosed | RecvBlocks.

(** [m, ok := <-c]: the oldest element; [ok] is false on a closed and
    drained channel. *)
Definition recv (c : Chan) : RecvResult :=
  match buf c with
  | m :: r => Received m {| buf := r; cap := cap c; closed := closed c |}
  | nil => if closed c then RecvClosed else RecvBlocks
  end.

Definition close (c : Chan) : Chan :=
  {| buf := buf c; cap := cap c; closed := true |}.

End Channel.

(** Modelled from the spec: [LogCloser] with [LogCloserInit], [EndNotify]
    and [WaitForEnd] is declared outside paniclog.go.  Section 4.5: the
    drain request travels through the record queue, and shutdown is
    acknowledged when the worker reaches it.  The queue holds [*LogRecord],
    so the request is the nil record; [IsEnd] is the acknowledgement. *)
Record LogCloser := { IsEnd : bool }.

(** Modelled from the spec: [LogCloserInit] of the absent [LogCloser]; no
    shutdown has been acknowledged yet. *)
Definition LogCloserInit : LogCloser := {| IsEnd := false |}.

(** Modelled from the spec: [EndNotify] of the absent [LogCloser].  Section
    4.5: on the drain request the worker acknowledges the shutdown and is
    told to stop; a record is not a request. *)
Definition EndNotify (lc : LogCloser) (m : Msg) : bool * LogCloser :=
  match m with
  | None => (true, {| IsEnd := true |})
  | Some _ => (false, lc)
  end.

(** Modelled from the spec: the first half of [WaitForEnd] of the absent
    [LogCloser].  Section 4.5: the drain request is delivered through the
    ordered queue. *)
Definition WaitForEnd_send (c : Chan) : Channel.SendResult := Channel.send c None.

(** Modelled from the spec: the second half of [WaitForEnd] of the absent
    [LogCloser].  Section 4.5: the caller is blocked until the shutdown is
    acknowledged. *)
Definition WaitForEnd_ready (lc : LogCloser) : bool := IsEnd lc.

(** ** The writer *)

Record PanicFileLogWriter := {
  closer : LogCloser;
  rec : Chan;
  filename : string;
  baseFilename : string;
  file : option nat;                 (* *os.File: its descriptor, or nil *)
  format : string;
  when : string;
  backupCount : Z;
  interval : Z;
  suffix : string;
  fileFilter : option Regexp.t;      (* nil until [prepare] *)
  rolloverAt : Z;
  firstRollover : bool
}.

Definition set_closer (x : LogCloser) (w : PanicFileLogWriter) :=
  {| closer := x; rec := rec w; filename := filename w;
     baseFilename := baseFilename w; file := file w; format := format w;
     when := when w; backupCount := backupCount w; interval := interval w;
     suffix := suffix w; fileFilter := fileFilter w;
     rolloverAt := rolloverAt w; firstRollover := firstRollover w |}.

Definition set_rec (x : Chan) (w : PanicFileLogWriter) :=
  {| closer := closer w; rec := x; filename := filename w;
     baseFilename := baseFilename w; file := file w; format := format w;
     when := when w; backupCount := backupCount w; interval := interval w;
     suffix := suffix w; fileFilter := fileFilter w;
     rolloverAt := rolloverAt w; firstRollover := firstRollover w |}.

Definition set_baseFilename (x : string) (w : PanicFileLogWriter) :=
  {| closer := closer w; rec := rec w; filename := filename w;
     baseFilename := x; file := file w; format := format w;
     when := when w; backupCount := backupCount w; interval := interval w;
     suffix := suffix w; fileFilter := fileFilter w;
     rolloverAt := rolloverAt w; firstRollover := firstRollover w |}.

Definition set_file (x : option nat) (w : PanicFileLogWriter) :=
  {| closer := closer w; rec := rec w; filename := filename w;
     baseFilename := baseFilename w; file := x; format := format w;
     when := when w; backupCount := backupCount w; interval := interval w;
     suffix := suffix w; fileFilter := fileFilter w;
     rolloverAt := rolloverAt w; firstRollover := firstRollover w |}.

Definition set_format (x : string) (w : PanicFileLogWriter) :=
  {| closer := closer w; rec := rec w; filename := filename w;
     baseFilename := baseFilename w; file := file w; format := x;
     when := when w; backupCount := backupCount w; interval := interval w;
     suffix := suffix w; fileFilter := fileFilter w;
     rolloverAt := rolloverAt w; firstRollover := firstRollover w |}.

Definition set_policy (i : Z) (sfx : string) (re : option Regexp.t)
  (w : PanicFileLogWriter) :=
  {| closer := closer w; rec := rec w; filename := filename w;
     baseFilename := baseFilename w; file := file w; format := format w;
     when := when w; backupCount := backupCount w; interval := i;
     suffix := sfx; fileFilter := re;
     rolloverAt := rolloverAt w; firstRollover := firstRollover w |}.

Definition set_rollover (first : bool) (at_ : Z) (w : PanicFileLogWriter) :=
  {| closer := closer w; rec := rec w; filename := filename w;
     baseFilename := baseFilename w; file := file w; format := format w;
     when := when w; backupCount := backupCount w; interval := interval w;
     suffix := suffix w; fileFilter := fileFilter w;
     rolloverAt := at_; firstRollover := first |}.

(** The time [prepare] starts from: the modification time of the file when
    [os.Stat] succeeds, the clock otherwise. *)
Definition referenceTime (W : World) (w : PanicFileLogWriter) : Z :=
  match OS.Stat W (filename w) with
  | Some fInfo => mtime fInfo
  | None => now W
  end.

(** [prepare]: interval, suffix and filter by the unit, then the first
    deadline. *)
Definition prepare (W : World) (w : PanicFileLogWriter) : PanicFileLogWriter :=
  let w :=
    if String.eqb (when w) "M" then
      set_policy 60 "%Y-%m-%d_%H-%M"
        (Regexp.compile "^\d{4}-\d{2}-\d{2}_\d{2}-\d{2}$") w
    else if String.eqb (when w) "H" then
      set_policy (60 * 60) "%Y%m%d%H" (Regexp.compile "^\d{10}$") w
    else if String.eqb (when w) "D" || String.eqb (when w) "MIDNIGHT" then
      set_policy (60 * 60 * 24) "%Y-%m-%d"
        (Regexp.compile "^\d{4}-\d{2}-\d{2}$") w
    else
      set_policy (60 * 60 * 24) "%Y-%m-%d"
        (Regexp.compile "^\d{4}-\d{2}-\d{2}$") w in
  let t := referenceTime W w in
  set_rollover true
    (Int64.mul (Int64.add (Int64.div t (interval w)) 1) (interval w)) w.

(** ** The program *)

Inductive Worker :=
| WLoop         (* at the select of the loop *)
| WReturning    (* left the loop; the deferred function has not run yet *)
| WDone.

Inductive Closing :=
| CIdle         (* Close has not been called *)
| CWaitAck      (* inside WaitForEnd, request sent *)
| CReturned.    (* Close has returned *)

(** A writer on the heap with the goroutine [run] started for it and the
    caller of [Close].  [consumed] and [written] are history: the values
    the worker received, and the records whose write returned no error. *)
Record Sink := {
  this : PanicFileLogWriter;
  goroutine : Worker;
  closing : Closing;
  consumed : list Msg;
  written : list LogRecord
}.

Record St := { os : World; heap : gmap nat Sink }.

Inductive WriteResult :=
| Accepted (c : Chan)   (* the record is in the queue *)
| Dropped               (* returned without sending *)
| Suspends              (* the caller waits for room *)
| Panics.               (* send on a closed channel *)

Inductive Action :=
| Produce (r : LogRecord)   (* a producer calls LogWrite *)
| Work                      (* one iteration of the worker's loop *)
| Teardown                  (* the worker's deferred function *)
| CloseSend                 (* Close: WaitForEnd sends the request *)
| CloseFinish               (* Close: acknowledged, close(w.rec), return *)
| Tick (dt : nat).          (* the clock advances *)

(** A panic that nothing recovers ends the process: the Go runtime writes
    its report, the line of the panic followed by a dump of the goroutines,
    on descriptor 2 and the process exits.  [dump] stands for the dump. *)
Definition panic_report (what dump : string) : string :=
  "panic: " +:+ what +:+ nl +:+ nl +:+ dump.

Definition crash (W : World) (what dump : string) : World :=
  OS.eprint W (panic_report what dump).

(** How far a run has come. *)
Inductive Outcome :=
| Running (s : St)      (* the process goes on *)
| Exited (W : World).   (* the process has ended on a panic *)

Section Program.

(** Globals of the package that are declared outside paniclog.go. *)
Variable LogWithBlocking : bool.
Variable LogBufferLength : nat.
(** The renderer of text records, outside paniclog.go. *)
Variable FormatLogRecord : string -> LogRecord -> string.
(** The [%q] verb of [fmt]. *)
Variable quote : string -> string.

Definition LogWrite (w : PanicFileLogWriter) (m : Msg) : WriteResult :=
  if negb LogWithBlocking && Nat.leb LogBufferLength (Channel.len (rec w))
  then Dropped
  else match Channel.send (rec w) m with
       | Channel.Sent c => Accepted c
       | Channel.SendBlocks => Suspends
       | Channel.SendPanics => Panics
       end.

(** "FileLogWriter(%q): %s\n" *)
Definition errmsg (w : PanicFileLogWriter) (e : string) : string :=
  "FileLogWriter(" +:+ quote (filename w) +:+ "): " +:+ e +:+ nl.

Definition intRotate (W : World) (w : PanicFileLogWriter)
  : World * PanicFileLogWriter * option string :=
  let W := match file w with
           | Some fd => OS.Close W fd
           | None => W
           end in
  match OS.OpenFile W (filename w)
          (Z.lor (Z.lor O_WRONLY O_APPEND) O_CREATE) 420 with
  | (W, inr e) => (W, w, Some e)
  | (W, inl fd) =>
      let w := set_file (Some fd) w in
      let W := if negb (String.eqb (OS.Getenv W "LOGGER_MODE") "debug")
               then OS.Dup2 (OS.Dup2 W fd 1) fd 2
               else W in
      (W, w, None)
  end.

(** [run] up to the [go] statement: the writer whose goroutine is to be
    started, or nil. *)
Definition run (W : World) (w : PanicFileLogWriter) (fname : string)
  : World * option PanicFileLogWriter :=
  let w := set_closer LogCloserInit w in
  match abs_res W fname with
  | inr e => (OS.eprint W (errmsg w e), None)
  | inl path =>
      let w := set_baseFilename path w in
      let w := prepare W w in
      match intRotate W w with
      | (W, w, Some e) => (OS.eprint W (errmsg w e), None)
      | (W, w, None) => (W, Some w)
      end
  end.

Definition default_format : string := "[%D %T] [%L] (%S) %M".

(** The composite literal of [NewPanicFileLogWriter]; the fields it does
    not name have their zero values. *)
Definition literal (fname when_ : string) (backupCount_ : Z)
  : PanicFileLogWriter :=
  {| closer := {| IsEnd := false |};
     rec := Channel.make LogBufferLength;
     filename := fname;
     baseFilename := "";
     file := None;
     format := default_format;
     when := when_;
     backupCount := backupCount_;
     interval := 0;
     suffix := "";
     fileFilter := None;
     rolloverAt := 0;
     firstRollover := false |}.

Definition NewPanicFileLogWriter (fname when_ : string) (backupCount_ : Z)
  (s : St) : option nat * St :=
  let when_ := ToUpper when_ in
  let w := literal fname when_ backupCount_ in
  match run (os s) w fname with
  | (W, None) => (None, {| os := W; heap := heap s |})
  | (W, Some w) =>
      let p := fresh (dom (heap s)) in
      (Some p,
       {| os := W;
          heap := <[p := {| this := w; goroutine := WLoop; closing := CIdle;
                            consumed := nil; written := nil |}]> (heap s) |})
  end.

(** The bytes the loop hands to the file for a record. *)
Definition payload (fmt : string) (r : LogRecord) : list Byte.byte :=
  match Binary r with
  | Some b => b
  | None => list_byte_of_string (FormatLogRecord fmt r)
  end.

(** [w.file.Write]: a write on the descriptor of the handle; on the nil
    handle an error.  A handle is modelled by its descriptor, which is exact
    as long as a handle is not used after it has been closed: a closed
    [*os.File] refuses every write, whereas its number may name another
    file by then.  The goroutine closes the file in its deferred function
    only, after its last write. *)
Definition file_write (W : World) (w : PanicFileLogWriter) (d : list Byte.byte)
  : World * option string :=
  match file w with
  | Some fd => OS.Write W fd d
  | None => (W, Some "invalid argument")
  end.

(** One pass through the [for]/[select] of the goroutine; [None] while the
    receive has nothing to deliver. *)
Definition loop_iter (W : World) (k : Sink) : option (World * Sink) :=
  let w := this k in
  match Channel.recv (rec w) with
  | Channel.RecvBlocks => None
  | Channel.RecvClosed =>
      Some (W, {| this := w; goroutine := WReturning; closing := closing k;
                  consumed := consumed k; written := written k |})
  | Channel.Received m c =>
      let w := set_rec c w in
      let seen := (consumed k ++ m :: nil)%list in
      let '(stop, lc) := EndNotify (closer w) m in
      let w := set_closer lc w in
      if stop then
        Some (W, {| this := w; goroutine := WReturning; closing := closing k;
                    consumed := seen; written := written k |})
      else
        match m with
        | None =>
            (* rec.Binary on a nil record: the goroutine panics *)
            Some (W, {| this := w; goroutine := WReturning;
                        closing := closing k;
                        consumed := seen; written := written k |})
        | Some r =>
            match file_write W w (payload (format w) r) with
            | (W, None) =>
                Some (W, {| this := w; goroutine := WLoop;
                            closing := closing k; consumed := seen;
                            written := (written k ++ r :: nil)%list |})
            | (W, Some e) =>
                Some (OS.eprint W (errmsg w e),
                      {| this := w; goroutine := WReturning;
                         closing := closing k;
                         consumed := seen; written := written k |})
            end
        end
  end.

(** The deferred function of the goroutine. *)
Definition deferred (W : World) (k : Sink) : World * Sink :=
  (match file (this k) with
   | Some fd => OS.Close W fd
   | None => W
   end,
   {| this := this k; goroutine := WDone; closing := closing k;
      consumed := consumed k; written := written k |}).

(** [SetFormat]: the field is stored through the pointer, which is
    returned. *)
Definition SetFormat (p : nat) (fmt : string) (s : St) : nat * St :=
  (p,
   {| os := os s;
      heap := alter (fun k => {| this := set_format fmt (this k);
                                 goroutine := goroutine k;
                                 closing := closing k;
                                 consumed := consumed k;
                                 written := written k |}) p (heap s) |}).

Definition with_rec (c : Chan) (cl : Closing) (k : Sink) : Sink :=
  {| this := set_rec c (this k); goroutine := goroutine k; closing := cl;
     consumed := consumed k; written := written k |}.

Definition put (p : nat) (W : World) (k : Sink) (s : St) : St :=
  {| os := W; heap := <[p := k]> (heap s) |}.

(** [Close], first half: [w.WaitForEnd(w.rec)] sends its request; [None]
    while the send has to wait. *)
Definition Close_request (k : Sink) : option Sink :=
  match closing k with
  | CIdle =>
      match WaitForEnd_send (rec (this k)) with
      | Channel.Sent c => Some (with_rec c CWaitAck k)
      | _ => None
      end
  | _ => None
  end.

(** [Close], second half: [WaitForEnd] returns once the shutdown is
    acknowledged, then [close(w.rec)]; [None] while the caller waits. *)
Definition Close_return (k : Sink) : option Sink :=
  match closing k with
  | CWaitAck =>
      if WaitForEnd_ready (closer (this k))
      then Some (with_rec (Channel.close (rec (this k))) CReturned k)
      else None
  | _ => None
  end.

(** One step of the running system around the writer at [p].  [None] when
    the actor cannot take it: it has to wait, or, for the submission whose
    send finds the queue closed, it panics, which is no step of the running
    system but its end ([act] below).  A submission is one action: the test
    of line 42 and the send of line 51 of one call, with nothing between
    them. *)
Definition step (p : nat) (a : Action) (s : St) : option St :=
  match heap s !! p with
  | None => None
  | Some k =>
      match a with
      | Produce r =>
          match LogWrite (this k) (Some r) with
          | Accepted c => Some (put p (os s) (with_rec c (closing k) k) s)
          | Dropped => Some s
          | Suspends => None
          | Panics => None
          end
      | Work =>
          match goroutine k with
          | WLoop =>
              match loop_iter (os s) k with
              | Some (W, k') => Some (put p W k' s)
              | None => None
              end
          | _ => None
          end
      | Teardown =>
          match goroutine k with
          | WReturning =>
              let '(W, k') := deferred (os s) k in Some (put p W k' s)
          | _ => None
          end
      | CloseSend =>
          match Close_request k with
          | Some k' => Some (put p (os s) k' s)
          | None => None
          end
      | CloseFinish =>
          match Close_return k with
          | Some k' => Some (put p (os s) k' s)
          | None => None
          end
      | Tick dt =>
          Some {| os := OS.set_now (now (os s) + Z.of_nat dt) (os s);
                  heap := heap s |}
      end
  end.

Fixpoint exec (p : nat) (acts : list Action) (s : St) : option St :=
  match acts with
  | nil => Some s
  | a :: rest =>
      match step p a s with
      | Some s' => exec p rest s'
      | None => None
      end
  end.

(** What an action that takes place puts into the queue of [k]. *)
Definition enqueued (a : Action) (k : Sink) : list Msg :=
  match a with
  | Produce r =>
      match LogWrite (this k) (Some r) with
      | Accepted _ => Some r :: nil
      | _ => nil
      end
  | CloseSend => None :: nil
  | _ => nil
  end.

(** Everything a schedule puts into the queue, in the order of the
    schedule. *)
Fixpoint sent_during (p : nat) (acts : list Action) (s : St) : list Msg :=
  match acts with
  | nil => nil
  | a :: rest =>
      match heap s !! p, step p a s with
      | Some k, Some s' => enqueued a k ++ sent_during p rest s'
      | _, _ => nil
      end
  end.

(** One action of the process: a [step] of the running system, or the
    submission that panics.  Line 51 sends on the queue that [Close] has
    closed, [LogWrite] recovers nothing, and the process ends with the
    report of the runtime on descriptor 2. *)
Definition act (dump : string) (p : nat) (a : Action) (s : St)
  : option Outcome :=
  match a, heap s !! p with
  | Produce r, Some k =>
      match LogWrite (this k) (Some r) with
      | Panics => Some (Exited (crash (os s) "send on closed channel" dump))
      | _ => option_map Running (step p a s)
      end
  | _, _ => option_map Running (step p a s)
  end.

(** A schedule played until it ends or the process does. *)
Fixpoint play (dump : string) (p : nat) (acts : list Action) (s : St)
  : option Outcome :=
  match acts with
  | nil => Some (Running s)
  | a :: rest =>
      match act dump p a s with
      | Some (Running s') => play dump p rest s'
      | o => o
      end
  end.

End Program.

Section Template.

(** The texts of a date, a time of day and a level. *)
Variable fmt_date fmt_time : Z -> string.
Variable fmt_level : Z -> string.

(** Modelled from the spec: the renderer [FormatLogRecord] is declared
    outside paniclog.go.  Section 6: a text template with placeholder tokens
    for date, time, level, source tag and message; the tokens are those of
    the default template, %D %T %L %S %M.  Any other text is copied. *)
Fixpoint FormatLogRecord_spec (fmt : string) (r : LogRecord) : string :=
  match fmt with
  | EmptyString => EmptyString
  | String "%" (String c rest as tl) =>
      if Ascii.eqb c "D" then fmt_date (Created r) +:+ FormatLogRecord_spec rest r
      else if Ascii.eqb c "T" then fmt_time (Created r) +:+ FormatLogRecord_spec rest r
      else if Ascii.eqb c "L" then fmt_level (Level r) +:+ FormatLogRecord_spec rest r
      else if Ascii.eqb c "S" then Source r +:+ FormatLogRecord_spec rest r
      else if Ascii.eqb c "M" then Message r +:+ FormatLogRecord_spec rest r
      else String "%" (FormatLogRecord_spec tl r)
  | String c rest => String c (FormatLogRecord_spec rest r)
  end.

End Template.

(** ** The rotation table of the documentation

    The units as [NewPanicFileLogWriter] documents them: "M" minute, "H"
    hour, "D" day, "MIDNIGHT"; anything else is unrecognized. *)

Inductive RotationUnit := Minute | Hour | Day | Midnight | Unrecognized.

Definition unit_of (u : string) : RotationUnit :=
  if String.eqb u "M" then Minute
  else if String.eqb u "H" then Hour
  else if String.eqb u "D" then Day
  else if String.eqb u "MIDNIGHT" then Midnight
  else Unrecognized.

Definition unit_interval (u : RotationUnit) : Z :=
  match u with Minute => 60 | Hour => 3600 | _ => 86400 end.

Definition unit_suffix (u : RotationUnit) : string :=
  match u with
  | Minute => "%Y-%m-%d_%H-%M"
  | Hour => "%Y%m%d%H"
  | _ => "%Y-%m-%d"
  end.

Definition unit_shape (u : RotationUnit) : Shape :=
  match u with
  | Minute => shape_minute
  | Hour => shape_hour
  | _ => shape_day
  end.

(** The shape a sequence of counted atoms describes. *)
Definition atom_shape (a : Regexp.Atom) : option ascii :=
  match a with Regexp.ADigit => None | Regexp.ALit c => Some c end.

Fixpoint items_shape (re : Regexp.t) : Shape :=
  match re with
  | Regexp.IRep a n :: re' => (repeat (atom_shape a) n ++ items_shape re')%list
  | _ :: re' => items_shape re'
  | nil => nil
  end.

Definition is_rep (i : Regexp.Item) : bool :=
  match i with Regexp.IRep _ _ => true | _ => false end.

Definition policy (w : PanicFileLogWriter) : Z * string * option Regexp.t :=
  (interval w, suffix w, fileFilter w).

(** ** Observations *)

Definition open_flags : Z := Z.lor (Z.lor O_WRONLY O_APPEND) O_CREATE.

(** The writer and its goroutine as [NewPanicFileLogWriter] leaves them. *)
Definition fresh_sink (w : PanicFileLogWriter) : Sink :=
  {| this := w; goroutine := WLoop; closing := CIdle;
     consumed := nil; written := nil |}.

(** The nine permission letters of a mode. *)
Definition perm_string (m : Z) : string :=
  let bit (i : Z) (c : ascii) : ascii := if Z.testbit m i then c else "-"%char in
  String (bit 8 "r"%char) (String (bit 7 "w"%char) (String (bit 6 "x"%char)
  (String (bit 5 "r"%char) (String (bit 4 "w"%char) (String (bit 3 "x"%char)
  (String (bit 2 "r"%char) (String (bit 1 "w"%char) (String (bit 0 "x"%char)
  EmptyString)))))))).

Definition is_open (e : Event) : bool :=
  match e with EvOpen _ _ _ _ => true | _ => false end.
Definition is_dup2 (e : Event) : bool :=
  match e with EvDup2 _ _ => true | _ => false end.
Definition is_close (e : Event) : bool :=
  match e with EvClose _ => true | _ => false end.

(** The calls of [intRotate] are the opens; the redirections are the dup2s. *)
Definition opens (tr : list Event) : list Event := List.filter is_open tr.
Definition dups (tr : list Event) : list Event := List.filter is_dup2 tr.
Definition closes (tr : list Event) : list Event := List.filter is_close tr.

(** Every field of the writer but the queue and the closer. *)
Definition config (w : PanicFileLogWriter) : PanicFileLogWriter :=
  set_closer LogCloserInit (set_rec (Channel.make 0) w).

(** The rotation state. *)
Definition rotation (w : PanicFileLogWriter)
  : Z * string * option Regexp.t * Z * bool :=
  (interval w, suffix w, fileFilter w, rolloverAt w, firstRollover w).

(** Everything that was ever accepted into the queue, oldest first. *)
Definition history (k : Sink) : list Msg := consumed k ++ buf (rec (this k)).

(** What a submission or the request of [Close] puts into the queue when it
    is accepted. *)
Definition submitted (a : Action) : list Msg :=
  match a with
  | Produce r => Some r :: nil
  | CloseSend => None :: nil
  | _ => nil
  end.

(** The content of a file, empty when it does not exist. *)
Definition content (W : World) (path : string) : list Byte.byte :=
  match fs W !! path with Some f => data f | None => nil end.

(** The invariant of a writer built on [fname] with descriptor [fd] and
    template [fmt], when the file held [d0] and the process had made the
    close calls [c0] at construction. *)
Definition Inv (F : string -> LogRecord -> string)
  (fname : string) (fd : nat) (fmt : string)
  (d0 : list Byte.byte) (c0 : list Event) (p : nat) (s : St) : Prop :=
  exists k tl junk,
    heap s !! p = Some k /\
    filename (this k) = fname /\ file (this k) = Some fd /\
    format (this k) = fmt /\
    is_Some (fs (os s) !! fname) /\
    consumed k = map Some (written k) ++ tl /\
    content (os s) fname
      = d0 ++ concat (map (payload F fmt) (written k)) ++ junk /\
    (goroutine k = WLoop ->
       tl = nil /\ junk = nil /\ IsEnd (closer (this k)) = false) /\
    (IsEnd (closer (this k)) = true ->
       tl = None :: nil /\ junk = nil /\ goroutine k <> WLoop) /\
    (goroutine k <> WDone ->
       fdt (os s) !! fd = Some (Regular fname) /\
       closes (trace (os s)) = c0) /\
    (goroutine k = WDone ->
       closes (trace (os s)) = c0 ++ EvClose fd :: nil) /\
    (closing k = CReturned ->
       IsEnd (closer (this k)) = true /\ closed (rec (this k)) = true) /\
    (closing k <> CReturned -> closed (rec (this k)) = false).

(** A writer whose worker has left its loop while the queue is full and
    [Close] has not been called. *)
Definition Stuck (p : nat) (s : St) : Prop :=
  exists k,
    heap s !! p = Some k /\ goroutine k <> WLoop /\
    closed (rec (this k)) = false /\ closing k = CIdle /\
    (cap (rec (this k)) <= Channel.len (rec (this k)))%nat.


(** What holds of a writer nothing has been submitted to. *)
Definition untouched (p : nat) (s : St) : Prop :=
  forall k, heap s !! p = Some k ->
            written k = nil /\ history k = nil /\ goroutine k = WLoop.

(** A device that takes every write in full. *)
Definition accepting (W : World) : Prop := forall n, io_res W n = None.

(** The calls of [SetFormat] made on the new writer before anything is
    submitted, in their order, and the template they leave. *)
Definition configure (p : nat) (fmts : list string) (s : St) : St :=
  fold_left (fun s fmt => snd (SetFormat p fmt s)) fmts s.

Definition template (fmts : list string) : string :=
  List.last fmts default_format.

(** [grows W W']: every file of [W] is still there in [W'], its content
    extended at the end only. *)
Definition grows (W W' : World) : Prop :=
  forall path,
    is_Some (fs W !! path) ->
    is_Some (fs W' !! path) /\
    exists x, content W' path = content W path ++ x.

(** ** Sample inputs *)

Module Sample.

Definition dquote : string := String (ascii_of_nat 34) EmptyString.

Definition quote (s : string) : string := dquote +:+ s +:+ dquote.

Definition render : string -> LogRecord -> string :=
  FormatLogRecord_spec (fun _ => "D") (fun _ => "T") (fun _ => "L").

(** A process with its three standard descriptors on the terminal, an
    empty directory and a device that accepts every write. *)
Definition W0 : World :=
  {| now := 1000; environ := ∅; fs := ∅;
     fdt := <[0%nat := TtyOut]> (<[1%nat := TtyOut]> (<[2%nat := TtyErr]> ∅));
     tty_out := nil; tty_err := nil;
     abs_res := fun p => inl ("/cwd/" +:+ p);
     open_err := fun _ => None;
     io_res := fun _ => None; nwrites := 0; trace := nil |}.

Definition s0 : St := {| os := W0; heap := ∅ |}.

Definition hello : LogRecord :=
  {| Level := 1; Created := 5; Source := "src"; Message := "hello";
     Binary := None |}.

Definition raw : LogRecord :=
  {| Level := 1; Created := 6; Source := "src"; Message := "";
     Binary := Some (Byte.x00 :: Byte.xff :: nil) |}.

(** The same process when a.log was last modified thirty seconds before
    the epoch. *)
Definition W_old : World :=
  OS.set_fs (<["a.log" := {| mtime := -30; mode := 420; data := nil |}]> ∅) W0.

(** The same process when a.log carries the last modification time that
    int64 can hold. *)
Definition W_far : World :=
  OS.set_fs (<["a.log" := {| mtime := 2 ^ 63 - 1; mode := 420; data := nil |}]> ∅) W0.

Definition w_minute : PanicFileLogWriter :=
  {| closer := {| IsEnd := false |}; rec := Channel.make 2;
     filename := "a.log"; baseFilename := ""; file := None;
     format := "[%D %T] [%L] (%S) %M"; when := "M"; backupCount := 3;
     interval := 0; suffix := ""; fileFilter := None;
     rolloverAt := 0; firstRollover := false |}.

(** Construction on a.log in the process [W], unit [u]. *)
Definition construct (W : World) (u : string) : option nat * St :=
  NewPanicFileLogWriter 2 quote "a.log" u 3 {| os := W; heap := ∅ |}.

(** A schedule run in blocking mode around the writer at pointer 0. *)
Definition after (acts : list Action) (s : St) : St :=
  default s (exec true 2 render quote 0 acts s).

(** The writer at pointer 0. *)
Definition sink_of (s : St) : Sink :=
  default (fresh_sink w_minute) (heap s !! 0%nat).

(** The same process in debug mode. *)
Definition W_debug : World :=
  {| now := 1000; environ := <["LOGGER_MODE" := "debug"]> ∅; fs := ∅;
     fdt := <[0%nat := TtyOut]> (<[1%nat := TtyOut]> (<[2%nat := TtyErr]> ∅));
     tty_out := nil; tty_err := nil;
     abs_res := fun p => inl ("/cwd/" +:+ p);
     open_err := fun _ => None;
     io_res := fun _ => None; nwrites := 0; trace := nil |}.

(** A process whose directory cannot be written. *)
Definition W_denied : World :=
  {| now := 1000; environ := ∅; fs := ∅;
     fdt := <[0%nat := TtyOut]> (<[1%nat := TtyOut]> (<[2%nat := TtyErr]> ∅));
     tty_out := nil; tty_err := nil;
     abs_res := fun p => inl ("/cwd/" +:+ p);
     open_err := fun _ => Some "permission denied";
     io_res := fun _ => None; nwrites := 0; trace := nil |}.

(** A device that refuses the first write and accepts the later ones. *)
Definition W_full : World :=
  {| now := 1000; environ := ∅; fs := ∅;
     fdt := <[0%nat := TtyOut]> (<[1%nat := TtyOut]> (<[2%nat := TtyErr]> ∅));
     tty_out := nil; tty_err := nil;
     abs_res := fun p => inl ("/cwd/" +:+ p);
     open_err := fun _ => None;
     io_res := fun n => match n with
                        | O => Some (O, "no space left on device")
                        | _ => None
                        end;
     nwrites := 0; trace := nil |}.

(** The same process when a.log was last modified at time 100. *)
Definition W_stale : World :=
  OS.set_fs (<["a.log" := {| mtime := 100; mode := 420; data := nil |}]> ∅) W0.

(** A process in which nothing can be opened any more. *)
Definition deny (W : World) : World :=
  {| now := now W; environ := environ W; fs := fs W; fdt := fdt W;
     tty_out := tty_out W; tty_err := tty_err W; abs_res := abs_res W;
     open_err := fun _ => Some "too many open files";
     io_res := io_res W; nwrites := nwrites W; trace := trace W |}.

(** A record with an empty binary payload and a message. *)
Definition blank : LogRecord :=
  {| Level := 1; Created := 7; Source := "src"; Message := "ignored";
     Binary := Some nil |}.

End Sample.

(** * Properties *)

Lemma wrap_id z : Int64.in_range z -> Int64.wrap z = z.
Proof.
  unfold Int64.in_range, Int64.min_int, Int64.max_int, Int64.wrap. intros H.
  rewrite Z.mod_small; lia.
Qed.

(** ** The filters recognize the shapes of the table *)

Lemma eat_shape a n sh (F : list ascii -> bool) :
  (forall r, F r = has_shape_list sh r) ->
  forall s,
    match Regexp.eat a n s with Some r => F r | None => false end
    = has_shape_list (repeat (atom_shape a) n ++ sh) s.
Proof.
  intros HF. induction n as [|n IH]; intros s; simpl.
  - apply HF.
  - destruct s as [|c r]; simpl.
    + destruct a; reflexivity.
    + destruct a; simpl.
      * destruct (Regexp.is_digit c); simpl; [apply IH | reflexivity].
      * destruct (Ascii.eqb c0 c); simpl; [apply IH | reflexivity].
Qed.

Lemma match_here_shape body :
  forallb is_rep body = true ->
  forall b s,
    Regexp.match_here (body ++ Regexp.IEnd :: nil) b s
    = has_shape_list (items_shape body) s.
Proof.
  induction body as [|i body IH]; intros Hrep b s.
  - simpl. destruct s; reflexivity.
  - destruct i as [| |a n]; simpl in Hrep; try discriminate.
    cbn [app Regexp.match_here items_shape].
    apply (eat_shape a n (items_shape body)
             (fun r => Regexp.match_here (body ++ Regexp.IEnd :: nil)
                         (b && Nat.eqb n 0) r)).
    intros r. apply IH, Hrep.
Qed.

Lemma search_anchored re s :
  Regexp.search (Regexp.IBegin :: re) false s = false.
Proof. induction s as [|c r IH]; simpl; [reflexivity | exact IH]. Qed.

Lemma MatchString_anchored body s :
  forallb is_rep body = true ->
  Regexp.MatchString (Regexp.IBegin :: body ++ Regexp.IEnd :: nil) s
  = has_shape (items_shape body) s.
Proof.
  intros Hrep. unfold Regexp.MatchString, has_shape.
  destruct (list_ascii_of_string s) as [|c r] eqn:E.
  - cbn [Regexp.search]. rewrite orb_false_r. cbn [Regexp.match_here andb].
    apply match_here_shape, Hrep.
  - cbn [Regexp.search]. rewrite search_anchored, orb_false_r.
    cbn [Regexp.match_here andb]. apply match_here_shape, Hrep.
Qed.

Lemma prepare_policy W w :
  policy (prepare W w) =
  (unit_interval (unit_of (when w)), unit_suffix (unit_of (when w)),
   if String.eqb (when w) "M" then
     Regexp.compile "^\d{4}-\d{2}-\d{2}_\d{2}-\d{2}$"
   else if String.eqb (when w) "H" then Regexp.compile "^\d{10}$"
   else Regexp.compile "^\d{4}-\d{2}-\d{2}$").
Proof.
  unfold prepare, unit_of, policy.
  destruct (String.eqb (when w) "M"); [reflexivity|].
  destruct (String.eqb (when w) "H"); [reflexivity|].
  destruct (String.eqb (when w) "D"); [reflexivity|].
  destruct (String.eqb (when w) "MIDNIGHT"); reflexivity.
Qed.

Lemma prepare_filter W w :
  exists re, fileFilter (prepare W w) = Some re /\
    forall s, Regexp.MatchString re s
              = has_shape (unit_shape (unit_of (when w))) s.
Proof.
  pose proof (f_equal snd (prepare_policy W w)) as Hf.
  cbn [snd policy] in Hf. rewrite Hf. unfold unit_of.
  destruct (String.eqb (when w) "M").
  { eexists; split; [vm_compute; reflexivity|].
    intros s. apply (MatchString_anchored
      (Regexp.IRep Regexp.ADigit 4 :: Regexp.IRep (Regexp.ALit "-") 1
       :: Regexp.IRep Regexp.ADigit 2 :: Regexp.IRep (Regexp.ALit "-") 1
       :: Regexp.IRep Regexp.ADigit 2 :: Regexp.IRep (Regexp.ALit "_") 1
       :: Regexp.IRep Regexp.ADigit 2 :: Regexp.IRep (Regexp.ALit "-") 1
       :: Regexp.IRep Regexp.ADigit 2 :: nil)). reflexivity. }
  destruct (String.eqb (when w) "H").
  { eexists; split; [vm_compute; reflexivity|].
    intros s. apply (MatchString_anchored
      (Regexp.IRep Regexp.ADigit 10 :: nil)). reflexivity. }
  assert (Hd : exists re,
    Regexp.compile "^\d{4}-\d{2}-\d{2}$" = Some re /\
    forall s, Regexp.MatchString re s = has_shape shape_day s).
  { eexists; split; [vm_compute; reflexivity|].
    intros s. apply (MatchString_anchored
      (Regexp.IRep Regexp.ADigit 4 :: Regexp.IRep (Regexp.ALit "-") 1
       :: Regexp.IRep Regexp.ADigit 2 :: Regexp.IRep (Regexp.ALit "-") 1
       :: Regexp.IRep Regexp.ADigit 2 :: nil)). reflexivity. }
  destruct (String.eqb (when w) "D"); [exact Hd|].
  destruct (String.eqb (when w) "MIDNIGHT"); exact Hd.
Qed.

Lemma prepare_frame W w :
  closer (prepare W w) = closer w /\ rec (prepare W w) = rec w /\
  filename (prepare W w) = filename w /\
  baseFilename (prepare W w) = baseFilename w /\
  file (prepare W w) = file w /\ format (prepare W w) = format w /\
  when (prepare W w) = when w /\
  backupCount (prepare W w) = backupCount w.
Proof.
  unfold prepare.
  destruct (String.eqb (when w) "M"); [repeat split|].
  destruct (String.eqb (when w) "H"); [repeat split|].
  destruct (String.eqb (when w) "D" || String.eqb (when w) "MIDNIGHT");
    repeat split.
Qed.

(** ** Construction *)

(** What [NewPanicFileLogWriter] does, by the answers of the system. *)
Lemma New_cases L q fname when_ bc s :
  let w0 := set_closer LogCloserInit (literal L fname (ToUpper when_) bc) in
  NewPanicFileLogWriter L q fname when_ bc s =
  match abs_res (os s) fname with
  | inr e => (None, {| os := OS.eprint (os s) (errmsg q w0 e); heap := heap s |})
  | inl path =>
      let w1 := prepare (os s) (set_baseFilename path w0) in
      match open_err (os s) fname with
      | Some e =>
          (None,
           {| os := OS.eprint (OS.log (EvOpen fname open_flags 420 None) (os s))
                      (errmsg q w1 e);
              heap := heap s |})
      | None =>
          let W1 := fst (OS.OpenFile (os s) fname open_flags 420) in
          let fd := OS.lowest_free (fdt (os s)) in
          (Some (fresh (dom (heap s))),
           {| os := if negb (String.eqb (OS.Getenv W1 "LOGGER_MODE") "debug")
                    then OS.Dup2 (OS.Dup2 W1 fd 1) fd 2 else W1;
              heap := <[fresh (dom (heap s)) := fresh_sink (set_file (Some fd) w1)]>
                        (heap s) |})
      end
  end.
Proof.
  cbv zeta. unfold NewPanicFileLogWriter, run.
  destruct (abs_res (os s) fname) as [path|e]; [|reflexivity].
  unfold intRotate.
  assert (Hfn : forall W w, filename (prepare W w) = filename w)
    by (intros; apply prepare_frame).
  assert (Hfile : forall W w, file (prepare W w) = file w)
    by (intros; apply prepare_frame).
  rewrite Hfile, Hfn. cbn [file filename set_baseFilename set_closer literal].
  unfold OS.OpenFile.
  destruct (open_err (os s) fname) as [e|]; reflexivity.
Qed.

(** ** C1: the rotation policy *)

(** C1.  [prepare] derives the policy of the table from the unit alone: "M"
    (minute) gives 60 seconds, the suffix %Y-%m-%d_%H-%M and a filter that
    accepts exactly YYYY-MM-DD_HH-MM; "H" (hour) gives 3600 seconds, the
    suffix %Y%m%d%H and a filter that accepts exactly ten digits; "D",
    "MIDNIGHT" and every other string, the empty one included, give 86400
    seconds, the suffix %Y-%m-%d and a filter that accepts exactly
    YYYY-MM-DD.  The three policy fields depend on nothing but the unit,
    [prepare] leaves the other configuration fields alone, and a writer
    built by [NewPanicFileLogWriter] carries the policy of the upper-cased
    unit, so the unit is read without regard to case. *)
Theorem C1_rotation_policy :
  (forall W w,
     interval (prepare W w) = unit_interval (unit_of (when w)) /\
     suffix (prepare W w) = unit_suffix (unit_of (when w)) /\
     exists re, fileFilter (prepare W w) = Some re /\
       forall s, Regexp.MatchString re s
                 = has_shape (unit_shape (unit_of (when w))) s) /\
  (forall W W' w w',
     when w = when w' -> policy (prepare W w) = policy (prepare W' w')) /\
  (forall W w,
     closer (prepare W w) = closer w /\ rec (prepare W w) = rec w /\
     filename (prepare W w) = filename w /\
     baseFilename (prepare W w) = baseFilename w /\
     file (prepare W w) = file w /\ format (prepare W w) = format w /\
     when (prepare W w) = when w /\
     backupCount (prepare W w) = backupCount w) /\
  (forall L q fname when_ bc s p s',
     NewPanicFileLogWriter L q fname when_ bc s = (Some p, s') ->
     exists k re,
       heap s' !! p = Some k /\
       when (this k) = ToUpper when_ /\
       interval (this k) = unit_interval (unit_of (ToUpper when_)) /\
       suffix (this k) = unit_suffix (unit_of (ToUpper when_)) /\
       fileFilter (this k) = Some re /\
       forall x, Regexp.MatchString re x
                 = has_shape (unit_shape (unit_of (ToUpper when_))) x).
Proof.
  assert (Hpol : forall W w,
     interval (prepare W w) = unit_interval (unit_of (when w)) /\
     suffix (prepare W w) = unit_suffix (unit_of (when w)) /\
     exists re, fileFilter (prepare W w) = Some re /\
       forall s, Regexp.MatchString re s
                 = has_shape (unit_shape (unit_of (when w))) s).
  { intros W w. pose proof (prepare_policy W w) as H. unfold policy in H.
    split; [congruence|]. split; [congruence|]. apply prepare_filter. }
  split; [exact Hpol|]. split.
  { intros W W' w w' Hw. rewrite !prepare_policy, Hw. reflexivity. }
  split.
  { intros W w. apply prepare_frame. }
  intros L q fname when_ bc s p s' HN.
  rewrite New_cases in HN. cbv zeta in HN.
  destruct (abs_res (os s) fname) as [path|e]; [|discriminate].
  destruct (open_err (os s) fname) as [e|]; [discriminate|].
  injection HN as <- <-.
  set (w1 := set_baseFilename path
               (set_closer LogCloserInit (literal L fname (ToUpper when_) bc))).
  destruct (Hpol (os s) w1) as (Hi & Hs & re & Hre & Hm).
  exists (fresh_sink (set_file (Some (OS.lowest_free (fdt (os s))))
                        (prepare (os s) w1))), re.
  split; [apply lookup_insert_eq|].
  cbn [this fresh_sink when interval suffix fileFilter set_file].
  split; [apply (prepare_frame (os s) w1)|].
  repeat split; assumption.
Qed.

(** A run of C1: the unit "h" is the hour. *)
Lemma C1_rotation_policy_witness :
  exists k re,
    heap (snd (NewPanicFileLogWriter 2 Sample.quote "a.log" "h" 3 Sample.s0))
      !! 0%nat = Some k /\
    when (this k) = "H" /\ interval (this k) = 3600 /\
    suffix (this k) = "%Y%m%d%H" /\ fileFilter (this k) = Some re /\
    forall x, Regexp.MatchString re x = has_shape shape_hour x.
Proof.
  destruct C1_rotation_policy as (_ & _ & _ & H).
  destruct (H 2%nat Sample.quote "a.log" "h" 3 Sample.s0 0%nat
              (snd (NewPanicFileLogWriter 2 Sample.quote "a.log" "h" 3 Sample.s0)))
    as (k & re & Hk & Hw & Hi & Hs & Hf & Hm).
  - vm_compute. reflexivity.
  - exists k, re. repeat split; assumption.
Defined.

(** ** C2: the first deadline *)

Lemma prepare_interval_cases W w :
  interval (prepare W w) = 60 \/ interval (prepare W w) = 3600 \/
  interval (prepare W w) = 86400.
Proof.
  pose proof (prepare_policy W w) as H. unfold policy in H.
  assert (Hi : interval (prepare W w) = unit_interval (unit_of (when w)))
    by congruence.
  rewrite Hi. destruct (unit_of (when w)); simpl; auto.
Qed.

Lemma prepare_rollover W w :
  rolloverAt (prepare W w) =
  Int64.mul
    (Int64.add (Int64.div (referenceTime W w) (interval (prepare W w))) 1)
    (interval (prepare W w)) /\
  firstRollover (prepare W w) = true.
Proof.
  unfold prepare.
  destruct (String.eqb (when w) "M"); [split; reflexivity|].
  destruct (String.eqb (when w) "H"); [split; reflexivity|].
  destruct (String.eqb (when w) "D" || String.eqb (when w) "MIDNIGHT");
    split; reflexivity.
Qed.

(** The deadline of a time at or after the epoch, without overflow. *)
Lemma deadline_nonneg T I :
  0 < I -> 0 <= T -> T + I <= Int64.max_int ->
  Int64.mul (Int64.add (Int64.div T I) 1) I = (T / I + 1) * I.
Proof.
  intros HI HT Hmax. unfold Int64.mul, Int64.add, Int64.div.
  rewrite Z.quot_div_nonneg by lia.
  assert (Hq : 0 <= T / I) by (apply Z.div_pos; lia).
  assert (Hle : I * (T / I) <= T) by (apply Z.mul_div_le; lia).
  assert (HqT : T / I <= T).
  { apply Z.div_le_upper_bound; [lia|]. nia. }
  unfold Int64.max_int in Hmax.
  rewrite (wrap_id (T / I)) by (unfold Int64.in_range, Int64.min_int, Int64.max_int; lia).
  rewrite (wrap_id (T / I + 1)) by (unfold Int64.in_range, Int64.min_int, Int64.max_int; lia).
  apply wrap_id. unfold Int64.in_range, Int64.min_int, Int64.max_int. nia.
Qed.

Lemma next_multiple_least T I m :
  0 < I -> (I | m) -> T < m -> (T / I + 1) * I <= m.
Proof.
  intros HI [q ->] Hlt.
  assert (Hq : T / I < q).
  { apply Z.div_lt_upper_bound; lia. }
  nia.
Qed.

(** C2, amended.  For a reference time at or after the epoch (the
    modification time of the file when it exists, the clock at startup
    otherwise) and as long as adding one interval stays within int64, the
    first deadline equals (floor(T / I) + 1) * I: it is a multiple of the
    interval, strictly later than the reference time, and the smallest such
    multiple. *)
Theorem C2_first_deadline W w :
  0 <= referenceTime W w ->
  referenceTime W w + interval (prepare W w) <= Int64.max_int ->
  (referenceTime W w = match OS.Stat W (filename w) with
                       | Some fInfo => mtime fInfo
                       | None => now W
                       end) /\
  rolloverAt (prepare W w) =
    (referenceTime W w / interval (prepare W w) + 1) * interval (prepare W w) /\
  (interval (prepare W w) | rolloverAt (prepare W w)) /\
  referenceTime W w < rolloverAt (prepare W w) /\
  forall m, (interval (prepare W w) | m) -> referenceTime W w < m ->
            rolloverAt (prepare W w) <= m.
Proof.
  intros HT Hmax. split; [reflexivity|].
  set (T := referenceTime W w) in *. set (I := interval (prepare W w)) in *.
  assert (HI : 0 < I) by (destruct (prepare_interval_cases W w) as [H|[H|H]]; subst I; lia).
  destruct (prepare_rollover W w) as [Hr _]. fold T I in Hr.
  rewrite Hr, deadline_nonneg by assumption.
  split; [reflexivity|]. split; [apply Z.divide_factor_r|]. split.
  - pose proof (Z.mod_pos_bound T I HI). pose proof (Z.div_mod T I). nia.
  - intros m Hm Hlt. apply next_multiple_least; assumption.
Qed.

(** A run of C2: no file yet, the clock at 1000, the minute unit. *)
Lemma C2_first_deadline_witness :
  rolloverAt (prepare Sample.W0 Sample.w_minute) = 1020 /\
  (60 | rolloverAt (prepare Sample.W0 Sample.w_minute)) /\
  1000 < rolloverAt (prepare Sample.W0 Sample.w_minute).
Proof.
  destruct (C2_first_deadline Sample.W0 Sample.w_minute)
    as (_ & Hr & Hd & Hlt & _).
  - vm_compute. discriminate.
  - vm_compute. discriminate.
  - split; [exact Hr|]. split; [exact Hd | exact Hlt].
Defined.

(** C2 as stated fails before the epoch: Go's division truncates toward
    zero.  The file a.log was modified at -30; with the minute unit the
    writer that [NewPanicFileLogWriter] builds gets the deadline 60, not
    (floor(-30 / 60) + 1) * 60 = 0, and 0 is a smaller multiple of 60 later
    than -30.  At the other end of int64 the product wraps around and the
    deadline is earlier than the reference time. *)
Lemma C2_counterexample :
  let W := Sample.W_old in
  let w := Sample.w_minute in
  (exists k,
     heap (snd (NewPanicFileLogWriter 2 Sample.quote "a.log" "m" 3
                  {| os := W; heap := ∅ |})) !! 0%nat = Some k /\
     rolloverAt (this k) = rolloverAt (prepare W w)) /\
  referenceTime W w = -30 /\
  interval (prepare W w) = 60 /\
  rolloverAt (prepare W w) = 60 /\
  rolloverAt (prepare W w)
    <> (referenceTime W w / interval (prepare W w) + 1) * interval (prepare W w) /\
  ~ (forall m, (interval (prepare W w) | m) -> referenceTime W w < m ->
               rolloverAt (prepare W w) <= m) /\
  rolloverAt (prepare Sample.W_far w) < referenceTime Sample.W_far w.
Proof.
  cbv zeta. split.
  { eexists. split; [vm_compute; reflexivity | vm_compute; reflexivity]. }
  split; [vm_compute; reflexivity|].
  split; [vm_compute; reflexivity|].
  split; [vm_compute; reflexivity|].
  split; [vm_compute; discriminate|].
  split; [|vm_compute; reflexivity].
  intros H. specialize (H 0).
  assert (Hr : rolloverAt (prepare Sample.W_old Sample.w_minute) = 60)
    by (vm_compute; reflexivity).
  assert (Hi : interval (prepare Sample.W_old Sample.w_minute) = 60)
    by (vm_compute; reflexivity).
  assert (Ht : referenceTime Sample.W_old Sample.w_minute = -30)
    by (vm_compute; reflexivity).
  rewrite Hr, Hi, Ht in H.
  assert (60 <= 0); [|lia].
  apply H; [exists 0; reflexivity | lia].
Qed.

(** ** The system calls *)

Lemma OpenFile_ok W path flags perm :
  open_err W path = None ->
  let W1 := fst (OS.OpenFile W path flags perm) in
  let fd := OS.lowest_free (fdt W) in
  snd (OS.OpenFile W path flags perm) = inl fd /\
  fdt W1 = <[fd := Regular path]> (fdt W) /\
  trace W1 = trace W ++ EvOpen path flags perm (Some fd) :: nil /\
  fs W1 = match fs W !! path with
          | Some _ => fs W
          | None => <[path := {| mtime := now W; mode := perm; data := nil |}]> (fs W)
          end /\
  tty_out W1 = tty_out W /\ tty_err W1 = tty_err W /\ now W1 = now W /\
  environ W1 = environ W /\ io_res W1 = io_res W /\ nwrites W1 = nwrites W.
Proof.
  intros H. unfold OS.OpenFile. rewrite H. cbn. repeat split.
Qed.

Lemma Dup2_ok W oldfd newfd t :
  fdt W !! oldfd = Some t ->
  fdt (OS.Dup2 W oldfd newfd) = <[newfd := t]> (fdt W) /\
  trace (OS.Dup2 W oldfd newfd) = trace W ++ EvDup2 oldfd newfd :: nil /\
  fs (OS.Dup2 W oldfd newfd) = fs W /\
  tty_out (OS.Dup2 W oldfd newfd) = tty_out W /\
  tty_err (OS.Dup2 W oldfd newfd) = tty_err W /\
  now (OS.Dup2 W oldfd newfd) = now W /\
  environ (OS.Dup2 W oldfd newfd) = environ W.
Proof.
  intros H. unfold OS.Dup2. rewrite H. cbn. repeat split.
Qed.

Lemma redirect_ok W fd path :
  fdt W !! fd = Some (Regular path) ->
  let W2 := OS.Dup2 (OS.Dup2 W fd 1) fd 2 in
  fdt W2 = <[2%nat := Regular path]> (<[1%nat := Regular path]> (fdt W)) /\
  trace W2 = trace W ++ EvDup2 fd 1 :: EvDup2 fd 2 :: nil /\
  fs W2 = fs W /\ tty_out W2 = tty_out W /\ tty_err W2 = tty_err W /\
  now W2 = now W /\ environ W2 = environ W.
Proof.
  intros H. cbv zeta.
  destruct (Dup2_ok W fd 1 _ H) as (Hf1 & Ht1 & Hs1 & Ho1 & He1 & Hn1 & Hv1).
  assert (H' : fdt (OS.Dup2 W fd 1) !! fd = Some (Regular path)).
  { rewrite Hf1, lookup_insert. case_decide; [reflexivity | exact H]. }
  destruct (Dup2_ok (OS.Dup2 W fd 1) fd 2 _ H') as (Hf2 & Ht2 & Hs2 & Ho2 & He2 & Hn2 & Hv2).
  rewrite Hf2, Ht2, Hs2, Ho2, He2, Hn2, Hv2, Hf1, Ht1, Hs1, Ho1, He1, Hn1, Hv1.
  rewrite <- app_assoc. repeat split.
Qed.

Lemma Write_frame W fd d :
  trace (fst (OS.Write W fd d)) = trace W ++ EvWrite fd d :: nil /\
  fdt (fst (OS.Write W fd d)) = fdt W /\
  now (fst (OS.Write W fd d)) = now W /\
  environ (fst (OS.Write W fd d)) = environ W.
Proof.
  unfold OS.Write. cbn [OS.log fdt nwrites io_res].
  destruct (fdt W !! fd) as [[| |p]|]; cbn; try (repeat split; fail).
  destruct (io_res W (nwrites W)) as [[k e]|]; cbn; repeat split.
Qed.

Lemma Write_tty W fd d :
  tty_err (fst (OS.Write W fd d)) =
    match fdt W !! fd with
    | Some TtyErr => tty_err W ++ d
    | _ => tty_err W
    end /\
  tty_out (fst (OS.Write W fd d)) =
    match fdt W !! fd with
    | Some TtyOut => tty_out W ++ d
    | _ => tty_out W
    end.
Proof.
  unfold OS.Write. cbn [OS.log fdt nwrites io_res].
  destruct (fdt W !! fd) as [[| |p]|]; cbn; try (repeat split; fail).
  destruct (io_res W (nwrites W)) as [[k e]|]; cbn; repeat split.
Qed.

Lemma eprint_frame W msg :
  trace (OS.eprint W msg)
    = trace W ++ EvWrite OS.Stderr (list_byte_of_string msg) :: nil /\
  fdt (OS.eprint W msg) = fdt W /\
  now (OS.eprint W msg) = now W /\
  environ (OS.eprint W msg) = environ W.
Proof. unfold OS.eprint. apply Write_frame. Qed.

Lemma Close_frame W fd :
  trace (OS.Close W fd) = trace W ++ EvClose fd :: nil /\
  fdt (OS.Close W fd) = delete fd (fdt W) /\
  fs (OS.Close W fd) = fs W /\
  tty_err (OS.Close W fd) = tty_err W /\
  tty_out (OS.Close W fd) = tty_out W.
Proof. unfold OS.Close. cbn. repeat split. Qed.

Lemma append_content W p d path :
  is_Some (fs W !! path) ->
  is_Some (fs (OS.append_file W p d) !! path) /\
  content (OS.append_file W p d) path
    = content W path ++ (if decide (p = path) then d else nil).
Proof.
  intros [f Hf]. unfold content, OS.append_file. cbn [fs OS.set_fs].
  rewrite lookup_alter. case_decide as Hp.
  - subst p. rewrite Hf. cbn. split; [eauto | reflexivity].
  - rewrite Hf. cbn. rewrite app_nil_r. split; [eauto | reflexivity].
Qed.

Lemma Write_content W fd d path :
  is_Some (fs W !! path) ->
  is_Some (fs (fst (OS.Write W fd d)) !! path) /\
  exists x, content (fst (OS.Write W fd d)) path = content W path ++ x.
Proof.
  intros Hs. unfold OS.Write. cbn [OS.log fdt nwrites io_res].
  destruct (fdt W !! fd) as [[| |p]|]; cbn [fst];
    try (split; [exact Hs | exists nil; rewrite app_nil_r; reflexivity]).
  destruct (io_res W (nwrites W)) as [[n e]|]; cbn [fst].
  - destruct (append_content (OS.log (EvWrite fd d) W) p (take n d) path Hs)
      as [H1 H2].
    split; [exact H1|]. eexists. exact H2.
  - destruct (append_content (OS.log (EvWrite fd d) W) p d path Hs)
      as [H1 H2].
    split; [exact H1|]. eexists. exact H2.
Qed.

Lemma Write_regular_ok W fd d p :
  fdt W !! fd = Some (Regular p) ->
  is_Some (fs W !! p) ->
  snd (OS.Write W fd d) = None ->
  content (fst (OS.Write W fd d)) p = content W p ++ d.
Proof.
  intros Hfd Hs. unfold OS.Write. cbn [OS.log fdt nwrites io_res].
  rewrite Hfd. destruct (io_res W (nwrites W)) as [[n e]|]; cbn [fst snd].
  - discriminate.
  - intros _.
    destruct (append_content (OS.log (EvWrite fd d) W) p d p Hs) as [_ H2].
    rewrite decide_True in H2 by reflexivity. exact H2.
Qed.

Lemma Write_regular_accept W fd d p :
  fdt W !! fd = Some (Regular p) ->
  is_Some (fs W !! p) ->
  io_res W (nwrites W) = None ->
  content (fst (OS.Write W fd d)) p = content W p ++ d.
Proof.
  intros Hfd Hs Hio. apply Write_regular_ok; [assumption | assumption |].
  unfold OS.Write. cbn [OS.log fdt nwrites io_res]. rewrite Hfd, Hio.
  reflexivity.
Qed.

(** ** C9: construction succeeds or reports *)

(** C9.  [NewPanicFileLogWriter] returns nil exactly when [filepath.Abs]
    fails or the file cannot be opened.  The file is opened write-only, for
    append, created if absent with mode rw-r--r--.  On failure the line
    FileLogWriter(<quoted file name>): <error> is written on the standard
    error descriptor and no writer is added to the heap.  On success the
    pointer names a new writer whose goroutine is in its loop, whose file is
    open on the configured name and whose queue is open and empty. *)
Theorem C9_construction L q fname when_ bc s :
  let r := NewPanicFileLogWriter L q fname when_ bc s in
  (fst r = None <->
     (exists e, abs_res (os s) fname = inr e) \/
     (exists e, open_err (os s) fname = Some e)) /\
  (Z.land open_flags O_WRONLY = O_WRONLY /\
   Z.land open_flags O_APPEND = O_APPEND /\
   Z.land open_flags O_CREATE = O_CREATE /\
   perm_string 420 = "rw-r--r--") /\
  (fst r = None ->
     heap (snd r) = heap s /\
     exists e tr,
       (abs_res (os s) fname = inr e \/ open_err (os s) fname = Some e) /\
       trace (os (snd r)) =
         tr ++ EvWrite OS.Stderr
                 (list_byte_of_string
                    ("FileLogWriter(" +:+ q fname +:+ "): " +:+ e +:+ nl)) :: nil /\
       (fdt (os s) !! OS.Stderr = Some TtyErr ->
        tty_err (os (snd r)) =
          tty_err (os s) ++
          list_byte_of_string
            ("FileLogWriter(" +:+ q fname +:+ "): " +:+ e +:+ nl))) /\
  (forall p, fst r = Some p ->
     heap s !! p = None /\
     exists k fd,
       heap (snd r) !! p = Some k /\
       goroutine k = WLoop /\ closing k = CIdle /\
       filename (this k) = fname /\ file (this k) = Some fd /\
       rec (this k) = Channel.make L /\
       fdt (os (snd r)) !! fd = Some (Regular fname) /\
       In (EvOpen fname open_flags 420 (Some fd)) (trace (os (snd r))) /\
       (fs (os s) !! fname = None ->
        fs (os (snd r)) !! fname
          = Some {| mtime := now (os s); mode := 420; data := nil |}) /\
       (forall node, fs (os s) !! fname = Some node ->
                     fs (os (snd r)) !! fname = Some node)).
Proof.
  cbv zeta. rewrite New_cases. cbv zeta.
  split.
  { destruct (abs_res (os s) fname) as [path|e].
    - destruct (open_err (os s) fname) as [e|]; cbn [fst].
      + split; [intros _; right; eauto | reflexivity].
      + split; [discriminate | intros [[e He]|[e He]]; discriminate].
    - cbn [fst]. split; [intros _; left; eauto | reflexivity]. }
  split; [repeat split|].
  split.
  { destruct (abs_res (os s) fname) as [path|e].
    - destruct (open_err (os s) fname) as [e|] eqn:Ho; cbn [fst snd]; [|discriminate].
      intros _. split; [reflexivity|].
      exists e, (trace (os s) ++ EvOpen fname open_flags 420 None :: nil).
      split; [right; reflexivity|]. cbn [os].
      assert (Hfn : filename (prepare (os s)
                (set_baseFilename path
                   (set_closer LogCloserInit (literal L fname (ToUpper when_) bc))))
              = fname) by (etrans; [apply prepare_frame | reflexivity]).
      unfold errmsg. rewrite Hfn. split; [apply eprint_frame|].
      intros H2. unfold OS.eprint.
      destruct (Write_tty (OS.log (EvOpen fname open_flags 420 None) (os s)) OS.Stderr
                  (list_byte_of_string
                     ("FileLogWriter(" +:+ q fname +:+ "): " +:+ e +:+ nl)))
        as [Ht _].
      rewrite Ht. cbn [OS.log fdt tty_err]. rewrite H2. reflexivity.
    - cbn [fst snd]. intros _. split; [reflexivity|].
      exists e, (trace (os s)). split; [left; reflexivity|]. cbn [os].
      unfold errmsg. cbn [filename set_closer literal].
      split; [apply eprint_frame|].
      intros H2. unfold OS.eprint.
      destruct (Write_tty (os s) OS.Stderr
                  (list_byte_of_string
                     ("FileLogWriter(" +:+ q fname +:+ "): " +:+ e +:+ nl)))
        as [Ht _].
      rewrite Ht, H2. reflexivity. }
  intros p Hp.
  destruct (abs_res (os s) fname) as [path|e]; [|discriminate].
  destruct (open_err (os s) fname) as [e|] eqn:Ho; [discriminate|].
  cbn [fst snd] in *. injection Hp as <-.
  split.
  { apply not_elem_of_dom, is_fresh. }
  destruct (OpenFile_ok (os s) fname open_flags 420 Ho)
    as (_ & Hfdt & Htr & Hfs & _ & _ & _ & Henv & _).
  set (W1 := fst (OS.OpenFile (os s) fname open_flags 420)) in *.
  set (fd := OS.lowest_free (fdt (os s))) in *.
  assert (Hfd : fdt W1 !! fd = Some (Regular fname))
    by (rewrite Hfdt; apply lookup_insert_eq).
  eexists _, fd. split; [apply lookup_insert_eq|].
  cbn [this goroutine closing fresh_sink file set_file os].
  split; [reflexivity|]. split; [reflexivity|].
  split; [etrans; [apply prepare_frame | reflexivity]|].
  split; [reflexivity|].
  split; [etrans; [apply prepare_frame | reflexivity]|].
  destruct (redirect_ok W1 fd fname Hfd) as (Hf2 & Ht2 & Hs2 & _).
  destruct (negb (String.eqb (OS.Getenv W1 "LOGGER_MODE") "debug")).
  - rewrite Hf2, Ht2, Hs2, Htr, Hfs. split.
    { rewrite !lookup_insert. repeat case_decide; try reflexivity. exact Hfd. }
    split.
    { rewrite !in_app_iff. left. right. left. reflexivity. }
    split.
    + intros Hn. rewrite Hn. apply lookup_insert_eq.
    + intros node Hn. rewrite Hn. exact Hn.
  - rewrite Htr, Hfs. split; [exact Hfd|]. split.
    { rewrite in_app_iff. right. left. reflexivity. }
    split.
    + intros Hn. rewrite Hn. apply lookup_insert_eq.
    + intros node Hn. rewrite Hn. exact Hn.
Qed.

(** ** Steps leave the configuration alone *)

Lemma opens_app a b : opens (a ++ b) = opens a ++ opens b.
Proof. apply List.filter_app. Qed.
Lemma dups_app a b : dups (a ++ b) = dups a ++ dups b.
Proof. apply List.filter_app. Qed.
Lemma closes_app a b : closes (a ++ b) = closes a ++ closes b.
Proof. apply List.filter_app. Qed.

Section Steps.

Variable LogWithBlocking : bool.
Variable LogBufferLength : nat.
Variable FormatLogRecord : string -> LogRecord -> string.
Variable quote : string -> string.

Local Abbreviation sys_step := (step LogWithBlocking LogBufferLength FormatLogRecord quote).
Local Abbreviation sys_exec := (exec LogWithBlocking LogBufferLength FormatLogRecord quote).
Local Abbreviation sys_loop := (loop_iter FormatLogRecord quote).
Local Abbreviation sys_LogWrite := (LogWrite LogWithBlocking LogBufferLength).
Local Abbreviation sys_payload := (payload FormatLogRecord).

Lemma file_write_frame W w d :
  opens (trace (fst (file_write W w d))) = opens (trace W) /\
  dups (trace (fst (file_write W w d))) = dups (trace W) /\
  closes (trace (fst (file_write W w d))) = closes (trace W) /\
  fdt (fst (file_write W w d)) = fdt W /\
  environ (fst (file_write W w d)) = environ W.
Proof.
  unfold file_write. destruct (file w) as [fd|]; [|repeat split].
  destruct (Write_frame W fd d) as (Ht & Hf & _ & He).
  rewrite Ht, Hf, He, opens_app, dups_app, closes_app. cbn.
  rewrite !app_nil_r. repeat split.
Qed.

Lemma eprint_frame' W msg :
  opens (trace (OS.eprint W msg)) = opens (trace W) /\
  dups (trace (OS.eprint W msg)) = dups (trace W) /\
  closes (trace (OS.eprint W msg)) = closes (trace W) /\
  fdt (OS.eprint W msg) = fdt W /\
  environ (OS.eprint W msg) = environ W.
Proof.
  destruct (eprint_frame W msg) as (Ht & Hf & _ & He).
  rewrite Ht, Hf, He, opens_app, dups_app, closes_app. cbn.
  rewrite !app_nil_r. repeat split.
Qed.

Lemma loop_iter_frame W k W' k' :
  sys_loop W k = Some (W', k') ->
  config (this k') = config (this k) /\
  closing k' = closing k /\
  opens (trace W') = opens (trace W) /\
  dups (trace W') = dups (trace W) /\
  closes (trace W') = closes (trace W) /\
  fdt W' = fdt W /\ environ W' = environ W.
Proof.
  unfold sys_loop, Channel.recv.
  destruct (buf (rec (this k))) as [|m rest].
  { destruct (closed (rec (this k))); [|discriminate].
    intros H; injection H as <- <-. repeat split. }
  destruct m as [r|]; cbn [EndNotify].
  - match goal with
    | |- context [file_write W ?w ?d] =>
        pose proof (file_write_frame W w d) as HF;
        destruct (file_write W w d) as [W1 [e|]]
    end; cbn [fst] in HF; destruct HF as (Ho & Hd & Hc & Hf & He);
      intros H; injection H as <- <-.
    + match goal with
      | |- context [OS.eprint W1 ?m] =>
          destruct (eprint_frame' W1 m) as (Ho' & Hd' & Hc' & Hf' & He')
      end.
      rewrite Ho', Hd', Hc', Hf', He'. repeat split; assumption.
    + repeat split; assumption.
  - intros H; injection H as <- <-. repeat split.
Qed.

Lemma step_frame p a s s' k :
  heap s !! p = Some k ->
  sys_step p a s = Some s' ->
  exists k',
    heap s' !! p = Some k' /\
    config (this k') = config (this k) /\
    opens (trace (os s')) = opens (trace (os s)) /\
    dups (trace (os s')) = dups (trace (os s)) /\
    environ (os s') = environ (os s) /\
    forall q, q <> p -> heap s' !! q = heap s !! q.
Proof.
  intros Hk. unfold sys_step, Close_request, Close_return. rewrite Hk.
  destruct a as [r| | | | |dt].
  - destruct (sys_LogWrite (this k) (Some r)) as [c| | |];
      intros H; try discriminate; injection H as <-.
    + eexists. split; [apply lookup_insert_eq|]. repeat split.
      intros q Hq. apply lookup_insert_ne. congruence.
    + exists k. repeat split; assumption.
  - destruct (goroutine k); try discriminate.
    destruct (sys_loop (os s) k) as [[W k']|] eqn:E; [|discriminate].
    intros H; injection H as <-.
    destruct (loop_iter_frame _ _ _ _ E) as (Hc & _ & Ho & Hd & _ & _ & He).
    exists k'. split; [apply lookup_insert_eq|]. repeat split; try assumption.
    intros q Hq. apply lookup_insert_ne. congruence.
  - destruct (goroutine k); try discriminate.
    unfold deferred. intros H; injection H as <-.
    eexists. split; [apply lookup_insert_eq|]. cbn [put os this].
    split; [reflexivity|].
    destruct (file (this k)) as [fd|].
    + destruct (Close_frame (os s) fd) as (Ht & _).
      rewrite Ht, opens_app, dups_app. cbn. rewrite !app_nil_r.
      repeat split. intros q Hq. apply lookup_insert_ne. congruence.
    + repeat split. intros q Hq. apply lookup_insert_ne. congruence.
  - destruct (closing k); try discriminate.
    unfold WaitForEnd_send.
    destruct (Channel.send (rec (this k)) None); try discriminate.
    intros H; injection H as <-.
    eexists. split; [apply lookup_insert_eq|]. repeat split.
    intros q Hq. apply lookup_insert_ne. congruence.
  - destruct (closing k); try discriminate.
    destruct (WaitForEnd_ready (closer (this k))); try discriminate.
    intros H; injection H as <-.
    eexists. split; [apply lookup_insert_eq|]. repeat split.
    intros q Hq. apply lookup_insert_ne. congruence.
  - intros H; injection H as <-. exists k. repeat split; assumption.
Qed.

Lemma exec_frame p acts : forall s s' k,
  heap s !! p = Some k ->
  sys_exec p acts s = Some s' ->
  exists k',
    heap s' !! p = Some k' /\
    config (this k') = config (this k) /\
    opens (trace (os s')) = opens (trace (os s)) /\
    dups (trace (os s')) = dups (trace (os s)) /\
    environ (os s') = environ (os s) /\
    forall q, q <> p -> heap s' !! q = heap s !! q.
Proof.
  induction acts as [|a acts IH]; intros s s' k Hk; cbn [exec].
  - intros H; injection H as <-. exists k. repeat split; assumption.
  - destruct (sys_step p a s) as [s1|] eqn:E; [|discriminate].
    intros H.
    destruct (step_frame _ _ _ _ _ Hk E) as (k1 & Hk1 & Hc1 & Ho1 & Hd1 & He1 & Hq1).
    destruct (IH _ _ _ Hk1 H) as (k' & Hk' & Hc' & Ho' & Hd' & He' & Hq').
    exists k'. split; [assumption|].
    split; [congruence|]. split; [congruence|]. split; [congruence|].
    split; [congruence|].
    intros q Hq. rewrite Hq', Hq1; auto.
Qed.

End Steps.

(** What a successful construction leaves behind. *)
Lemma New_success L q fname when_ bc s p s1 :
  NewPanicFileLogWriter L q fname when_ bc s = (Some p, s1) ->
  exists path w1 fd W1,
    abs_res (os s) fname = inl path /\
    open_err (os s) fname = None /\
    w1 = prepare (os s)
           (set_baseFilename path
              (set_closer LogCloserInit (literal L fname (ToUpper when_) bc))) /\
    fd = OS.lowest_free (fdt (os s)) /\
    W1 = fst (OS.OpenFile (os s) fname open_flags 420) /\
    p = fresh (dom (heap s)) /\
    heap s1 = <[p := fresh_sink (set_file (Some fd) w1)]> (heap s) /\
    os s1 = (if negb (String.eqb (OS.Getenv (os s) "LOGGER_MODE") "debug")
             then OS.Dup2 (OS.Dup2 W1 fd 1) fd 2 else W1) /\
    fdt W1 !! fd = Some (Regular fname).
Proof.
  rewrite New_cases. cbv zeta.
  destruct (abs_res (os s) fname) as [path|e]; [|discriminate].
  destruct (open_err (os s) fname) as [e|] eqn:Ho; [discriminate|].
  intros H; injection H as <- <-.
  destruct (OpenFile_ok (os s) fname open_flags 420 Ho)
    as (_ & Hfdt & _ & _ & _ & _ & _ & Henv & _).
  eexists path, _, _, _. repeat split; try reflexivity.
  - cbn [os]. unfold OS.Getenv. rewrite Henv. reflexivity.
  - rewrite Hfdt. apply lookup_insert_eq.
Qed.

(** ** C3: the loop does not rotate *)

(** C3, amended.  The worker's loop does not look at the clock or at the
    deadline.  Whatever the producers, the worker, the caller of [Close] and
    the clock do after construction, [intRotate] is not called again (the
    only open is the one of construction) and the rotation state of the
    writer, the deadline included, keeps the value [prepare] gave it: the
    deadline never moves backward, and it never moves forward either. *)
Theorem C3_no_rotation_after_construction B L F q fname when_ bc s p s1 acts s2 :
  NewPanicFileLogWriter L q fname when_ bc s = (Some p, s1) ->
  exec B L F q p acts s1 = Some s2 ->
  exists k1 k2 fd,
    heap s1 !! p = Some k1 /\ heap s2 !! p = Some k2 /\
    rotation (this k2) = rotation (this k1) /\
    opens (trace (os s2))
      = opens (trace (os s)) ++ EvOpen fname open_flags 420 (Some fd) :: nil.
Proof.
  intros HN HE.
  destruct (New_success _ _ _ _ _ _ _ _ HN)
    as (path & w1 & fd & W1 & Ha & Ho & Hw1 & Hfd & HW1 & Hp & Hh & Hos & Hfdt).
  assert (Hk1 : heap s1 !! p = Some (fresh_sink (set_file (Some fd) w1)))
    by (rewrite Hh; apply lookup_insert_eq).
  destruct (exec_frame _ _ _ _ _ _ _ _ _ Hk1 HE) as (k2 & Hk2 & Hc & Hop & _).
  exists (fresh_sink (set_file (Some fd) w1)), k2, fd.
  split; [assumption|]. split; [assumption|]. split.
  { change (rotation (config (this k2))
            = rotation (config (this (fresh_sink (set_file (Some fd) w1))))).
    rewrite Hc. reflexivity. }
  rewrite Hop, Hos.
  destruct (OpenFile_ok (os s) fname open_flags 420 Ho)
    as (_ & _ & Htr & _). rewrite <- HW1, <- Hfd in Htr.
  destruct (redirect_ok W1 fd fname Hfdt) as (_ & Ht2 & _).
  destruct (negb (String.eqb (OS.Getenv (os s) "LOGGER_MODE") "debug")).
  - rewrite Ht2, Htr, !opens_app. cbn. rewrite app_nil_r. reflexivity.
  - rewrite Htr, opens_app. reflexivity.
Qed.

(** A run of C3: a record is processed and nothing rotates. *)
Lemma C3_no_rotation_after_construction_witness :
  exists k1 k2 fd,
    heap (snd (Sample.construct Sample.W0 "m")) !! 0%nat = Some k1 /\
    heap (Sample.after (Produce Sample.hello :: Tick 5000 :: Work :: nil)
            (snd (Sample.construct Sample.W0 "m"))) !! 0%nat = Some k2 /\
    rotation (this k2) = rotation (this k1) /\
    opens (trace (os (Sample.after
                        (Produce Sample.hello :: Tick 5000 :: Work :: nil)
                        (snd (Sample.construct Sample.W0 "m")))))
      = opens (trace Sample.W0) ++ EvOpen "a.log" open_flags 420 (Some fd) :: nil.
Proof.
  apply (C3_no_rotation_after_construction true 2 Sample.render Sample.quote
           "a.log" "m" 3 {| os := Sample.W0; heap := ∅ |} 0%nat
           (snd (Sample.construct Sample.W0 "m"))
           (Produce Sample.hello :: Tick 5000 :: Work :: nil)).
  - vm_compute. reflexivity.
  - vm_compute. reflexivity.
Defined.

(** C3 as stated fails.  The writer is built at time 1000 with the minute
    unit, so its deadline is 1020.  A record is submitted, the clock goes to
    6000, and the worker processes the record: it is written, the deadline is
    still 1020, which is not in the future, and the only open is the one of
    construction. *)
Lemma C3_counterexample :
  exists s2 k,
    exec true 2 Sample.render Sample.quote 0
      (Produce Sample.hello :: Tick 5000 :: Work :: nil)
      (snd (Sample.construct Sample.W0 "m")) = Some s2 /\
    heap s2 !! 0%nat = Some k /\
    written k = Sample.hello :: nil /\
    now (os s2) = 6000 /\
    rolloverAt (this k) = 1020 /\
    ~ now (os s2) < rolloverAt (this k) /\
    length (opens (trace (os s2))) = 1%nat.
Proof.
  eexists _, _. split; [vm_compute; reflexivity|].
  split; [vm_compute; reflexivity|].
  split; [vm_compute; reflexivity|].
  split; [vm_compute; reflexivity|].
  split; [vm_compute; reflexivity|].
  split; [vm_compute; intros H; discriminate H | vm_compute; reflexivity].
Qed.

(** ** C8: the redirection *)

(** C8.  When the writer opens its file and LOGGER_MODE is not "debug", the
    descriptor of the file is duplicated onto descriptors 1 and 2, which
    from then on name the log file, so that what is written on them is
    appended to it; these two dup2 calls are the only ones, whatever is
    submitted, written or closed afterwards.  When LOGGER_MODE
    is "debug" no dup2 call is made, at construction or later, and every
    descriptor other than the new one names what it named before. *)
Theorem C8_redirection B L F q fname when_ bc s p s1 acts s2 :
  NewPanicFileLogWriter L q fname when_ bc s = (Some p, s1) ->
  exec B L F q p acts s1 = Some s2 ->
  exists k fd,
    heap s1 !! p = Some k /\ file (this k) = Some fd /\
    fdt (os s1) !! fd = Some (Regular fname) /\
    (OS.Getenv (os s) "LOGGER_MODE" <> "debug" ->
       fdt (os s1) !! OS.Stdout = Some (Regular fname) /\
       fdt (os s1) !! OS.Stderr = Some (Regular fname) /\
       dups (trace (os s1))
         = dups (trace (os s)) ++ EvDup2 fd OS.Stdout :: EvDup2 fd OS.Stderr :: nil /\
       dups (trace (os s2)) = dups (trace (os s1)) /\
       (forall d,
          io_res (os s1) (nwrites (os s1)) = None ->
          content (fst (OS.Write (os s1) OS.Stdout d)) fname
            = content (os s1) fname ++ d /\
          content (fst (OS.Write (os s1) OS.Stderr d)) fname
            = content (os s1) fname ++ d)) /\
    (OS.Getenv (os s) "LOGGER_MODE" = "debug" ->
       dups (trace (os s1)) = dups (trace (os s)) /\
       dups (trace (os s2)) = dups (trace (os s)) /\
       forall n, n <> fd -> fdt (os s1) !! n = fdt (os s) !! n).
Proof.
  intros HN HE.
  destruct (New_success _ _ _ _ _ _ _ _ HN)
    as (path & w1 & fd & W1 & Ha & Ho & Hw1 & Hfd & HW1 & Hp & Hh & Hos & Hfdt).
  assert (Hk1 : heap s1 !! p = Some (fresh_sink (set_file (Some fd) w1)))
    by (rewrite Hh; apply lookup_insert_eq).
  destruct (exec_frame _ _ _ _ _ _ _ _ _ Hk1 HE) as (k2 & Hk2 & _ & _ & Hd & _).
  destruct (OpenFile_ok (os s) fname open_flags 420 Ho)
    as (_ & Hf1 & Htr & Hfs & _).
  rewrite <- HW1 in Htr, Hf1, Hfs. rewrite <- Hfd in Htr, Hf1.
  destruct (redirect_ok W1 fd fname Hfdt) as (Hf2 & Ht2 & Hfs2 & _).
  assert (Hex : is_Some (fs W1 !! fname)).
  { rewrite Hfs. destruct (fs (os s) !! fname) eqn:E.
    - rewrite E. eauto.
    - rewrite lookup_insert_eq. eauto. }
  exists (fresh_sink (set_file (Some fd) w1)), fd.
  split; [assumption|]. split; [reflexivity|].
  destruct (String.eqb_spec (OS.Getenv (os s) "LOGGER_MODE") "debug") as [Hdbg|Hdbg];
    cbn [negb] in Hos.
  - split; [rewrite Hos; exact Hfdt|]. split; [intros Hn; contradiction|].
    intros _. rewrite Hd, Hos, Htr, dups_app. cbn. rewrite app_nil_r.
    repeat split. intros n Hn. rewrite Hf1. apply lookup_insert_ne. congruence.
  - split.
    { rewrite Hos, Hf2, !lookup_insert. repeat case_decide; try reflexivity.
      exact Hfdt. }
    split; [|intros Hn; contradiction].
    intros _. rewrite Hd, Hos, Hf2, Ht2, Htr, !dups_app. cbn.
    rewrite app_nil_r.
    assert (H1 : (<[2%nat:=Regular fname]> (<[1%nat:=Regular fname]> (fdt W1)))
                   !! OS.Stdout = Some (Regular fname))
      by (rewrite lookup_insert_ne by discriminate; apply lookup_insert_eq).
    assert (H2 : (<[2%nat:=Regular fname]> (<[1%nat:=Regular fname]> (fdt W1)))
                   !! OS.Stderr = Some (Regular fname))
      by apply lookup_insert_eq.
    split; [exact H1|]. split; [exact H2|].
    split; [reflexivity|]. split; [reflexivity|].
    intros d Hio. rewrite <- Hf2 in H1, H2. rewrite <- Hfs2 in Hex.
    split; apply Write_regular_accept; assumption.
Qed.

(** A run of C8 outside debug mode. *)
Lemma C8_redirection_witness :
  exists k fd,
    heap (snd (Sample.construct Sample.W0 "h")) !! 0%nat = Some k /\
    file (this k) = Some fd /\
    fdt (os (snd (Sample.construct Sample.W0 "h"))) !! OS.Stdout
      = Some (Regular "a.log") /\
    fdt (os (snd (Sample.construct Sample.W0 "h"))) !! OS.Stderr
      = Some (Regular "a.log") /\
    dups (trace (os (Sample.after (Produce Sample.hello :: Work :: nil)
                       (snd (Sample.construct Sample.W0 "h")))))
      = EvDup2 fd OS.Stdout :: EvDup2 fd OS.Stderr :: nil.
Proof.
  destruct (C8_redirection true 2 Sample.render Sample.quote
              "a.log" "h" 3 {| os := Sample.W0; heap := ∅ |} 0%nat
              (snd (Sample.construct Sample.W0 "h"))
              (Produce Sample.hello :: Work :: nil)
              (Sample.after (Produce Sample.hello :: Work :: nil)
                 (snd (Sample.construct Sample.W0 "h"))))
    as (k & fd & Hk & Hf & _ & Hnd & _).
  - vm_compute. reflexivity.
  - vm_compute. reflexivity.
  - destruct Hnd as (H1 & H2 & H3 & H4 & _); [vm_compute; discriminate|].
    exists k, fd. split; [exact Hk|]. split; [exact Hf|].
    split; [exact H1|]. split; [exact H2|].
    rewrite H4. exact H3.
Defined.

(** ** One record through the loop *)

Lemma Work_record B L F q p s k r rest fd :
  heap s !! p = Some k ->
  goroutine k = WLoop ->
  buf (rec (this k)) = Some r :: rest ->
  file (this k) = Some fd ->
  step B L F q p Work s =
  Some
    (let c := {| buf := rest; cap := cap (rec (this k));
                 closed := closed (rec (this k)) |} in
     match OS.Write (os s) fd (payload F (format (this k)) r) with
     | (W, None) =>
         put p W {| this := set_rec c (this k); goroutine := WLoop;
                    closing := closing k;
                    consumed := consumed k ++ Some r :: nil;
                    written := written k ++ r :: nil |} s
     | (W, Some e) =>
         put p (OS.eprint W (errmsg q (this k) e))
           {| this := set_rec c (this k); goroutine := WReturning;
              closing := closing k;
              consumed := consumed k ++ Some r :: nil;
              written := written k |} s
     end).
Proof.
  intros Hk Hg Hb Hf. unfold step, loop_iter, Channel.recv, file_write.
  rewrite Hk, Hg, Hb. cbn [EndNotify]. cbv zeta.
  cbn [file set_closer set_rec format]. rewrite Hf.
  destruct (OS.Write (os s) fd (payload F (format (this k)) r)) as [W [e|]];
    reflexivity.
Qed.

(** ** C10: the default template and SetFormat *)

(** C10.  A writer is built with the template "[%D %T] [%L] (%S) %M", and
    no step of the producers, the worker or the caller of [Close] changes
    it: as long as [SetFormat] is not called, the loop hands every record
    without binary payload to the file as the rendering of that template.
    [SetFormat] stores the new template, leaves every other field of the
    writer, its goroutine, every other writer and the system as they were,
    and returns the pointer it was called on. *)
Theorem C10_format B L F q :
  (forall fname when_ bc s p s1 acts s2,
     NewPanicFileLogWriter L q fname when_ bc s = (Some p, s1) ->
     exec B L F q p acts s1 = Some s2 ->
     exists k2 fd,
       heap s2 !! p = Some k2 /\ file (this k2) = Some fd /\
       format (this k2) = "[%D %T] [%L] (%S) %M" /\
       forall r rest,
         goroutine k2 = WLoop ->
         buf (rec (this k2)) = Some r :: rest ->
         Binary r = None ->
         exists s3 tl,
           step B L F q p Work s2 = Some s3 /\
           trace (os s3) =
             trace (os s2)
             ++ EvWrite fd (list_byte_of_string (F "[%D %T] [%L] (%S) %M" r))
                :: tl) /\
  (forall p fmt s k,
     heap s !! p = Some k ->
     fst (SetFormat p fmt s) = p /\
     os (snd (SetFormat p fmt s)) = os s /\
     (forall p', p' <> p ->
        heap (snd (SetFormat p fmt s)) !! p' = heap s !! p') /\
     exists k',
       heap (snd (SetFormat p fmt s)) !! p = Some k' /\
       format (this k') = fmt /\
       closer (this k') = closer (this k) /\ rec (this k') = rec (this k) /\
       filename (this k') = filename (this k) /\
       baseFilename (this k') = baseFilename (this k) /\
       file (this k') = file (this k) /\ when (this k') = when (this k) /\
       backupCount (this k') = backupCount (this k) /\
       rotation (this k') = rotation (this k) /\
       goroutine k' = goroutine k /\ closing k' = closing k /\
       consumed k' = consumed k /\ written k' = written k).
Proof.
  split.
  - intros fname when_ bc s p s1 acts s2 HN HE.
    destruct (New_success _ _ _ _ _ _ _ _ HN)
      as (path & w1 & fd & W1 & Ha & Ho & Hw1 & Hfd & HW1 & Hp & Hh & Hos & Hfdt).
    assert (Hk1 : heap s1 !! p = Some (fresh_sink (set_file (Some fd) w1)))
      by (rewrite Hh; apply lookup_insert_eq).
    destruct (exec_frame _ _ _ _ _ _ _ _ _ Hk1 HE) as (k2 & Hk2 & Hc & _).
    assert (Hfile : file (this k2) = Some fd).
    { change (file (config (this k2)) = Some fd). rewrite Hc. reflexivity. }
    assert (Hfmt : format (this k2) = "[%D %T] [%L] (%S) %M").
    { change (format (config (this k2)) = "[%D %T] [%L] (%S) %M"). rewrite Hc.
      cbn [this fresh_sink config set_closer set_rec set_file format].
      rewrite Hw1. etrans; [apply prepare_frame | reflexivity]. }
    exists k2, fd. repeat split; try assumption.
    intros r rest Hg Hb Hbin.
    rewrite (Work_record B L F q p s2 k2 r rest fd Hk2 Hg Hb Hfile).
    cbv zeta. unfold payload. rewrite Hbin, Hfmt.
    pose proof (Write_frame (os s2) fd
                  (list_byte_of_string (F "[%D %T] [%L] (%S) %M" r))) as (Ht & _).
    destruct (OS.Write (os s2) fd
                (list_byte_of_string (F "[%D %T] [%L] (%S) %M" r)))
      as [W [e|]]; cbn [fst] in Ht.
    + eexists _, _. split; [reflexivity|]. cbn [put os].
      destruct (eprint_frame W (errmsg q (this k2) e)) as (Ht' & _).
      rewrite Ht', Ht, <- app_assoc. reflexivity.
    + eexists _, nil. split; [reflexivity|]. exact Ht.
  - intros p fmt s k Hk. unfold SetFormat. cbn [fst snd os heap].
    split; [reflexivity|]. split; [reflexivity|]. split.
    { intros p' Hp'. apply lookup_alter_ne. congruence. }
    eexists. split.
    { rewrite lookup_alter_eq, Hk. reflexivity. }
    repeat split.
Qed.

(** A run of C10: the template is still the default one after a record,
    and SetFormat returns its receiver. *)
Lemma C10_format_witness :
  (exists k2 fd,
     heap (Sample.after (Produce Sample.raw :: Work :: nil)
             (snd (Sample.construct Sample.W0 "h"))) !! 0%nat = Some k2 /\
     file (this k2) = Some fd /\
     format (this k2) = "[%D %T] [%L] (%S) %M") /\
  fst (SetFormat 0 "%M" (snd (Sample.construct Sample.W0 "h"))) = 0%nat.
Proof.
  destruct (C10_format true 2 Sample.render Sample.quote) as [H1 H2]. split.
  - destruct (H1 "a.log" "h" 3 {| os := Sample.W0; heap := ∅ |} 0%nat
                (snd (Sample.construct Sample.W0 "h"))
                (Produce Sample.raw :: Work :: nil)
                (Sample.after (Produce Sample.raw :: Work :: nil)
                   (snd (Sample.construct Sample.W0 "h"))))
      as (k2 & fd & Hk & Hf & Hfmt & _).
    + vm_compute. reflexivity.
    + vm_compute. reflexivity.
    + exists k2, fd. split; [exact Hk|]. split; [exact Hf | exact Hfmt].
  - destruct (H2 0%nat "%M" (snd (Sample.construct Sample.W0 "h"))
                (fresh_sink (set_file (Some 3%nat)
                   (prepare Sample.W0
                      (set_baseFilename "/cwd/a.log"
                         (set_closer LogCloserInit
                            (literal 2 "a.log" "H" 3)))))))
      as (Hr & _).
    + vm_compute. reflexivity.
    + exact Hr.
Defined.

(** A run of C9: the directory cannot be written, construction returns nil
    and the report reaches the terminal. *)
Lemma C9_construction_witness :
  fst (Sample.construct Sample.W_denied "h") = None /\
  heap (snd (Sample.construct Sample.W_denied "h")) = ∅ /\
  exists e tr,
    (abs_res Sample.W_denied "a.log" = inr e \/
     open_err Sample.W_denied "a.log" = Some e) /\
    trace (os (snd (Sample.construct Sample.W_denied "h"))) =
      tr ++ EvWrite OS.Stderr
              (list_byte_of_string
                 ("FileLogWriter(" +:+ Sample.quote "a.log" +:+ "): " +:+ e +:+ nl))
            :: nil /\
    tty_err (os (snd (Sample.construct Sample.W_denied "h"))) =
      list_byte_of_string
        ("FileLogWriter(" +:+ Sample.quote "a.log" +:+ "): " +:+ e +:+ nl).
Proof.
  destruct (C9_construction 2 Sample.quote "a.log" "h" 3
              {| os := Sample.W_denied; heap := ∅ |})
    as (Hiff & _ & Hfail & _).
  assert (Hnone : fst (Sample.construct Sample.W_denied "h") = None).
  { apply Hiff. right. exists "permission denied". reflexivity. }
  split; [exact Hnone|].
  destruct (Hfail Hnone) as (Hh & e & tr & Hc & Ht & Htty).
  split; [exact Hh|].
  exists e, tr. split; [exact Hc|]. split; [exact Ht|].
  apply Htty. vm_compute. reflexivity.
Defined.

(** ** The invariant of the running system *)

Lemma LogWrite_accepted B L w m c :
  LogWrite B L w m = Accepted c ->
  c = {| buf := buf (rec w) ++ m :: nil; cap := cap (rec w);
         closed := closed (rec w) |} /\
  closed (rec w) = false /\
  (Channel.len (rec w) < cap (rec w))%nat.
Proof.
  unfold LogWrite, Channel.send.
  destruct (negb B && Nat.leb L (Channel.len (rec w))); [discriminate|].
  destruct (closed (rec w)) eqn:Hc; [discriminate|].
  destruct (Nat.ltb_spec (Channel.len (rec w)) (cap (rec w))) as [Hlt|Hge];
    [|discriminate].
  intros H; injection H as <-. repeat split. assumption.
Qed.

Lemma send_sent c m c' :
  Channel.send c m = Channel.Sent c' ->
  c' = {| buf := buf c ++ m :: nil; cap := cap c; closed := closed c |} /\
  closed c = false.
Proof.
  unfold Channel.send. destruct (closed c) eqn:Hc; [discriminate|].
  destruct (Nat.ltb (Channel.len c) (cap c)); [|discriminate].
  intros H; injection H as <-. split; reflexivity.
Qed.

Lemma Work_drain B L F q p s k rest :
  heap s !! p = Some k ->
  goroutine k = WLoop ->
  buf (rec (this k)) = None :: rest ->
  step B L F q p Work s =
  Some (put p (os s)
          {| this := set_closer {| IsEnd := true |}
                       (set_rec {| buf := rest; cap := cap (rec (this k));
                                   closed := closed (rec (this k)) |} (this k));
             goroutine := WReturning; closing := closing k;
             consumed := consumed k ++ None :: nil;
             written := written k |} s).
Proof.
  intros Hk Hg Hb. unfold step, loop_iter, Channel.recv.
  rewrite Hk, Hg, Hb. reflexivity.
Qed.

Lemma Work_empty B L F q p s k :
  heap s !! p = Some k ->
  goroutine k = WLoop ->
  buf (rec (this k)) = nil ->
  step B L F q p Work s =
  if closed (rec (this k))
  then Some (put p (os s)
               {| this := this k; goroutine := WReturning;
                  closing := closing k; consumed := consumed k;
                  written := written k |} s)
  else None.
Proof.
  intros Hk Hg Hb. unfold step, loop_iter, Channel.recv.
  rewrite Hk, Hg, Hb. destruct (closed (rec (this k))); reflexivity.
Qed.

Section Invariant.

Variable LogWithBlocking : bool.
Variable LogBufferLength : nat.
Variable FormatLogRecord : string -> LogRecord -> string.
Variable quote : string -> string.

Local Abbreviation sys_step := (step LogWithBlocking LogBufferLength FormatLogRecord quote).
Local Abbreviation sys_exec := (exec LogWithBlocking LogBufferLength FormatLogRecord quote).
Local Abbreviation sys_sent :=
  (sent_during LogWithBlocking LogBufferLength FormatLogRecord quote).
Local Abbreviation sys_enqueued := (enqueued LogWithBlocking LogBufferLength).
Local Abbreviation sys_Inv := (Inv FormatLogRecord).

Variable fname : string.
Variable fd : nat.
Variable fmt : string.
Variable d0 : list Byte.byte.
Variable c0 : list Event.
Variable p : nat.

Lemma Inv_step a s s' :
  sys_Inv fname fd fmt d0 c0 p s ->
  sys_step p a s = Some s' ->
  sys_Inv fname fd fmt d0 c0 p s'.
Proof.
  intros (k & tl & junk & Hk & Hfn & Hfile & Hfmt & Hex & Hcons & Hcont
          & HL & HE & HO & HD & HR & HNR) Hstep.
  destruct a as [r| | | | |dt].
  - (* Produce *)
    unfold step in Hstep. rewrite Hk in Hstep.
    destruct (LogWrite LogWithBlocking LogBufferLength (this k) (Some r))
      as [c| | |] eqn:ELW; try discriminate; injection Hstep as <-.
    + destruct (LogWrite_accepted _ _ _ _ _ ELW) as (-> & Hc & _).
      exists (with_rec {| buf := buf (rec (this k)) ++ Some r :: nil;
                          cap := cap (rec (this k));
                          closed := closed (rec (this k)) |} (closing k) k),
             tl, junk.
      split; [apply lookup_insert_eq|]. repeat split; try assumption;
        try (apply HL; assumption); try (apply HE; assumption);
        try (apply HO; assumption); try (apply HR; assumption).
    + exists k, tl, junk. repeat split; try assumption;
        try (apply HL; assumption); try (apply HE; assumption);
        try (apply HO; assumption); try (apply HR; assumption).
  - (* Work *)
    destruct (goroutine k) eqn:Hg;
      try (unfold step in Hstep; rewrite Hk, Hg in Hstep; discriminate).
    destruct HL as (-> & -> & Hend); [reflexivity|].
    destruct HO as (Hfd & Hcl); [discriminate|].
    destruct (buf (rec (this k))) as [|[r|] rest] eqn:Hb.
    + rewrite (Work_empty _ _ _ _ _ _ _ Hk Hg Hb) in Hstep.
      destruct (closed (rec (this k))) eqn:Hc; [|discriminate].
      injection Hstep as <-.
      eexists _, nil, nil. split; [apply lookup_insert_eq|].
      cbn [this goroutine closing consumed written put os].
      repeat split; try assumption; try discriminate;
        try (intros; congruence); try (apply HR; assumption).
      intros Hn. apply HNR in Hn. congruence.
    + rewrite (Work_record _ _ _ _ _ _ _ _ _ _ Hk Hg Hb Hfile) in Hstep.
      cbv zeta in Hstep. rewrite Hfmt in Hstep.
      pose proof (Write_frame (os s) fd (payload FormatLogRecord fmt r))
        as (Htr & Hfdt & _).
      pose proof (Write_content (os s) fd (payload FormatLogRecord fmt r)
                    fname Hex) as (Hex1 & x & Hx).
      pose proof (Write_regular_ok (os s) fd (payload FormatLogRecord fmt r)
                    fname Hfd Hex) as Hok.
      destruct (OS.Write (os s) fd (payload FormatLogRecord fmt r))
        as [W1 [e|]]; cbn [fst snd] in *; injection Hstep as <-.
      * pose proof (eprint_frame W1 (errmsg quote (this k) e))
          as (Htr2 & Hfdt2 & _).
        pose proof (Write_content W1 OS.Stderr
                      (list_byte_of_string (errmsg quote (this k) e))
                      fname Hex1) as (Hex2 & y & Hy).
        fold (OS.eprint W1 (errmsg quote (this k) e)) in Hex2, Hy.
        eexists _, (Some r :: nil), (x ++ y).
        split; [apply lookup_insert_eq|].
        cbn [this goroutine closing consumed written put os
             filename file format set_rec closer rec closed].
        repeat split; try assumption; try discriminate;
          try (intros; congruence); try (apply HR; assumption);
          try (apply HNR; assumption).
        -- rewrite Hcons, app_nil_r. reflexivity.
        -- rewrite Hy, Hx, Hcont, app_nil_r, <- !app_assoc. reflexivity.
        -- rewrite Htr2, Htr, !closes_app. cbn. rewrite !app_nil_r. exact Hcl.
      * specialize (Hok eq_refl).
        eexists _, nil, nil.
        split; [apply lookup_insert_eq|].
        cbn [this goroutine closing consumed written put os
             filename file format set_rec closer rec closed].
        repeat split; try assumption; try discriminate;
          try (intros; congruence); try (apply HR; assumption);
          try (apply HNR; assumption).
        -- rewrite Hcons, map_app, !app_nil_r. reflexivity.
        -- rewrite Hok, Hcont, map_app, concat_app, !app_nil_r. cbn.
           rewrite app_nil_r, app_assoc. reflexivity.
        -- rewrite Htr, closes_app. cbn. rewrite app_nil_r. exact Hcl.
    + rewrite (Work_drain _ _ _ _ _ _ _ _ Hk Hg Hb) in Hstep.
      injection Hstep as <-.
      eexists _, (None :: nil), nil.
      split; [apply lookup_insert_eq|].
      cbn [this goroutine closing consumed written put os
           filename file format set_rec set_closer closer rec closed IsEnd].
      repeat split; try assumption; try discriminate;
        try (intros; congruence); try (apply HR; assumption);
        try (apply HNR; assumption).
      rewrite Hcons, app_nil_r. reflexivity.
  - (* Teardown *)
    unfold step in Hstep. rewrite Hk in Hstep.
    destruct (goroutine k) eqn:Hg; try discriminate.
    unfold deferred in Hstep. rewrite Hfile in Hstep. injection Hstep as <-.
    destruct HO as (Hfd & Hcl); [discriminate|].
    destruct (Close_frame (os s) fd) as (Htr & _ & Hfs & _).
    eexists _, tl, junk.
    split; [apply lookup_insert_eq|].
    cbn [this goroutine closing consumed written put os].
    repeat split; try assumption; try discriminate;
      try (intros; congruence); try (apply HE; assumption);
      try (apply HR; assumption); try (apply HNR; assumption).
    all: try (unfold content; rewrite Hfs; assumption).
    intros _. rewrite Htr, closes_app, Hcl. reflexivity.
  - (* CloseSend *)
    unfold step, Close_request in Hstep. rewrite Hk in Hstep.
    destruct (closing k) eqn:Hc; try discriminate.
    unfold WaitForEnd_send in Hstep.
    destruct (Channel.send (rec (this k)) None) as [c| |] eqn:ES;
      try discriminate.
    injection Hstep as <-.
    destruct (send_sent _ _ _ ES) as (-> & Hcl).
    eexists _, tl, junk.
    split; [apply lookup_insert_eq|].
    cbn [this goroutine closing consumed written put os with_rec
         filename file format set_rec closer rec closed].
    repeat split; try assumption; try discriminate;
      try (apply HL; assumption); try (apply HE; assumption);
      try (apply HO; assumption); try (intros; assumption).
  - (* CloseFinish *)
    unfold step, Close_return in Hstep. rewrite Hk in Hstep.
    destruct (closing k) eqn:Hc; try discriminate.
    unfold WaitForEnd_ready in Hstep.
    assert (Hend : IsEnd (closer (this k)) = true)
      by (destruct (IsEnd (closer (this k))); [reflexivity | discriminate]).
    rewrite Hend in Hstep. injection Hstep as <-.
    eexists _, tl, junk.
    split; [apply lookup_insert_eq|].
    cbn [this goroutine closing consumed written put os with_rec
         filename file format set_rec closer rec closed Channel.close].
    repeat split; try assumption; try discriminate;
      try (apply HL; assumption); try (apply HE; assumption);
      try (apply HO; assumption); try congruence;
      try (intros; assumption).
  - (* Tick *)
    unfold step in Hstep. rewrite Hk in Hstep.
    injection Hstep as <-.
    exists k, tl, junk. repeat split; try assumption;
      try (apply HL; assumption); try (apply HE; assumption);
      try (apply HO; assumption); try (apply HR; assumption).
Qed.

Lemma Inv_exec acts : forall s s',
  sys_Inv fname fd fmt d0 c0 p s ->
  sys_exec p acts s = Some s' ->
  sys_Inv fname fd fmt d0 c0 p s'.
Proof.
  induction acts as [|a acts IH]; intros s s' HI; cbn [exec].
  - intros H; injection H as <-. exact HI.
  - destruct (sys_step p a s) as [s1|] eqn:E; [|discriminate].
    apply IH. eapply Inv_step; eassumption.
Qed.

Lemma step_history a s s' k :
  heap s !! p = Some k ->
  sys_step p a s = Some s' ->
  exists k', heap s' !! p = Some k' /\
             history k' = history k ++ sys_enqueued a k.
Proof.
  intros Hk. unfold step, history, enqueued, Close_request, Close_return.
  rewrite Hk.
  destruct a as [r| | | | |dt].
  - destruct (LogWrite LogWithBlocking LogBufferLength (this k) (Some r))
      as [c| | |] eqn:ELW; intros H; try discriminate; injection H as <-.
    + destruct (LogWrite_accepted _ _ _ _ _ ELW) as (-> & _).
      eexists. split; [apply lookup_insert_eq|]. cbn.
      rewrite app_assoc. reflexivity.
    + exists k. rewrite app_nil_r. split; [assumption | reflexivity].
  - destruct (goroutine k); try discriminate.
    unfold loop_iter, Channel.recv.
    destruct (buf (rec (this k))) as [|m rest] eqn:Hb.
    { destruct (closed (rec (this k))); [|discriminate].
      intros H; injection H as <-. eexists.
      split; [apply lookup_insert_eq|]. cbn. rewrite Hb, !app_nil_r.
      reflexivity. }
    destruct m as [r|]; cbn [EndNotify].
    + match goal with
      | |- context [file_write ?W ?w ?d] => destruct (file_write W w d) as [W1 [e|]]
      end; intros H; injection H as <-; eexists;
        (split; [apply lookup_insert_eq|]); cbn; rewrite app_nil_r, <- app_assoc;
        reflexivity.
    + intros H; injection H as <-. eexists.
      split; [apply lookup_insert_eq|]. cbn. rewrite app_nil_r, <- app_assoc.
      reflexivity.
  - destruct (goroutine k); try discriminate.
    unfold deferred. intros H; injection H as <-. eexists.
    split; [apply lookup_insert_eq|]. cbn. rewrite app_nil_r. reflexivity.
  - destruct (closing k); try discriminate. unfold WaitForEnd_send.
    destruct (Channel.send (rec (this k)) None) as [c| |] eqn:ES;
      try discriminate.
    destruct (send_sent _ _ _ ES) as (-> & _).
    intros H; injection H as <-. eexists.
    split; [apply lookup_insert_eq|]. cbn. rewrite app_assoc. reflexivity.
  - destruct (closing k); try discriminate.
    destruct (WaitForEnd_ready (closer (this k))); try discriminate.
    intros H; injection H as <-. eexists.
    split; [apply lookup_insert_eq|]. cbn. rewrite app_nil_r. reflexivity.
  - intros H; injection H as <-. exists k. rewrite app_nil_r.
    split; [assumption | reflexivity].
Qed.

Lemma exec_history acts : forall s s' k,
  heap s !! p = Some k ->
  sys_exec p acts s = Some s' ->
  exists k', heap s' !! p = Some k' /\
             history k' = history k ++ sys_sent p acts s.
Proof.
  induction acts as [|a acts IH]; intros s s' k Hk;
    cbn [exec sent_during].
  - intros H; injection H as <-. exists k. rewrite app_nil_r.
    split; [assumption | reflexivity].
  - rewrite Hk. destruct (sys_step p a s) as [s1|] eqn:E; [|discriminate].
    intros H.
    destruct (step_history _ _ _ _ Hk E) as (k1 & Hk1 & Hh1).
    destruct (IH _ _ _ Hk1 H) as (k' & Hk' & Hh').
    exists k'. split; [assumption|]. rewrite Hh', Hh1, app_assoc. reflexivity.
Qed.

(** Once the worker has left its loop nothing is written any more. *)
Lemma step_dead a s s' k :
  heap s !! p = Some k ->
  goroutine k <> WLoop ->
  sys_step p a s = Some s' ->
  fs (os s') = fs (os s) /\
  exists k', heap s' !! p = Some k' /\ goroutine k' <> WLoop /\
             written k' = written k /\ consumed k' = consumed k.
Proof.
  intros Hk Hg. unfold step, Close_request, Close_return. rewrite Hk.
  destruct a as [r| | | | |dt].
  - destruct (LogWrite LogWithBlocking LogBufferLength (this k) (Some r));
      intros H; try discriminate; injection H as <-.
    + split; [reflexivity|]. eexists. split; [apply lookup_insert_eq|].
      repeat split. assumption.
    + split; [reflexivity|]. exists k. repeat split; assumption.
  - destruct (goroutine k); try discriminate. contradiction.
  - destruct (goroutine k); try discriminate.
    unfold deferred. intros H; injection H as <-. split.
    + cbn [put os]. destruct (file (this k)); [apply Close_frame | reflexivity].
    + eexists. split; [apply lookup_insert_eq|]. repeat split. discriminate.
  - destruct (closing k); try discriminate. unfold WaitForEnd_send.
    destruct (Channel.send (rec (this k)) None); try discriminate.
    intros H; injection H as <-. split; [reflexivity|]. eexists.
    split; [apply lookup_insert_eq|]. repeat split. assumption.
  - destruct (closing k); try discriminate.
    destruct (WaitForEnd_ready (closer (this k))); try discriminate.
    intros H; injection H as <-. split; [reflexivity|]. eexists.
    split; [apply lookup_insert_eq|]. repeat split. assumption.
  - intros H; injection H as <-. split; [reflexivity|].
    exists k. repeat split; assumption.
Qed.

Lemma exec_dead acts : forall s s' k,
  heap s !! p = Some k ->
  goroutine k <> WLoop ->
  sys_exec p acts s = Some s' ->
  fs (os s') = fs (os s) /\
  exists k', heap s' !! p = Some k' /\ goroutine k' <> WLoop /\
             written k' = written k /\ consumed k' = consumed k.
Proof.
  induction acts as [|a acts IH]; intros s s' k Hk Hg; cbn [exec].
  - intros H; injection H as <-. split; [reflexivity|].
    exists k. repeat split; assumption.
  - destruct (sys_step p a s) as [s1|] eqn:E; [|discriminate]. intros H.
    destruct (step_dead _ _ _ _ Hk Hg E) as (Hfs1 & k1 & Hk1 & Hg1 & Hw1 & Hc1).
    destruct (IH _ _ _ Hk1 Hg1 H) as (Hfs' & k' & Hk' & Hg' & Hw' & Hc').
    split; [congruence|]. exists k'. repeat split; try assumption; congruence.
Qed.

Lemma exec_app a1 : forall a2 s,
  sys_exec p (a1 ++ a2) s =
  match sys_exec p a1 s with Some s1 => sys_exec p a2 s1 | None => None end.
Proof.
  induction a1 as [|a a1 IH]; intros a2 s; cbn [app exec].
  - reflexivity.
  - destruct (sys_step p a s); [apply IH | reflexivity].
Qed.

End Invariant.

(** Construction establishes the invariant. *)
Lemma Inv_init L F q fname when_ bc s p s1 :
  NewPanicFileLogWriter L q fname when_ bc s = (Some p, s1) ->
  exists fd,
    Inv F fname fd "[%D %T] [%L] (%S) %M" (content (os s) fname)
      (closes (trace (os s))) p s1 /\
    exists k1, heap s1 !! p = Some k1 /\ history k1 = nil /\
               file (this k1) = Some fd.
Proof.
  intros HN.
  destruct (New_success _ _ _ _ _ _ _ _ HN)
    as (path & w1 & fd & W1 & Ha & Ho & Hw1 & Hfd & HW1 & Hp & Hh & Hos & Hfdt).
  destruct (OpenFile_ok (os s) fname open_flags 420 Ho)
    as (_ & Hf1 & Htr & Hfs & _).
  rewrite <- HW1 in Htr, Hf1, Hfs. rewrite <- Hfd in Htr, Hf1.
  destruct (redirect_ok W1 fd fname Hfdt) as (Hf2 & Ht2 & Hs2 & _).
  assert (Hfr : filename w1 = fname /\ format w1 = "[%D %T] [%L] (%S) %M" /\
                rec w1 = Channel.make L /\ closer w1 = LogCloserInit).
  { rewrite Hw1.
    match goal with
    | |- context [prepare ?W ?w] =>
        destruct (prepare_frame W w) as (F1 & F2 & F3 & _ & _ & F6 & _)
    end.
    rewrite F1, F2, F3, F6. repeat split. }
  destruct Hfr as (Hn & Hfm & Hrc & Hlc).
  assert (HW : fdt (os s1) !! fd = Some (Regular fname) /\
               closes (trace (os s1)) = closes (trace (os s)) /\
               fs (os s1) = fs W1).
  { rewrite Hos.
    destruct (negb (String.eqb (OS.Getenv (os s) "LOGGER_MODE") "debug")).
    - rewrite Hf2, Ht2, Hs2, Htr, !closes_app. cbn. rewrite !app_nil_r.
      split; [|split; reflexivity].
      rewrite !lookup_insert. repeat case_decide; try reflexivity. exact Hfdt.
    - rewrite Htr, closes_app. cbn. rewrite app_nil_r.
      split; [exact Hfdt | split; reflexivity]. }
  destruct HW as (HWf & HWc & HWs).
  exists fd. split.
  - exists (fresh_sink (set_file (Some fd) w1)), nil, nil.
    split; [rewrite Hh; apply lookup_insert_eq|].
    cbn [this goroutine closing consumed written fresh_sink
         filename file format set_file closer rec].
    rewrite Hn, Hfm, Hrc, Hlc.
    split; [reflexivity|]. split; [reflexivity|]. split; [reflexivity|].
    split.
    { rewrite HWs, Hfs. destruct (fs (os s) !! fname) eqn:E.
      - rewrite E. eauto.
      - rewrite lookup_insert_eq. eauto. }
    split; [reflexivity|]. split.
    { unfold content. rewrite HWs, Hfs. cbn. rewrite !app_nil_r.
      destruct (fs (os s) !! fname) eqn:E.
      - rewrite E. reflexivity.
      - rewrite lookup_insert_eq. reflexivity. }
    repeat split; try assumption; try discriminate.
  - exists (fresh_sink (set_file (Some fd) w1)).
    split; [rewrite Hh; apply lookup_insert_eq|].
    unfold history. cbn [this consumed fresh_sink rec set_file file].
    rewrite Hrc. split; reflexivity.
Qed.

(** ** C7: the write of a record *)

Lemma Write_fail_tty W fd d e :
  snd (OS.Write W fd d) = Some e ->
  tty_err (fst (OS.Write W fd d)) = tty_err W.
Proof.
  unfold OS.Write. cbn [OS.log fdt nwrites io_res].
  destruct (fdt W !! fd) as [[| |path]|]; cbn [fst snd]; try discriminate.
  - destruct (io_res W (nwrites W)) as [[n e']|]; cbn [fst snd];
      [reflexivity | discriminate].
  - reflexivity.
Qed.

Lemma append_empty (x : string) : x +:+ "" = x.
Proof.
  induction x as [|c x IH]; [reflexivity|].
  change (String c (x +:+ "") = String c x). rewrite IH. reflexivity.
Qed.

(** C7, amended.  The worker hands to the file the binary payload of the
    record as it is when there is one, and otherwise the rendering of the
    record by the configured template.  When the write succeeds these bytes
    are appended to the file and the loop goes on.  When it fails, the line
    FileLogWriter(<quoted file name>): <error> is written on descriptor 2
    and the loop is left: the record is not retried and no further record is
    processed.  Descriptor 2 is the terminal only if it was not redirected;
    a writer activated outside debug mode has redirected it to the log file,
    and then nothing reaches the original error stream.  With the template
    of the specification, the format %M renders a record as its message. *)
Theorem C7_write :
  (forall B L F q p s k r rest fd,
     heap s !! p = Some k ->
     goroutine k = WLoop ->
     buf (rec (this k)) = Some r :: rest ->
     file (this k) = Some fd ->
     exists d s' k',
       d = match Binary r with
           | Some b => b
           | None => list_byte_of_string (F (format (this k)) r)
           end /\
       step B L F q p Work s = Some s' /\
       heap s' !! p = Some k' /\
       buf (rec (this k')) = rest /\
       match snd (OS.Write (os s) fd d) with
       | None =>
           trace (os s') = trace (os s) ++ EvWrite fd d :: nil /\
           goroutine k' = WLoop /\
           written k' = written k ++ r :: nil /\
           (forall path,
              fdt (os s) !! fd = Some (Regular path) ->
              is_Some (fs (os s) !! path) ->
              content (os s') path = content (os s) path ++ d)
       | Some e =>
           let msg := list_byte_of_string
                        ("FileLogWriter(" +:+ q (filename (this k)) +:+ "): "
                         +:+ e +:+ nl) in
           trace (os s')
             = trace (os s) ++ EvWrite fd d :: EvWrite OS.Stderr msg :: nil /\
           goroutine k' = WReturning /\
           written k' = written k /\
           step B L F q p Work s' = None /\
           (fdt (os s) !! OS.Stderr = Some TtyErr ->
            tty_err (os s') = tty_err (os s) ++ msg) /\
           (forall path,
              fdt (os s) !! OS.Stderr = Some (Regular path) ->
              tty_err (os s') = tty_err (os s))
       end) /\
  (forall fmt_date fmt_time fmt_level r,
     FormatLogRecord_spec fmt_date fmt_time fmt_level "%M" r = Message r) /\
  content
    (os (Sample.after (Produce Sample.hello :: Work :: nil)
           (snd (SetFormat 0 "%M" (snd (Sample.construct Sample.W0 "H"))))))
    "a.log"
  = list_byte_of_string "hello".
Proof.
  split; [|split].
  - intros B L F q p s k r rest fd Hk Hg Hb Hf.
    rewrite (Work_record B L F q p s k r rest fd Hk Hg Hb Hf). cbv zeta.
    change (payload F (format (this k)) r)
      with (match Binary r with
            | Some b => b
            | None => list_byte_of_string (F (format (this k)) r)
            end).
    set (d := match Binary r with
              | Some b => b
              | None => list_byte_of_string (F (format (this k)) r)
              end).
    exists d.
    pose proof (Write_frame (os s) fd d) as (Htr & Hfdt & _).
    pose proof (Write_fail_tty (os s) fd d) as Htty.
    pose proof (fun path => Write_regular_ok (os s) fd d path) as Hok.
    destruct (OS.Write (os s) fd d) as [W1 [e|]]; cbn [fst snd] in *;
      eexists _, _; (split; [reflexivity|]).
    + split; [reflexivity|]. split; [apply lookup_insert_eq|].
      split; [reflexivity|].
      cbn [put os goroutine written].
      destruct (eprint_frame W1 (errmsg q (this k) e)) as (Htr2 & _).
      split; [rewrite Htr2, Htr, <- app_assoc; reflexivity|].
      split; [reflexivity|]. split; [reflexivity|]. split.
      { unfold step. cbn [heap put]. rewrite lookup_insert_eq. reflexivity. }
      unfold OS.eprint.
      destruct (Write_tty W1 OS.Stderr
                  (list_byte_of_string (errmsg q (this k) e))) as [Ht _].
      rewrite Ht, Hfdt, (Htty e eq_refl). split.
      * intros H2. rewrite H2. reflexivity.
      * intros path H2. rewrite H2. reflexivity.
    + split; [reflexivity|]. split; [apply lookup_insert_eq|].
      split; [reflexivity|].
      cbn [put os goroutine written].
      split; [exact Htr|]. split; [reflexivity|]. split; [reflexivity|].
      intros path Hp Hs. apply Hok; [assumption | assumption | reflexivity].
  - intros fmt_date fmt_time fmt_level r. cbn. apply append_empty.
  - vm_compute. reflexivity.
Qed.

(** A run of C7: a binary record goes to the file as it is. *)
Lemma C7_write_witness :
  let s := Sample.after (Produce Sample.raw :: nil)
             (snd (Sample.construct Sample.W0 "h")) in
  exists s' k',
    step true 2 Sample.render Sample.quote 0 Work s = Some s' /\
    heap s' !! 0%nat = Some k' /\
    goroutine k' = WLoop /\
    written k' = Sample.raw :: nil /\
    content (os s') "a.log" = Byte.x00 :: Byte.xff :: nil.
Proof.
  cbv zeta.
  destruct C7_write as (H & _).
  destruct (H true 2%nat Sample.render Sample.quote 0%nat
              (Sample.after (Produce Sample.raw :: nil)
                 (snd (Sample.construct Sample.W0 "h")))
              (Sample.sink_of
                 (Sample.after (Produce Sample.raw :: nil)
                    (snd (Sample.construct Sample.W0 "h"))))
              Sample.raw nil 3%nat)
    as (d & s' & k' & Hd & Hs & Hk & _ & Hm).
  - vm_compute. reflexivity.
  - vm_compute. reflexivity.
  - vm_compute. reflexivity.
  - vm_compute. reflexivity.
  - exists s', k'. split; [exact Hs|]. split; [exact Hk|].
    assert (Hd' : d = Byte.x00 :: Byte.xff :: nil) by (rewrite Hd; reflexivity).
    subst d.
    assert (Hw : snd (OS.Write
                        (os (Sample.after (Produce Sample.raw :: nil)
                               (snd (Sample.construct Sample.W0 "h"))))
                        3 (Byte.x00 :: Byte.xff :: nil)) = None)
      by (vm_compute; reflexivity).
    rewrite Hd', Hw in Hm. destruct Hm as (_ & Hg & Hwr & Hc).
    split; [exact Hg|]. split; [exact Hwr|].
    apply (Hc "a.log"); vm_compute; eauto.
Defined.

(** C7 as stated fails on the destination of the report.  The writer is
    activated outside debug mode, so descriptor 2 names the log file.  The
    device refuses the write of the record; the report is written on
    descriptor 2 and lands in a.log, the terminal receives nothing, and the
    worker has left its loop. *)
Lemma C7_counterexample :
  exists s2 k,
    exec true 2 Sample.render Sample.quote 0
      (Produce Sample.hello :: Work :: nil)
      (snd (Sample.construct Sample.W_full "h")) = Some s2 /\
    heap s2 !! 0%nat = Some k /\
    goroutine k = WReturning /\
    written k = nil /\
    fdt (os s2) !! OS.Stderr = Some (Regular "a.log") /\
    tty_err (os s2) = nil /\
    content (os s2) "a.log"
      = list_byte_of_string
          ("FileLogWriter(" +:+ Sample.quote "a.log"
           +:+ "): no space left on device" +:+ nl).
Proof.
  eexists _, _. split; [vm_compute; reflexivity|].
  split; [vm_compute; reflexivity|].
  repeat split; vm_compute; reflexivity.
Qed.

(** ** C5: the producer side *)

Lemma Work_dequeues B L F q p s k m rest :
  heap s !! p = Some k ->
  goroutine k = WLoop ->
  buf (rec (this k)) = m :: rest ->
  exists s1 k1,
    step B L F q p Work s = Some s1 /\
    heap s1 !! p = Some k1 /\
    rec (this k1) = {| buf := rest; cap := cap (rec (this k));
                       closed := closed (rec (this k)) |}.
Proof.
  intros Hk Hg Hb. unfold step, loop_iter, Channel.recv.
  rewrite Hk, Hg, Hb. destruct m as [r|]; cbn [EndNotify].
  - match goal with
    | |- context [file_write ?W ?w ?d] => destruct (file_write W w d) as [W1 [e|]]
    end; eexists _, _; (split; [reflexivity|]);
      (split; [apply lookup_insert_eq | reflexivity]).
  - eexists _, _. split; [reflexivity|].
    split; [apply lookup_insert_eq | reflexivity].
Qed.

Lemma LogWrite_blocking L w m :
  closed (rec w) = false ->
  LogWrite true L w m =
  if Nat.ltb (Channel.len (rec w)) (cap (rec w))
  then Accepted {| buf := buf (rec w) ++ m :: nil; cap := cap (rec w);
                   closed := closed (rec w) |}
  else Suspends.
Proof.
  intros Hc. unfold LogWrite, Channel.send. cbn [negb andb]. rewrite Hc.
  destruct (Nat.ltb (Channel.len (rec w)) (cap (rec w))); reflexivity.
Qed.

(** A closed queue stays closed. *)
Lemma closed_step B L F q p a s s' k :
  heap s !! p = Some k ->
  step B L F q p a s = Some s' ->
  exists k', heap s' !! p = Some k' /\
             (closed (rec (this k)) = true -> closed (rec (this k')) = true).
Proof.
  intros Hk. unfold step, Close_request, Close_return. rewrite Hk.
  destruct a as [r| | | | |dt].
  - destruct (LogWrite B L (this k) (Some r)) as [c| | |] eqn:ELW;
      intros H; try discriminate; injection H as <-.
    + destruct (LogWrite_accepted _ _ _ _ _ ELW) as (-> & _).
      eexists. split; [apply lookup_insert_eq|]. intros Hc. exact Hc.
    + exists k. split; [assumption | auto].
  - destruct (goroutine k); try discriminate.
    unfold loop_iter, Channel.recv.
    destruct (buf (rec (this k))) as [|m rest] eqn:Hb.
    { destruct (closed (rec (this k))) eqn:Hcl; [|discriminate].
      intros H; injection H as <-. eexists.
      split; [apply lookup_insert_eq|]. intros _. exact Hcl. }
    destruct m as [r|]; cbn [EndNotify].
    + match goal with
      | |- context [file_write ?W ?w ?d] => destruct (file_write W w d) as [W1 [e|]]
      end; intros H; injection H as <-; eexists;
        (split; [apply lookup_insert_eq|]); intros Hc; exact Hc.
    + intros H; injection H as <-. eexists.
      split; [apply lookup_insert_eq|]. intros Hc. exact Hc.
  - destruct (goroutine k); try discriminate.
    unfold deferred. intros H; injection H as <-. eexists.
    split; [apply lookup_insert_eq | auto].
  - destruct (closing k); try discriminate. unfold WaitForEnd_send.
    destruct (Channel.send (rec (this k)) None) as [c| |] eqn:ES;
      try discriminate.
    destruct (send_sent _ _ _ ES) as (-> & _).
    intros H; injection H as <-. eexists.
    split; [apply lookup_insert_eq|]. intros Hc. exact Hc.
  - destruct (closing k); try discriminate.
    destruct (WaitForEnd_ready (closer (this k))); try discriminate.
    intros H; injection H as <-. eexists.
    split; [apply lookup_insert_eq | reflexivity].
  - intros H; injection H as <-. exists k. split; [assumption | auto].
Qed.

Lemma closed_exec B L F q p acts : forall s s' k,
  heap s !! p = Some k ->
  exec B L F q p acts s = Some s' ->
  exists k', heap s' !! p = Some k' /\
             (closed (rec (this k)) = true -> closed (rec (this k')) = true).
Proof.
  induction acts as [|a acts IH]; intros s s' k Hk; cbn [exec].
  - intros H; injection H as <-. exists k. split; [assumption | auto].
  - destruct (step B L F q p a s) as [s1|] eqn:E; [|discriminate]. intros H.
    destruct (closed_step _ _ _ _ _ _ _ _ _ Hk E) as (k1 & Hk1 & Hc1).
    destruct (IH _ _ _ Hk1 H) as (k' & Hk' & Hc').
    exists k'. split; [assumption | auto].
Qed.

(** In blocking mode, while the queue is open, whatever a schedule submits
    is what the queue receives. *)
Lemma sent_blocking L F q p acts : forall s s' k',
  exec true L F q p acts s = Some s' ->
  heap s' !! p = Some k' ->
  closed (rec (this k')) = false ->
  sent_during true L F q p acts s = flat_map submitted acts.
Proof.
  induction acts as [|a acts IH]; intros s s' k' HE Hk' Hopen;
    cbn [exec sent_during flat_map] in *; [reflexivity|].
  destruct (step true L F q p a s) as [s1|] eqn:E; [|discriminate].
  destruct (heap s !! p) as [k|] eqn:Hk;
    [|unfold step in E; rewrite Hk in E; discriminate].
  rewrite (IH _ _ _ HE Hk' Hopen). f_equal.
  destruct (closed_step _ _ _ _ _ _ _ _ _ Hk E) as (k1 & Hk1 & Hc1).
  destruct (closed_exec _ _ _ _ _ _ _ _ _ Hk1 HE) as (k2 & Hk2 & Hc2).
  assert (k2 = k') by congruence. subst k2.
  assert (Hc : closed (rec (this k)) = false).
  { destruct (closed (rec (this k))); [|reflexivity].
    rewrite Hc2 in Hopen by auto. discriminate. }
  destruct a as [r| | | | |dt]; try reflexivity.
  unfold enqueued, submitted. unfold step in E. rewrite Hk in E.
  rewrite (LogWrite_blocking L (this k) (Some r) Hc) in *.
  destruct (Nat.ltb (Channel.len (rec (this k))) (cap (rec (this k))));
    [reflexivity | discriminate].
Qed.

Lemma Stuck_step L F q p a s s' :
  Stuck p s -> step true L F q p a s = Some s' -> Stuck p s'.
Proof.
  intros (k & Hk & Hg & Hc & Hcl & Hfull).
  unfold step, Close_request, Close_return. rewrite Hk.
  destruct a as [r| | | | |dt].
  - rewrite (LogWrite_blocking L (this k) (Some r) Hc).
    destruct (Nat.ltb_spec (Channel.len (rec (this k))) (cap (rec (this k))));
      [lia | discriminate].
  - destruct (goroutine k); try discriminate. contradiction.
  - destruct (goroutine k) eqn:Eg; try discriminate.
    unfold deferred. intros H; injection H as <-.
    eexists. split; [apply lookup_insert_eq|].
    cbn [this goroutine closing]. repeat split; try assumption. discriminate.
  - rewrite Hcl. unfold WaitForEnd_send, Channel.send. rewrite Hc.
    destruct (Nat.ltb_spec (Channel.len (rec (this k))) (cap (rec (this k))));
      [lia | discriminate].
  - rewrite Hcl. discriminate.
  - intros H; injection H as <-. exists k. repeat split; assumption.
Qed.

Lemma Stuck_exec L F q p acts : forall s s',
  Stuck p s -> exec true L F q p acts s = Some s' -> Stuck p s'.
Proof.
  induction acts as [|a acts IH]; intros s s' HS; cbn [exec].
  - intros H; injection H as <-. exact HS.
  - destruct (step true L F q p a s) as [s1|] eqn:E; [|discriminate].
    apply IH. eapply Stuck_step; eassumption.
Qed.

Lemma Stuck_suspends L F q p s r :
  Stuck p s -> step true L F q p (Produce r) s = None.
Proof.
  intros (k & Hk & Hg & Hc & Hcl & Hfull). unfold step. rewrite Hk.
  rewrite (LogWrite_blocking L (this k) (Some r) Hc).
  destruct (Nat.ltb_spec (Channel.len (rec (this k))) (cap (rec (this k))));
    [lia | reflexivity].
Qed.

(** C5, amended.  [LogWrite] has no result, and on an open queue it does
    not panic.  In blocking mode a record is never dropped, whatever the
    number of submissions: the record is appended to the queue when there is
    room, and otherwise the caller waits; every submission that returns has
    put its record at the end of the queue, so that along any schedule the
    queue has received exactly what was submitted, in order.  While the
    worker is in its loop, one iteration makes room and the waiting
    submission is accepted.  In non-blocking mode a submission that finds
    the queue at its capacity returns at once and changes nothing. *)
Theorem C5_enqueue L :
  (forall B w m, closed (rec w) = false -> LogWrite B L w m <> Panics) /\
  (forall w m,
     closed (rec w) = false ->
     LogWrite true L w m =
     if Nat.ltb (Channel.len (rec w)) (cap (rec w))
     then Accepted {| buf := buf (rec w) ++ m :: nil; cap := cap (rec w);
                      closed := closed (rec w) |}
     else Suspends) /\
  (forall F q p s k r s',
     heap s !! p = Some k ->
     closed (rec (this k)) = false ->
     step true L F q p (Produce r) s = Some s' ->
     os s' = os s /\
     exists k', heap s' !! p = Some k' /\
                history k' = history k ++ Some r :: nil) /\
  (forall F q p s k r,
     heap s !! p = Some k ->
     closed (rec (this k)) = false ->
     goroutine k = WLoop ->
     (0 < cap (rec (this k)))%nat ->
     Channel.len (rec (this k)) = cap (rec (this k)) ->
     step true L F q p (Produce r) s = None /\
     exists s1 s2 k2,
       step true L F q p Work s = Some s1 /\
       step true L F q p (Produce r) s1 = Some s2 /\
       heap s2 !! p = Some k2 /\
       history k2 = history k ++ Some r :: nil) /\
  (forall F q p acts s s' k',
     exec true L F q p acts s = Some s' ->
     heap s' !! p = Some k' ->
     closed (rec (this k')) = false ->
     sent_during true L F q p acts s = flat_map submitted acts) /\
  (forall w m,
     (L <= Channel.len (rec w))%nat -> LogWrite false L w m = Dropped) /\
  (forall F q p s k r,
     heap s !! p = Some k ->
     cap (rec (this k)) = L ->
     Channel.len (rec (this k)) = cap (rec (this k)) ->
     step false L F q p (Produce r) s = Some s).
Proof.
  split.
  { intros B w m Hc. unfold LogWrite, Channel.send. rewrite Hc.
    destruct (negb B && Nat.leb L (Channel.len (rec w))); [discriminate|].
    destruct (Nat.ltb (Channel.len (rec w)) (cap (rec w))); discriminate. }
  split; [apply LogWrite_blocking|].
  split.
  { intros F q p s k r s' Hk Hc Hstep.
    destruct (step_history true L F q p _ _ _ _ Hk Hstep) as (k' & Hk' & Hh).
    unfold step in Hstep. rewrite Hk in Hstep.
    unfold enqueued in Hh.
    rewrite (LogWrite_blocking L (this k) (Some r) Hc) in Hstep, Hh.
    destruct (Nat.ltb (Channel.len (rec (this k))) (cap (rec (this k))));
      [|discriminate].
    injection Hstep as <-. split; [reflexivity|]. exists k'.
    split; assumption. }
  split.
  { intros F q p s k r Hk Hc Hg Hpos Hfull. split.
    { unfold step. rewrite Hk, (LogWrite_blocking L (this k) (Some r) Hc).
      destruct (Nat.ltb_spec (Channel.len (rec (this k))) (cap (rec (this k))));
        [lia | reflexivity]. }
    destruct (buf (rec (this k))) as [|m rest] eqn:Hb.
    { unfold Channel.len in Hfull. rewrite Hb in Hfull. cbn in Hfull. lia. }
    destruct (Work_dequeues true L F q p s k m rest Hk Hg Hb)
      as (s1 & k1 & Hs1 & Hk1 & Hr1).
    assert (Hc1 : closed (rec (this k1)) = false) by (rewrite Hr1; exact Hc).
    assert (Hroom : Nat.ltb (Channel.len (rec (this k1))) (cap (rec (this k1)))
                    = true).
    { rewrite Hr1. unfold Channel.len in *. cbn [buf cap].
      rewrite Hb in Hfull. cbn in Hfull. apply Nat.ltb_lt. lia. }
    assert (Hs2 : exists s2, step true L F q p (Produce r) s1 = Some s2).
    { unfold step. rewrite Hk1, (LogWrite_blocking L (this k1) (Some r) Hc1), Hroom.
      eauto. }
    destruct Hs2 as (s2 & Hs2).
    destruct (step_history true L F q p _ _ _ _ Hk Hs1) as (k1' & Hk1' & Hh1).
    assert (k1' = k1) by congruence. subst k1'.
    destruct (step_history true L F q p _ _ _ _ Hk1 Hs2) as (k2 & Hk2 & Hh2).
    exists s1, s2, k2. split; [assumption|]. split; [assumption|].
    split; [assumption|].
    rewrite Hh2, Hh1. unfold enqueued.
    rewrite (LogWrite_blocking L (this k1) (Some r) Hc1), Hroom.
    rewrite app_nil_r. reflexivity. }
  split; [apply sent_blocking|].
  split.
  { intros w m Hfull. unfold LogWrite. cbn [negb andb].
    apply Nat.leb_le in Hfull. rewrite Hfull. reflexivity. }
  intros F q p s k r Hk Hcap Hfull. unfold step, LogWrite. rewrite Hk.
  cbn [negb andb].
  assert (Hle : Nat.leb L (Channel.len (rec (this k))) = true)
    by (apply Nat.leb_le; lia).
  rewrite Hle. reflexivity.
Qed.

(** A run of C5: a full queue in blocking mode makes the caller wait, and
    the next iteration of the worker lets the record in. *)
Lemma C5_enqueue_witness :
  let s := Sample.after (Produce Sample.hello :: Produce Sample.raw :: nil)
             (snd (Sample.construct Sample.W0 "h")) in
  step true 2 Sample.render Sample.quote 0 (Produce Sample.hello) s = None /\
  exists s1 s2 k2,
    step true 2 Sample.render Sample.quote 0 Work s = Some s1 /\
    step true 2 Sample.render Sample.quote 0 (Produce Sample.hello) s1 = Some s2 /\
    heap s2 !! 0%nat = Some k2 /\
    history k2 = history (Sample.sink_of s) ++ Some Sample.hello :: nil.
Proof.
  cbv zeta.
  destruct (C5_enqueue 2) as (_ & _ & _ & H & _ & _).
  apply (H Sample.render Sample.quote 0%nat
           (Sample.after (Produce Sample.hello :: Produce Sample.raw :: nil)
              (snd (Sample.construct Sample.W0 "h")))
           (Sample.sink_of
              (Sample.after (Produce Sample.hello :: Produce Sample.raw :: nil)
                 (snd (Sample.construct Sample.W0 "h"))))
           Sample.hello).
  - vm_compute. reflexivity.
  - vm_compute. reflexivity.
  - vm_compute. reflexivity.
  - vm_compute. lia.
  - vm_compute. reflexivity.
Defined.

(** C5 as stated fails on eventual acceptance.  The device refuses the
    first write, so the worker leaves its loop; two more records fill the
    queue of capacity two.  From then on, in blocking mode, a submission is
    never accepted, whatever the worker, the caller of [Close] and the clock
    do: the caller waits for good. *)
Lemma C5_counterexample :
  exists s,
    exec true 2 Sample.render Sample.quote 0
      (Produce Sample.hello :: Work :: Produce Sample.hello
       :: Produce Sample.raw :: nil)
      (snd (Sample.construct Sample.W_full "h")) = Some s /\
    forall r acts s',
      exec true 2 Sample.render Sample.quote 0 acts s = Some s' ->
      step true 2 Sample.render Sample.quote 0 (Produce r) s' = None.
Proof.
  eexists. split; [vm_compute; reflexivity|].
  intros r acts s' HE.
  apply Stuck_suspends. eapply Stuck_exec; [|exact HE].
  eexists. split; [vm_compute; reflexivity|].
  split; [vm_compute; discriminate|].
  split; [vm_compute; reflexivity|].
  split; [vm_compute; reflexivity|].
  vm_compute. lia.
Qed.

(** ** What the steps leave alone *)

Lemma grows_refl W : grows W W.
Proof.
  intros path H. split; [exact H|]. exists nil. rewrite app_nil_r. reflexivity.
Qed.

Lemma grows_trans W1 W2 W3 : grows W1 W2 -> grows W2 W3 -> grows W1 W3.
Proof.
  intros H12 H23 path H.
  destruct (H12 path H) as (H2 & x & Hx).
  destruct (H23 path H2) as (H3 & y & Hy).
  split; [exact H3|]. exists (x ++ y). rewrite Hy, Hx, app_assoc. reflexivity.
Qed.

Lemma grows_same_fs W W' : fs W' = fs W -> grows W W'.
Proof.
  intros E path H. unfold content. rewrite E. split; [exact H|].
  exists nil. rewrite app_nil_r. reflexivity.
Qed.

Lemma grows_Write W fd d : grows W (fst (OS.Write W fd d)).
Proof. intros path H. apply Write_content, H. Qed.

Lemma grows_eprint W msg : grows W (OS.eprint W msg).
Proof. apply grows_Write. Qed.

Lemma step_world B L F q p a s s' k :
  heap s !! p = Some k ->
  step B L F q p a s = Some s' ->
  grows (os s) (os s') /\
  (forall n, file (this k) <> Some n -> fdt (os s') !! n = fdt (os s) !! n).
Proof.
  intros Hk. unfold step, Close_request, Close_return. rewrite Hk.
  destruct a as [r| | | | |dt].
  - destruct (LogWrite B L (this k) (Some r)); intros H; try discriminate;
      injection H as <-; (split; [apply grows_refl | reflexivity]).
  - destruct (goroutine k); try discriminate.
    unfold loop_iter, Channel.recv.
    destruct (buf (rec (this k))) as [|m rest].
    { destruct (closed (rec (this k))); [|discriminate].
      intros H; injection H as <-. split; [apply grows_refl | reflexivity]. }
    destruct m as [r|]; cbn [EndNotify].
    + unfold file_write. cbn [file set_closer set_rec].
      destruct (file (this k)) as [fd|].
      * match goal with
        | |- context [OS.Write ?W ?f ?d] =>
            pose proof (grows_Write W f d) as HG;
            destruct (Write_frame W f d) as (_ & Hf & _);
            destruct (OS.Write W f d) as [W1 [e|]]
        end; cbn [fst] in *; intros H; injection H as <-; cbn [put os].
        -- match goal with
           | |- context [OS.eprint W1 ?m] =>
               pose proof (grows_eprint W1 m) as HG2;
               destruct (eprint_frame W1 m) as (_ & Hf2 & _)
           end.
           split; [eapply grows_trans; eassumption|].
           intros n _. rewrite Hf2, Hf. reflexivity.
        -- split; [exact HG|]. intros n _. rewrite Hf. reflexivity.
      * intros H; injection H as <-. cbn [put os].
        match goal with
        | |- context [OS.eprint ?W ?m] =>
            pose proof (grows_eprint W m) as HG2;
            destruct (eprint_frame W m) as (_ & Hf2 & _)
        end.
        split; [exact HG2|]. intros n _. rewrite Hf2. reflexivity.
    + intros H; injection H as <-. split; [apply grows_refl | reflexivity].
  - destruct (goroutine k); try discriminate.
    unfold deferred. intros H; injection H as <-. cbn [put os].
    destruct (file (this k)) as [fd|].
    + destruct (Close_frame (os s) fd) as (_ & Hf & Hfs & _).
      split; [apply grows_same_fs; exact Hfs|].
      intros n Hn. rewrite Hf. apply lookup_delete_ne. congruence.
    + split; [apply grows_refl | reflexivity].
  - destruct (closing k); try discriminate. unfold WaitForEnd_send.
    destruct (Channel.send (rec (this k)) None); try discriminate.
    intros H; injection H as <-. split; [apply grows_refl | reflexivity].
  - destruct (closing k); try discriminate.
    destruct (WaitForEnd_ready (closer (this k))); try discriminate.
    intros H; injection H as <-. split; [apply grows_refl | reflexivity].
  - intros H; injection H as <-. split; [|reflexivity].
    apply grows_same_fs. reflexivity.
Qed.

Lemma exec_world B L F q p acts : forall s s' k,
  heap s !! p = Some k ->
  exec B L F q p acts s = Some s' ->
  grows (os s) (os s') /\
  (forall n, file (this k) <> Some n -> fdt (os s') !! n = fdt (os s) !! n).
Proof.
  induction acts as [|a acts IH]; intros s s' k Hk; cbn [exec].
  - intros H; injection H as <-. split; [apply grows_refl | reflexivity].
  - destruct (step B L F q p a s) as [s1|] eqn:E; [|discriminate]. intros H.
    destruct (step_world _ _ _ _ _ _ _ _ _ Hk E) as (G1 & F1).
    destruct (step_frame _ _ _ _ _ _ _ _ _ Hk E) as (k1 & Hk1 & Hc & _).
    assert (Hfile : file (this k1) = file (this k)).
    { change (file (config (this k1)) = file (config (this k))).
      rewrite Hc. reflexivity. }
    destruct (IH _ _ _ Hk1 H) as (G2 & F2).
    split; [eapply grows_trans; eassumption|].
    intros n Hn. rewrite F2 by (rewrite Hfile; exact Hn). apply F1, Hn.
Qed.

Lemma Write_accepts W fd d path :
  fdt W !! fd = Some (Regular path) ->
  is_Some (fs W !! path) ->
  (forall n, io_res W n = None) ->
  snd (OS.Write W fd d) = None /\
  fdt (fst (OS.Write W fd d)) = fdt W /\
  is_Some (fs (fst (OS.Write W fd d)) !! path) /\
  (forall n, io_res (fst (OS.Write W fd d)) n = None) /\
  content (fst (OS.Write W fd d)) path = content W path ++ d /\
  trace (fst (OS.Write W fd d)) = trace W ++ EvWrite fd d :: nil /\
  tty_err (fst (OS.Write W fd d)) = tty_err W.
Proof.
  intros Hfd Hs Hio.
  destruct (Write_frame W fd d) as (Ht & Hf & _).
  destruct (Write_content W fd d path Hs) as (Hs' & _).
  pose proof (Write_regular_accept W fd d path Hfd Hs (Hio _)) as Hc.
  destruct (Write_tty W fd d) as (Hte & _). rewrite Hfd in Hte.
  assert (Hsnd : snd (OS.Write W fd d) = None /\
                 forall n, io_res (fst (OS.Write W fd d)) n = None).
  { unfold OS.Write. cbn [OS.log fdt nwrites io_res]. rewrite Hfd, Hio.
    cbn. split; [reflexivity | exact Hio]. }
  destruct Hsnd as (Hsnd & Hio').
  repeat split; assumption.
Qed.

Lemma New_redirects L q fname when_ bc s p s1 :
  NewPanicFileLogWriter L q fname when_ bc s = (Some p, s1) ->
  environ (os s1) = environ (os s) /\
  heap s !! p = None /\
  (forall p', p' <> p -> heap s1 !! p' = heap s !! p') /\
  (OS.Getenv (os s) "LOGGER_MODE" <> "debug" ->
   fdt (os s1) !! OS.Stdout = Some (Regular fname) /\
   fdt (os s1) !! OS.Stderr = Some (Regular fname)).
Proof.
  intros HN.
  destruct (New_success _ _ _ _ _ _ _ _ HN)
    as (path & w1 & fd & W1 & Ha & Ho & Hw1 & Hfd & HW1 & Hp & Hh & Hos & Hfdt).
  destruct (OpenFile_ok (os s) fname open_flags 420 Ho)
    as (_ & _ & _ & _ & _ & _ & _ & Henv & _). rewrite <- HW1 in Henv.
  destruct (redirect_ok W1 fd fname Hfdt) as (Hf2 & _ & _ & _ & _ & _ & Henv2).
  split.
  { rewrite Hos.
    destruct (negb (String.eqb (OS.Getenv (os s) "LOGGER_MODE") "debug"));
      congruence. }
  split; [rewrite Hp; apply not_elem_of_dom, is_fresh|].
  split; [intros p' Hp'; rewrite Hh; apply lookup_insert_ne; congruence|].
  intros Hdbg.
  destruct (String.eqb_spec (OS.Getenv (os s) "LOGGER_MODE") "debug");
    [contradiction|].
  cbn [negb] in Hos. rewrite Hos, Hf2. split.
  - rewrite lookup_insert_ne by discriminate. apply lookup_insert_eq.
  - apply lookup_insert_eq.
Qed.

(** ** Panics *)

Lemma act_running B L F q dump p a s s' :
  act B L F q dump p a s = Some (Running s') <-> step B L F q p a s = Some s'.
Proof.
  unfold act.
  assert (HM : option_map Running (step B L F q p a s) = Some (Running s')
               <-> step B L F q p a s = Some s').
  { destruct (step B L F q p a s); cbn; split; intros H; congruence. }
  destruct a as [r| | | | |dt]; try exact HM.
  destruct (heap s !! p) as [k|] eqn:Hk; [|exact HM].
  destruct (LogWrite B L (this k) (Some r)) eqn:ELW; try exact HM.
  unfold step. rewrite Hk, ELW. split; discriminate.
Qed.

Lemma act_exited B L F q dump p a s W :
  act B L F q dump p a s = Some (Exited W) ->
  exists r k,
    a = Produce r /\ heap s !! p = Some k /\
    LogWrite B L (this k) (Some r) = Panics /\
    W = crash (os s) "send on closed channel" dump.
Proof.
  unfold act.
  assert (HM : option_map Running (step B L F q p a s) <> Some (Exited W)).
  { destruct (step B L F q p a s); cbn; congruence. }
  destruct a as [r| | | | |dt]; try (intros H; exfalso; exact (HM H)).
  destruct (heap s !! p) as [k|] eqn:Hk; [|intros H; exfalso; exact (HM H)].
  destruct (LogWrite B L (this k) (Some r)) eqn:ELW;
    try (intros H; exfalso; exact (HM H)).
  intros H; injection H as <-. exists r, k. repeat split; assumption.
Qed.

(** A schedule that is played is a run of the system, followed or not by
    the panic of a submission. *)
Lemma play_cases B L F q dump p acts : forall s o,
  play B L F q dump p acts s = Some o ->
  exists pre s',
    exec B L F q p pre s = Some s' /\
    (o = Running s' \/
     exists r k,
       heap s' !! p = Some k /\
       LogWrite B L (this k) (Some r) = Panics /\
       o = Exited (crash (os s') "send on closed channel" dump)).
Proof.
  induction acts as [|a acts IH]; intros s o; cbn [play].
  - intros H; injection H as <-. exists nil, s.
    split; [reflexivity | left; reflexivity].
  - destruct (act B L F q dump p a s) as [[s1|W]|] eqn:E; [| |discriminate].
    + intros H. apply act_running in E.
      destruct (IH _ _ H) as (pre & s' & HE & Ho).
      exists (a :: pre), s'. cbn [exec]. rewrite E. split; assumption.
    + intros H; injection H as <-.
      destruct (act_exited _ _ _ _ _ _ _ _ _ E) as (r & k & -> & Hk & HP & ->).
      exists nil, s. split; [reflexivity|]. right. exists r, k.
      repeat split; assumption.
Qed.

(** The report of a panic lands in the file that descriptor 2 names. *)
Lemma crash_content W what dump path :
  fdt W !! OS.Stderr = Some (Regular path) ->
  is_Some (fs W !! path) ->
  io_res W (nwrites W) = None ->
  content (crash W what dump) path
  = content W path ++ list_byte_of_string (panic_report what dump).
Proof.
  intros Hfd Hs Hio. unfold crash, OS.eprint.
  apply Write_regular_accept; assumption.
Qed.

(** ** The device *)

Lemma Write_io W fd d : io_res (fst (OS.Write W fd d)) = io_res W.
Proof.
  unfold OS.Write. cbn [OS.log fdt nwrites io_res].
  destruct (fdt W !! fd) as [[| |p]|]; try reflexivity.
  destruct (io_res W (nwrites W)) as [[n e]|]; reflexivity.
Qed.

Lemma step_io B L F q p a s s' :
  step B L F q p a s = Some s' -> io_res (os s') = io_res (os s).
Proof.
  unfold step, Close_request, Close_return.
  destruct (heap s !! p) as [k|]; [|discriminate].
  destruct a as [r| | | | |dt].
  - destruct (LogWrite B L (this k) (Some r)); intros H; try discriminate;
      injection H as <-; reflexivity.
  - destruct (goroutine k); try discriminate.
    unfold loop_iter, Channel.recv.
    destruct (buf (rec (this k))) as [|m rest].
    { destruct (closed (rec (this k))); [|discriminate].
      intros H; injection H as <-. reflexivity. }
    destruct m as [r|]; cbn [EndNotify].
    + unfold file_write. cbn [file set_closer set_rec].
      destruct (file (this k)) as [fd|].
      * match goal with
        | |- context [OS.Write ?W ?f ?d] =>
            pose proof (Write_io W f d) as HW;
            destruct (OS.Write W f d) as [W1 [e|]]
        end; cbn [fst] in HW; intros H; injection H as <-; cbn [put os].
        -- unfold OS.eprint. rewrite Write_io. exact HW.
        -- exact HW.
      * intros H; injection H as <-. cbn [put os]. unfold OS.eprint.
        apply Write_io.
    + intros H; injection H as <-. reflexivity.
  - destruct (goroutine k); try discriminate.
    unfold deferred. intros H; injection H as <-. cbn [put os].
    destruct (file (this k)); reflexivity.
  - destruct (closing k); try discriminate. unfold WaitForEnd_send.
    destruct (Channel.send (rec (this k)) None); try discriminate.
    intros H; injection H as <-. reflexivity.
  - destruct (closing k); try discriminate.
    destruct (WaitForEnd_ready (closer (this k))); try discriminate.
    intros H; injection H as <-. reflexivity.
  - intros H; injection H as <-. reflexivity.
Qed.

Lemma New_io L q fname when_ bc s p s1 :
  NewPanicFileLogWriter L q fname when_ bc s = (Some p, s1) ->
  io_res (os s1) = io_res (os s).
Proof.
  intros HN.
  destruct (New_success _ _ _ _ _ _ _ _ HN)
    as (path & w1 & fd & W1 & Ha & Ho & Hw1 & Hfd & HW1 & Hp & Hh & Hos & Hfdt).
  destruct (OpenFile_ok (os s) fname open_flags 420 Ho)
    as (_ & _ & _ & _ & _ & _ & _ & _ & Hio & _). rewrite <- HW1 in Hio.
  rewrite Hos.
  destruct (negb (String.eqb (OS.Getenv (os s) "LOGGER_MODE") "debug"));
    [|exact Hio].
  unfold OS.Dup2. cbn [OS.log io_res fdt].
  repeat match goal with
         | |- context [match ?x with Some _ => _ | None => _ end] => destruct x
         end; exact Hio.
Qed.

(** ** Templates set before the first record *)

Lemma last_cons (f : string) fmts : forall d,
  List.last (f :: fmts) d = List.last fmts f.
Proof.
  revert f. induction fmts as [|g l IH]; intros f d; [reflexivity|].
  change (List.last (f :: g :: l) d) with (List.last (g :: l) d).
  rewrite (IH g d), (IH g f). reflexivity.
Qed.

Lemma Inv_SetFormat F fname fd fmt0 fmt d0 c0 p s :
  Inv F fname fd fmt0 d0 c0 p s ->
  untouched p s ->
  Inv F fname fd fmt d0 c0 p (snd (SetFormat p fmt s)) /\
  untouched p (snd (SetFormat p fmt s)) /\
  os (snd (SetFormat p fmt s)) = os s.
Proof.
  intros (k & tl & junk & Hk & Hfn & Hfile & Hfmt & Hex & Hcons & Hcont & HL
          & HEnd & HO & HD & HR & HNR) HU.
  destruct (HU k Hk) as (Hw & Hh & Hg).
  assert (Hk' : heap (snd (SetFormat p fmt s)) !! p
                = Some {| this := set_format fmt (this k);
                          goroutine := goroutine k; closing := closing k;
                          consumed := consumed k; written := written k |}).
  { unfold SetFormat. cbn [snd heap]. rewrite lookup_alter_eq, Hk. reflexivity. }
  split; [|split; [|reflexivity]].
  - eexists _, tl, junk. split; [exact Hk'|].
    cbn [this goroutine closing consumed written set_format filename file
         format closer rec SetFormat snd os].
    rewrite Hw in Hcont |- *.
    repeat split; try assumption; try (apply HL; assumption);
      try (apply HEnd; assumption); try (apply HO; assumption);
      try (apply HR; assumption).
    rewrite Hw in Hcons. exact Hcons.
  - intros k' Hk''. rewrite Hk' in Hk''. injection Hk'' as <-.
    cbn [written goroutine]. unfold history in *.
    cbn [consumed this set_format rec]. repeat split; assumption.
Qed.

Lemma Inv_configure F fname fd d0 c0 p fmts : forall fmt0 s,
  Inv F fname fd fmt0 d0 c0 p s ->
  untouched p s ->
  Inv F fname fd (List.last fmts fmt0) d0 c0 p (configure p fmts s) /\
  untouched p (configure p fmts s) /\
  os (configure p fmts s) = os s.
Proof.
  induction fmts as [|f l IH]; intros fmt0 s HI HU.
  - split; [exact HI|]. split; [exact HU | reflexivity].
  - destruct (Inv_SetFormat F fname fd fmt0 f d0 c0 p s HI HU) as (HI1 & HU1 & Ho1).
    destruct (IH f _ HI1 HU1) as (HI2 & HU2 & Ho2).
    rewrite last_cons. unfold configure in *. cbn [fold_left].
    split; [exact HI2|]. split; [exact HU2|]. rewrite Ho2. exact Ho1.
Qed.

Lemma New_untouched L q fname when_ bc s p s1 :
  NewPanicFileLogWriter L q fname when_ bc s = (Some p, s1) ->
  untouched p s1.
Proof.
  intros HN k Hk.
  destruct (New_success _ _ _ _ _ _ _ _ HN)
    as (path & w1 & fd & W1 & Ha & Ho & Hw1 & Hfd & HW1 & Hp & Hh & Hos & Hfdt).
  rewrite Hh, lookup_insert_eq in Hk. injection Hk as <-.
  unfold history. cbn [written consumed goroutine fresh_sink this rec set_file].
  rewrite Hw1.
  match goal with
  | |- context [prepare ?W ?w] =>
      destruct (prepare_frame W w) as (_ & F2 & _)
  end.
  rewrite F2. repeat split.
Qed.

(** ** The worker on a device that accepts every write *)

Lemma alive_step B L F q fname fd fmt d0 c0 p a s s' :
  Inv F fname fd fmt d0 c0 p s ->
  accepting (os s) ->
  (forall k, heap s !! p = Some k ->
             goroutine k = WLoop \/ IsEnd (closer (this k)) = true) ->
  step B L F q p a s = Some s' ->
  forall k', heap s' !! p = Some k' ->
             goroutine k' = WLoop \/ IsEnd (closer (this k')) = true.
Proof.
  intros (k & tl & junk & Hk & Hfn & Hfile & Hfmt & Hex & Hcons & Hcont & HL
          & HEnd & HO & HD & HR & HNR) Hio HA.
  specialize (HA k Hk).
  unfold step, Close_request, Close_return. rewrite Hk.
  destruct a as [r| | | | |dt].
  - destruct (LogWrite B L (this k) (Some r)); intros H; try discriminate;
      injection H as <-; intros k' Hk'.
    + cbn [put heap] in Hk'. rewrite lookup_insert_eq in Hk'.
      injection Hk' as <-. exact HA.
    + assert (k' = k) by congruence. subst k'. exact HA.
  - destruct (goroutine k) eqn:Hg; try discriminate.
    destruct (HO ltac:(discriminate)) as (Hfd & _).
    unfold loop_iter, Channel.recv.
    destruct (buf (rec (this k))) as [|m rest].
    { destruct (closed (rec (this k))) eqn:Hcl; [|discriminate].
      intros H; injection H as <-; intros k' Hk'.
      cbn [put heap] in Hk'. rewrite lookup_insert_eq in Hk'.
      injection Hk' as <-. right. cbn [this].
      assert (Hc : closing k = CReturned).
      { destruct (closing k); try reflexivity;
          (assert (X := HNR ltac:(discriminate)); discriminate X). }
      exact (proj1 (HR Hc)). }
    destruct m as [r|]; cbn [EndNotify].
    + unfold file_write. cbn [file set_closer set_rec]. rewrite Hfile.
      match goal with
      | |- context [OS.Write ?W ?f ?d] =>
          destruct (Write_accepts W f d fname Hfd Hex Hio) as (Hsnd & _);
          destruct (OS.Write W f d) as [W1 [e|]]
      end; cbn [snd] in Hsnd; [discriminate|].
      intros H; injection H as <-; intros k' Hk'.
      cbn [put heap] in Hk'. rewrite lookup_insert_eq in Hk'.
      injection Hk' as <-. left. reflexivity.
    + intros H; injection H as <-; intros k' Hk'.
      cbn [put heap] in Hk'. rewrite lookup_insert_eq in Hk'.
      injection Hk' as <-. right. reflexivity.
  - destruct (goroutine k) eqn:Hg; try discriminate.
    unfold deferred. intros H; injection H as <-; intros k' Hk'.
    cbn [put heap] in Hk'. rewrite lookup_insert_eq in Hk'.
    injection Hk' as <-. right. cbn [this].
    destruct HA as [HA|HA]; [discriminate | exact HA].
  - destruct (closing k); try discriminate. unfold WaitForEnd_send.
    destruct (Channel.send (rec (this k)) None); try discriminate.
    intros H; injection H as <-; intros k' Hk'.
    cbn [put heap] in Hk'. rewrite lookup_insert_eq in Hk'.
    injection Hk' as <-. exact HA.
  - destruct (closing k); try discriminate.
    destruct (WaitForEnd_ready (closer (this k))); try discriminate.
    intros H; injection H as <-; intros k' Hk'.
    cbn [put heap] in Hk'. rewrite lookup_insert_eq in Hk'.
    injection Hk' as <-. exact HA.
  - intros H; injection H as <-; intros k' Hk'. cbn [heap] in Hk'.
    assert (k' = k) by congruence. subst k'. exact HA.
Qed.

Lemma alive_exec B L F q fname fd fmt d0 c0 p acts : forall s s',
  Inv F fname fd fmt d0 c0 p s ->
  accepting (os s) ->
  (forall k, heap s !! p = Some k ->
             goroutine k = WLoop \/ IsEnd (closer (this k)) = true) ->
  exec B L F q p acts s = Some s' ->
  accepting (os s') /\
  forall k', heap s' !! p = Some k' ->
             goroutine k' = WLoop \/ IsEnd (closer (this k')) = true.
Proof.
  induction acts as [|a acts IH]; intros s s' HI Hio HA; cbn [exec].
  - intros H; injection H as <-. split; assumption.
  - destruct (step B L F q p a s) as [s1|] eqn:E; [|discriminate].
    apply IH.
    + eapply Inv_step; eassumption.
    + intros n. rewrite (step_io _ _ _ _ _ _ _ _ E). apply Hio.
    + eapply alive_step; eassumption.
Qed.

(** While the device accepts, the loop writes the records at the head of
    the queue, one per iteration. *)
Lemma drain B L F q fname fd fmt d0 c0 p rs : forall s k rest,
  Inv F fname fd fmt d0 c0 p s ->
  accepting (os s) ->
  heap s !! p = Some k ->
  goroutine k = WLoop ->
  buf (rec (this k)) = map Some rs ++ rest ->
  exists s' k',
    exec B L F q p (repeat Work (length rs)) s = Some s' /\
    heap s' !! p = Some k' /\
    goroutine k' = WLoop /\
    written k' = written k ++ rs /\
    buf (rec (this k')) = rest.
Proof.
  induction rs as [|r rs IH]; intros s k rest HI Hio Hk Hg Hb.
  - exists s, k. cbn. rewrite app_nil_r. repeat split; assumption.
  - cbn [map app] in Hb. cbn [length repeat exec].
    pose proof HI as (k0 & tl & junk & Hk0 & Hfn & Hfile & Hfmt & Hex & Hcons
                      & Hcont & HL & HEnd & HO & HD & HR & HNR).
    assert (k0 = k) by congruence. subst k0.
    destruct (HO ltac:(rewrite Hg; discriminate)) as (Hfd & _).
    pose proof (Work_record B L F q p s k r _ fd Hk Hg Hb Hfile) as HS.
    cbv zeta in HS.
    destruct (Write_accepts (os s) fd (payload F (format (this k)) r) fname
                Hfd Hex Hio) as (Hsnd & _ & _ & Hio1 & _).
    destruct (OS.Write (os s) fd (payload F (format (this k)) r))
      as [W1 [e|]]; cbn [fst snd] in *; [discriminate|].
    rewrite HS.
    match type of HS with
    | _ = Some (put p W1 ?k1 s) =>
        destruct (IH (put p W1 k1 s) k1 rest) as (s' & k' & HE & Hk' & Hg' & Hw' & Hb')
    end; try reflexivity.
    + eapply Inv_step; eassumption.
    + exact Hio1.
    + apply lookup_insert_eq.
    + exists s', k'. split; [exact HE|]. split; [exact Hk'|].
      split; [exact Hg'|]. split; [|exact Hb'].
      cbn [written] in Hw'. rewrite Hw', <- app_assoc. reflexivity.
Qed.

(** ** C6: first in, first out *)

(** C6.  After construction and the calls of [SetFormat] that precede the
    first submission, along every schedule of producers, worker, caller of
    [Close] and clock, the records written so far are, in their order, an
    initial segment of what the schedule put into the queue: the i-th
    record written is the i-th value accepted, none is skipped, repeated or
    overtaken.  The file holds its old content followed by the bytes of
    exactly these records in that order, the binary payload of a record or
    else its rendering by the template; nothing else follows them unless
    the loop ended on a failed write.  Once the drain request is received,
    every value accepted before it has been written.  And the records do
    get written: on a device that accepts every write the worker leaves its
    loop only for the drain request, and while it is in its loop, as many
    iterations as there are records at the head of the queue write these
    records, in the order of the queue, behind those already written. *)
Theorem C6_fifo B L F q fname when_ bc s p s1 fmts acts s2 :
  NewPanicFileLogWriter L q fname when_ bc s = (Some p, s1) ->
  exec B L F q p acts (configure p fmts s1) = Some s2 ->
  exists k tl junk,
    heap s2 !! p = Some k /\
    sent_during B L F q p acts (configure p fmts s1)
      = map Some (written k) ++ tl /\
    content (os s2) fname
      = content (os s) fname
        ++ concat (map (fun r => match Binary r with
                                 | Some b => b
                                 | None =>
                                     list_byte_of_string (F (template fmts) r)
                                 end) (written k))
        ++ junk /\
    (goroutine k = WLoop -> junk = nil /\ tl = buf (rec (this k))) /\
    (IsEnd (closer (this k)) = true ->
       junk = nil /\ tl = None :: buf (rec (this k))) /\
    (accepting (os s) ->
       junk = nil /\
       (goroutine k = WLoop \/ IsEnd (closer (this k)) = true) /\
       forall rs rest,
         goroutine k = WLoop ->
         buf (rec (this k)) = map Some rs ++ rest ->
         exists s3 k3,
           exec B L F q p (repeat Work (length rs)) s2 = Some s3 /\
           heap s3 !! p = Some k3 /\
           goroutine k3 = WLoop /\
           written k3 = written k ++ rs /\
           buf (rec (this k3)) = rest /\
           content (os s3) fname
           = content (os s) fname
             ++ concat (map (fun r => match Binary r with
                                      | Some b => b
                                      | None =>
                                          list_byte_of_string
                                            (F (template fmts) r)
                                      end) (written k ++ rs))).
Proof.
  intros HN HE.
  destruct (Inv_init L F q _ _ _ _ _ _ HN) as (fd & HI & _).
  pose proof (New_untouched _ _ _ _ _ _ _ _ HN) as HU.
  destruct (Inv_configure F fname fd _ _ p fmts _ s1 HI HU) as (HIc & HUc & Hoc).
  change (Inv F fname fd (template fmts) (content (os s) fname)
            (closes (trace (os s))) p (configure p fmts s1)) in HIc.
  pose proof (Inv_exec B L F q _ _ _ _ _ _ acts _ _ HIc HE) as HI2.
  pose proof HI2 as (k & tl & junk & Hk & _ & _ & _ & _ & Hcons & Hcont & HL
                     & HEnd & _).
  pose proof HIc as (kc & _ & _ & Hkc & _).
  destruct (HUc kc Hkc) as (_ & Hhc & Hgc).
  destruct (exec_history B L F q p acts _ _ _ Hkc HE) as (k' & Hk' & Hh).
  assert (k' = k) by congruence. subst k'.
  rewrite Hhc in Hh. cbn [app] in Hh.
  exists k, (tl ++ buf (rec (this k))), junk.
  split; [assumption|]. split.
  { rewrite <- Hh. unfold history. rewrite Hcons, <- app_assoc. reflexivity. }
  split; [exact Hcont|]. split.
  { intros Hg. destruct (HL Hg) as (-> & -> & _). split; reflexivity. }
  split.
  { intros He. destruct (HEnd He) as (-> & -> & _). split; reflexivity. }
  intros Hacc.
  assert (Hacc1 : accepting (os (configure p fmts s1))).
  { intros n. rewrite Hoc, (New_io _ _ _ _ _ _ _ _ HN). apply Hacc. }
  assert (HA0 : forall k0, heap (configure p fmts s1) !! p = Some k0 ->
                           goroutine k0 = WLoop \/
                           IsEnd (closer (this k0)) = true).
  { intros k0 Hk0. left. apply (HUc k0 Hk0). }
  destruct (alive_exec B L F q _ _ _ _ _ p acts _ _ HIc Hacc1 HA0 HE)
    as (Hacc2 & HA2).
  specialize (HA2 k Hk).
  split.
  { destruct HA2 as [Hg|He]; [apply (HL Hg) | apply (HEnd He)]. }
  split; [exact HA2|].
  intros rs rest Hg Hb.
  destruct (drain B L F q _ _ _ _ _ p rs s2 k rest HI2 Hacc2 Hk Hg Hb)
    as (s3 & k3 & HE3 & Hk3 & Hg3 & Hw3 & Hb3).
  exists s3, k3.
  split; [exact HE3|]. split; [exact Hk3|]. split; [exact Hg3|].
  split; [exact Hw3|]. split; [exact Hb3|].
  pose proof (Inv_exec B L F q _ _ _ _ _ _ _ _ _ HI2 HE3)
    as (k3' & tl3 & junk3 & Hk3' & _ & _ & _ & _ & _ & Hcont3 & HL3 & _).
  assert (k3' = k3) by congruence. subst k3'.
  destruct (HL3 Hg3) as (_ & -> & _). rewrite app_nil_r in Hcont3.
  rewrite <- Hw3. exact Hcont3.
Qed.

(** A run of C6: the template is set to %M, two records are submitted and
    the loop runs twice; they are in the file in the order of submission. *)
Lemma C6_fifo_witness :
  let s1 := configure 0 ("%M" :: nil) (snd (Sample.construct Sample.W0 "h")) in
  let s2 := Sample.after
              (Produce Sample.hello :: Produce Sample.raw :: Work :: Work :: nil)
              s1 in
  exists k,
    heap s2 !! 0%nat = Some k /\
    written k = Sample.hello :: Sample.raw :: nil /\
    sent_during true 2 Sample.render Sample.quote 0
      (Produce Sample.hello :: Produce Sample.raw :: Work :: Work :: nil) s1
      = Some Sample.hello :: Some Sample.raw :: nil /\
    content (os s2) "a.log"
      = list_byte_of_string "hello" ++ Byte.x00 :: Byte.xff :: nil.
Proof.
  cbv zeta.
  destruct (C6_fifo true 2 Sample.render Sample.quote "a.log" "h" 3
              {| os := Sample.W0; heap := ∅ |} 0%nat
              (snd (Sample.construct Sample.W0 "h")) ("%M" :: nil)
              (Produce Sample.hello :: Produce Sample.raw :: Work :: Work :: nil)
              (Sample.after
                 (Produce Sample.hello :: Produce Sample.raw :: Work :: Work
                  :: nil)
                 (configure 0 ("%M" :: nil)
                    (snd (Sample.construct Sample.W0 "h")))))
    as (k & tl & junk & Hk & Hs & Hc & HL & _ & Hacc).
  - vm_compute. reflexivity.
  - vm_compute. reflexivity.
  - destruct Hacc as (-> & _); [intros n; reflexivity|].
    assert (Hk' : Sample.sink_of
                    (Sample.after
                       (Produce Sample.hello :: Produce Sample.raw :: Work
                        :: Work :: nil)
                       (configure 0 ("%M" :: nil)
                          (snd (Sample.construct Sample.W0 "h")))) = k).
    { unfold Sample.sink_of. rewrite Hk. reflexivity. }
    assert (Hw : written k = Sample.hello :: Sample.raw :: nil)
      by (rewrite <- Hk'; vm_compute; reflexivity).
    destruct (HL ltac:(rewrite <- Hk'; vm_compute; reflexivity)) as (_ & ->).
    assert (Hb : buf (rec (this k)) = nil)
      by (rewrite <- Hk'; vm_compute; reflexivity).
    exists k. split; [exact Hk|]. split; [exact Hw|]. split.
    + rewrite Hs, Hw, Hb. reflexivity.
    + rewrite Hc, Hw. vm_compute. reflexivity.
Defined.

(** ** C4: Close *)

(** C4, amended.  [Close] returns only after the worker has received the
    drain request.  When it has returned, every value accepted before the
    request is a record that has been written, in order, and the file holds
    exactly their bytes after its old content; the queue is closed and the
    worker has left its loop for good, so no record is written any more.
    The file handle is closed once, by the deferred function of the worker,
    which runs after the acknowledgement: when [Close] returns the handle
    is either still open, with the deferred function ready to close it, or
    closed exactly once.  A submission after [Close] is not refused: in
    non-blocking mode with the queue at its capacity it returns without
    effect, and in every other case its send finds the queue closed and
    panics.  Whatever is played after [Close] has returned, no file changes
    as long as the process runs; the process ends with the first submission
    that panics, and the report of that panic is written on descriptor 2,
    which a writer activated outside debug mode has made a name of the log
    file: the report is then appended to the log. *)
Theorem C4_close B L F q fname when_ bc s p s1 acts s2 k :
  NewPanicFileLogWriter L q fname when_ bc s = (Some p, s1) ->
  exec B L F q p acts s1 = Some s2 ->
  heap s2 !! p = Some k ->
  closing k = CReturned ->
  exists fd,
    file (this k) = Some fd /\
    sent_during B L F q p acts s1
      = map Some (written k) ++ None :: buf (rec (this k)) /\
    content (os s2) fname
      = content (os s) fname
        ++ concat (map (payload F "[%D %T] [%L] (%S) %M") (written k)) /\
    closed (rec (this k)) = true /\
    (goroutine k = WReturning /\
     fdt (os s2) !! fd = Some (Regular fname) /\
     closes (trace (os s2)) = closes (trace (os s)) /\
     (exists s3 k3,
        step B L F q p Teardown s2 = Some s3 /\ heap s3 !! p = Some k3 /\
        goroutine k3 = WDone /\
        closes (trace (os s3)) = closes (trace (os s)) ++ EvClose fd :: nil)
     \/
     goroutine k = WDone /\
     closes (trace (os s2)) = closes (trace (os s)) ++ EvClose fd :: nil) /\
    (forall r,
       LogWrite B L (this k) (Some r)
       = if negb B && Nat.leb L (Channel.len (rec (this k)))
         then Dropped else Panics) /\
    (forall dump acts' o,
       play B L F q dump p acts' s2 = Some o ->
       exists s3 k3,
         heap s3 !! p = Some k3 /\ written k3 = written k /\
         goroutine k3 <> WLoop /\ closed (rec (this k3)) = true /\
         fs (os s3) = fs (os s2) /\
         (closes (trace (os s3)) = closes (trace (os s)) \/
          closes (trace (os s3)) = closes (trace (os s)) ++ EvClose fd :: nil) /\
         (OS.Getenv (os s) "LOGGER_MODE" <> "debug" -> fd <> OS.Stderr ->
          fdt (os s3) !! OS.Stderr = Some (Regular fname)) /\
         (o = Running s3 \/
          o = Exited (crash (os s3) "send on closed channel" dump) /\
          (fdt (os s3) !! OS.Stderr = Some (Regular fname) ->
           io_res (os s3) (nwrites (os s3)) = None ->
           content (crash (os s3) "send on closed channel" dump) fname
           = content (os s2) fname
             ++ list_byte_of_string
                  (panic_report "send on closed channel" dump)))).
Proof.
  intros HN HE Hk Hc.
  destruct (Inv_init L F q _ _ _ _ _ _ HN) as (fd & HI & k1 & Hk1 & Hh1 & Hf1).
  pose proof (Inv_exec B L F q _ _ _ _ _ _ acts _ _ HI HE) as HI2.
  destruct HI2 as (k' & tl & junk & Hk' & Hfn & Hfile & Hfmt & Hex & Hcons
                   & Hcont & HL & HEnd & HO & HD & HR & HNR).
  assert (k' = k) by congruence. subst k'.
  destruct (HR Hc) as (Hend & Hclosed).
  destruct (HEnd Hend) as (-> & -> & Hg).
  destruct (exec_history B L F q p acts _ _ _ Hk1 HE) as (k' & Hk'' & Hh).
  assert (k' = k) by congruence. subst k'.
  rewrite Hh1 in Hh. cbn [app] in Hh.
  exists fd. split; [assumption|]. split.
  { rewrite <- Hh. unfold history. rewrite Hcons, <- app_assoc. reflexivity. }
  split; [rewrite Hcont, app_nil_r; reflexivity|].
  split; [assumption|]. split.
  { destruct (goroutine k) eqn:Eg; [contradiction | left | right].
    - destruct HO as (Hfd & Hcl); [discriminate|].
      split; [reflexivity|]. split; [assumption|]. split; [assumption|].
      assert (HS : step B L F q p Teardown s2
                   = Some (put p (OS.Close (os s2) fd)
                             {| this := this k; goroutine := WDone;
                                closing := closing k; consumed := consumed k;
                                written := written k |} s2)).
      { unfold step, deferred. rewrite Hk, Eg, Hfile. reflexivity. }
      eexists _, _. split; [exact HS|]. split; [apply lookup_insert_eq|].
      split; [reflexivity|]. cbn [put os].
      destruct (Close_frame (os s2) fd) as (Htr & _).
      rewrite Htr, closes_app, Hcl. reflexivity.
    - split; [reflexivity|]. apply HD. reflexivity. }
  split.
  { intros r. unfold LogWrite, Channel.send. rewrite Hclosed.
    destruct (negb B && Nat.leb L (Channel.len (rec (this k)))); reflexivity. }
  intros dump acts' o HP.
  destruct (play_cases _ _ _ _ _ _ _ _ _ HP) as (pre & s3 & HE' & Ho).
  destruct (exec_dead B L F q p pre _ _ _ Hk Hg HE')
    as (Hfs & k3 & Hk3 & Hg3 & Hw3 & _).
  destruct (closed_exec _ _ _ _ _ _ _ _ _ Hk HE') as (k3' & Hk3' & Hc3).
  assert (k3' = k3) by congruence. subst k3'.
  assert (HE3 : exec B L F q p (acts ++ pre) s1 = Some s3)
    by (rewrite exec_app, HE; exact HE').
  pose proof (Inv_exec B L F q _ _ _ _ _ _ _ _ _ HI HE3)
    as (k4 & _ & _ & Hk4 & _ & _ & _ & Hex3 & _ & _ & _ & _ & HO3 & HD3 & _).
  assert (k4 = k3) by congruence. subst k4.
  destruct (exec_world _ _ _ _ _ _ _ _ _ Hk1 HE3) as (_ & HF3).
  exists s3, k3. split; [assumption|]. split; [assumption|].
  split; [assumption|]. split; [apply Hc3; assumption|].
  split; [assumption|]. split.
  { destruct (goroutine k3) eqn:Eg3.
    - contradiction.
    - left. apply HO3. discriminate.
    - right. apply HD3. reflexivity. }
  split.
  { intros Hdbg Hne. rewrite HF3 by (rewrite Hf1; congruence).
    apply (New_redirects _ _ _ _ _ _ _ _ HN). exact Hdbg. }
  destruct Ho as [->|(r & k3' & _ & _ & ->)]; [left; reflexivity|].
  right. split; [reflexivity|]. intros Hfd2 Hio.
  rewrite (crash_content _ _ _ fname Hfd2 Hex3 Hio).
  unfold content. rewrite Hfs. reflexivity.
Qed.

(** A run of C4: one record, then Close, then the deferred function; a
    submission after that panics. *)
Lemma C4_close_witness :
  let s2 := Sample.after
              (Produce Sample.hello :: CloseSend :: Work :: Work
               :: CloseFinish :: Teardown :: nil)
              (snd (Sample.construct Sample.W0 "h")) in
  exists fd,
    file (this (Sample.sink_of s2)) = Some fd /\
    written (Sample.sink_of s2) = Sample.hello :: nil /\
    content (os s2) "a.log"
      = content Sample.W0 "a.log"
        ++ concat (map (payload Sample.render "[%D %T] [%L] (%S) %M")
                     (written (Sample.sink_of s2))) /\
    closed (rec (this (Sample.sink_of s2))) = true /\
    closes (trace (os s2)) = EvClose fd :: nil /\
    LogWrite true 2 (this (Sample.sink_of s2)) (Some Sample.raw) = Panics.
Proof.
  cbv zeta.
  destruct (C4_close true 2 Sample.render Sample.quote "a.log" "h" 3
              {| os := Sample.W0; heap := ∅ |} 0%nat
              (snd (Sample.construct Sample.W0 "h"))
              (Produce Sample.hello :: CloseSend :: Work :: Work
               :: CloseFinish :: Teardown :: nil)
              (Sample.after
                 (Produce Sample.hello :: CloseSend :: Work :: Work
                  :: CloseFinish :: Teardown :: nil)
                 (snd (Sample.construct Sample.W0 "h")))
              (Sample.sink_of
                 (Sample.after
                    (Produce Sample.hello :: CloseSend :: Work :: Work
                     :: CloseFinish :: Teardown :: nil)
                    (snd (Sample.construct Sample.W0 "h")))))
    as (fd & Hf & _ & Hc & Hcl & Hg & Hlw & _).
  - vm_compute. reflexivity.
  - vm_compute. reflexivity.
  - vm_compute. reflexivity.
  - vm_compute. reflexivity.
  - exists fd. split; [exact Hf|]. split; [vm_compute; reflexivity|].
    split; [exact Hc|]. split; [exact Hcl|]. split.
    + destruct Hg as [(Hg & _) | (_ & Hd)];
        [vm_compute in Hg; discriminate Hg | exact Hd].
    + rewrite Hlw. vm_compute. reflexivity.
Defined.

(** C4 as stated fails twice.  On the file handle: a record is submitted,
    [Close] sends its request, the worker writes the record and receives
    the request, and [Close] returns; at that moment the worker has not run
    its deferred function, the descriptor of the file is still open and no
    close call has been made.  On the bytes: after [Close] has returned and
    the handle is closed, one more submission panics, and the report of the
    panic is appended to the log file, which descriptor 2 names. *)
Lemma C4_counterexample :
  (exists s2 k,
     exec true 2 Sample.render Sample.quote 0
       (Produce Sample.hello :: CloseSend :: Work :: Work :: CloseFinish :: nil)
       (snd (Sample.construct Sample.W0 "h")) = Some s2 /\
     heap s2 !! 0%nat = Some k /\
     closing k = CReturned /\
     written k = Sample.hello :: nil /\
     goroutine k = WReturning /\
     file (this k) = Some 3%nat /\
     fdt (os s2) !! 3%nat = Some (Regular "a.log") /\
     closes (trace (os s2)) = nil) /\
  (exists s2 k W,
     exec true 2 Sample.render Sample.quote 0
       (Produce Sample.hello :: CloseSend :: Work :: Work :: CloseFinish
        :: Teardown :: nil)
       (snd (Sample.construct Sample.W0 "h")) = Some s2 /\
     heap s2 !! 0%nat = Some k /\
     closing k = CReturned /\ goroutine k = WDone /\
     closes (trace (os s2)) = EvClose 3 :: nil /\
     play true 2 Sample.render Sample.quote "" 0 (Produce Sample.raw :: nil) s2
       = Some (Exited W) /\
     content W "a.log"
       = content (os s2) "a.log"
         ++ list_byte_of_string (panic_report "send on closed channel" "") /\
     (length (content (os s2) "a.log") < length (content W "a.log"))%nat).
Proof.
  split.
  - eexists _, _. split; [vm_compute; reflexivity|].
    split; [vm_compute; reflexivity|].
    repeat split; vm_compute; reflexivity.
  - eexists _, _, _. split; [vm_compute; reflexivity|].
    split; [vm_compute; reflexivity|].
    split; [vm_compute; reflexivity|].
    split; [vm_compute; reflexivity|].
    split; [vm_compute; reflexivity|].
    split; [vm_compute; reflexivity|].
    split; [vm_compute; reflexivity|].
    vm_compute. lia.
Qed.

(** * Further properties of the writer *)

(** ** The first deadline, for any reference time *)

Lemma deadline_general T I :
  0 < I <= 86400 -> Int64.min_int <= T -> T + I <= Int64.max_int ->
  Int64.mul (Int64.add (Int64.div T I) 1) I = (Z.quot T I + 1) * I /\
  T < (Z.quot T I + 1) * I /\
  (Z.quot T I + 1) * I < T + 2 * I /\
  (0 <= T -> (Z.quot T I + 1) * I <= T + I).
Proof.
  intros [HI HI'] Hmin Hmax.
  pose proof (Z.quot_rem' T I) as Hqr.
  pose proof (Z.rem_bound_pos_pos T I HI) as Hpos.
  pose proof (Z.rem_bound_pos_neg T I HI) as Hneg.
  set (q := Z.quot T I) in *. set (m := Z.rem T I) in *.
  unfold Int64.min_int, Int64.max_int in *.
  assert (Hm : - I < m < I) by lia.
  assert (Hm' : 0 <= T -> 0 <= m) by lia.
  assert (Hm'' : T <= 0 -> m <= 0) by lia.
  assert (Heq : (q + 1) * I = T - m + I) by lia.
  assert (Hq : - 2 ^ 63 <= q <= 2 ^ 63 - 1) by nia.
  assert (Hq1 : - 2 ^ 63 <= q + 1 <= 2 ^ 63 - 1) by nia.
  assert (Hr : - 2 ^ 63 <= (q + 1) * I <= 2 ^ 63 - 1) by lia.
  split.
  { unfold Int64.mul, Int64.add, Int64.div. fold q.
    rewrite (wrap_id q) by (unfold Int64.in_range, Int64.min_int, Int64.max_int; lia).
    rewrite (wrap_id (q + 1)) by (unfold Int64.in_range, Int64.min_int, Int64.max_int; lia).
    apply wrap_id. unfold Int64.in_range, Int64.min_int, Int64.max_int. lia. }
  split; [lia|]. split; [lia|]. intros HT. specialize (Hm' HT). lia.
Qed.

(** X1.  Whatever the sign of the reference time, as long as one more
    interval fits into int64, the deadline [prepare] computes is a multiple
    of the interval, strictly later than the reference time and less than
    two intervals later; from the epoch on it is at most one interval
    later. *)
Theorem X1_deadline_bounds W w :
  Int64.min_int <= referenceTime W w ->
  referenceTime W w + interval (prepare W w) <= Int64.max_int ->
  (interval (prepare W w) | rolloverAt (prepare W w)) /\
  referenceTime W w < rolloverAt (prepare W w) /\
  rolloverAt (prepare W w) < referenceTime W w + 2 * interval (prepare W w) /\
  (0 <= referenceTime W w ->
   rolloverAt (prepare W w) <= referenceTime W w + interval (prepare W w)).
Proof.
  intros Hmin Hmax.
  destruct (prepare_rollover W w) as [Hr _].
  set (T := referenceTime W w) in *. set (I := interval (prepare W w)) in *.
  assert (HI : 0 < I <= 86400)
    by (destruct (prepare_interval_cases W w) as [H|[H|H]]; subst I; lia).
  destruct (deadline_general T I HI Hmin Hmax) as (He & Hlt & Hub & Hub').
  rewrite Hr, He. split; [apply Z.divide_factor_r|].
  split; [exact Hlt|]. split; [exact Hub | exact Hub'].
Qed.

(** A run of X1 before the epoch. *)
Lemma X1_deadline_bounds_witness :
  (60 | rolloverAt (prepare Sample.W_old Sample.w_minute)) /\
  -30 < rolloverAt (prepare Sample.W_old Sample.w_minute) /\
  rolloverAt (prepare Sample.W_old Sample.w_minute) < -30 + 2 * 60.
Proof.
  destruct (X1_deadline_bounds Sample.W_old Sample.w_minute)
    as (Hd & Hlt & Hub & _).
  - vm_compute. discriminate.
  - vm_compute. discriminate.
  - split; [exact Hd|]. split; [exact Hlt | exact Hub].
Defined.

(** The deadline of a writer that has just been built. *)
Lemma New_deadline L q fname when_ bc s p s1 :
  NewPanicFileLogWriter L q fname when_ bc s = (Some p, s1) ->
  exists k,
    heap s1 !! p = Some k /\ now (os s1) = now (os s) /\
    interval (this k) = unit_interval (unit_of (ToUpper when_)) /\
    rolloverAt (this k) =
      Int64.mul
        (Int64.add
           (Int64.div
              (match fs (os s) !! fname with
               | Some fInfo => mtime fInfo
               | None => now (os s)
               end) (interval (this k))) 1) (interval (this k)).
Proof.
  intros HN.
  destruct (New_success _ _ _ _ _ _ _ _ HN)
    as (path & w1 & fd & W1 & Ha & Ho & Hw1 & Hfd & HW1 & Hp & Hh & Hos & Hfdt).
  destruct (OpenFile_ok (os s) fname open_flags 420 Ho)
    as (_ & _ & _ & _ & _ & _ & Hnow & _). rewrite <- HW1 in Hnow.
  destruct (redirect_ok W1 fd fname Hfdt) as (_ & _ & _ & _ & _ & Hnow2 & _).
  exists (fresh_sink (set_file (Some fd) w1)).
  split; [rewrite Hh; apply lookup_insert_eq|]. split.
  { rewrite Hos.
    destruct (negb (String.eqb (OS.Getenv (os s) "LOGGER_MODE") "debug"));
      congruence. }
  cbn [this fresh_sink interval rolloverAt set_file]. rewrite Hw1.
  match goal with
  | |- context [prepare (os s) ?w] =>
      destruct (prepare_rollover (os s) w) as [Hr _];
      pose proof (prepare_policy (os s) w) as Hpol
  end.
  unfold policy in Hpol. injection Hpol as Hi _ _.
  split; [exact Hi|]. rewrite Hr. reflexivity.
Qed.

(** X2.  When the file does not exist yet and the clock is at or after the
    epoch, the writer is built with a deadline that is a multiple of its
    interval, strictly later than the current time and at most one interval
    later. *)
Theorem X2_deadline_of_a_new_file L q fname when_ bc s p s1 :
  NewPanicFileLogWriter L q fname when_ bc s = (Some p, s1) ->
  fs (os s) !! fname = None ->
  0 <= now (os s) ->
  now (os s) + 86400 <= Int64.max_int ->
  exists k,
    heap s1 !! p = Some k /\
    (interval (this k) | rolloverAt (this k)) /\
    now (os s1) < rolloverAt (this k) <= now (os s1) + interval (this k).
Proof.
  intros HN Hfs Hnow Hmax.
  destruct (New_deadline _ _ _ _ _ _ _ _ HN) as (k & Hk & Hn & Hi & Hr).
  rewrite Hfs in Hr. exists k. split; [exact Hk|].
  assert (HI : 0 < interval (this k) <= 86400)
    by (rewrite Hi; destruct (unit_of (ToUpper when_)); cbn; lia).
  destruct (deadline_general (now (os s)) (interval (this k)) HI)
    as (He & Hlt & _ & Hub); [unfold Int64.min_int; lia | lia |].
  rewrite Hr, He, Hn. split; [apply Z.divide_factor_r|].
  split; [exact Hlt | apply Hub; exact Hnow].
Qed.

(** A run of X2: built at 1000 with the hour unit, the deadline is 3600. *)
Lemma X2_deadline_of_a_new_file_witness :
  exists k,
    heap (snd (Sample.construct Sample.W0 "h")) !! 0%nat = Some k /\
    (interval (this k) | rolloverAt (this k)) /\
    now (os (snd (Sample.construct Sample.W0 "h"))) < rolloverAt (this k)
      <= now (os (snd (Sample.construct Sample.W0 "h"))) + interval (this k).
Proof.
  apply (X2_deadline_of_a_new_file 2 Sample.quote "a.log" "h" 3
           {| os := Sample.W0; heap := ∅ |}).
  - vm_compute. reflexivity.
  - vm_compute. reflexivity.
  - vm_compute. discriminate.
  - vm_compute. discriminate.
Defined.

(** X3.  When the file exists, the deadline is computed from its
    modification time and not from the clock: if the file was last modified
    at least one interval ago, the writer is built with a deadline that has
    already passed. *)
Theorem X3_deadline_of_an_old_file L q fname when_ bc s p s1 fInfo :
  NewPanicFileLogWriter L q fname when_ bc s = (Some p, s1) ->
  fs (os s) !! fname = Some fInfo ->
  0 <= mtime fInfo ->
  mtime fInfo + unit_interval (unit_of (ToUpper when_)) <= now (os s) ->
  now (os s) <= Int64.max_int ->
  exists k,
    heap s1 !! p = Some k /\
    mtime fInfo < rolloverAt (this k) <= now (os s1).
Proof.
  intros HN Hfs Hm Hold Hmax.
  destruct (New_deadline _ _ _ _ _ _ _ _ HN) as (k & Hk & Hn & Hi & Hr).
  rewrite Hfs in Hr. exists k. split; [exact Hk|].
  assert (HI : 0 < interval (this k) <= 86400)
    by (rewrite Hi; destruct (unit_of (ToUpper when_)); cbn; lia).
  destruct (deadline_general (mtime fInfo) (interval (this k)) HI)
    as (He & Hlt & _ & Hub); [unfold Int64.min_int; lia | rewrite Hi; lia |].
  rewrite Hr, He, Hn. split; [exact Hlt|].
  specialize (Hub Hm). rewrite Hi in Hub at 2. lia.
Qed.

(** ** Reopening *)

(** X4.  [intRotate] closes the handle the writer holds before it tries
    to open the file again.  When that open fails, the error is returned,
    the two calls made are the close and the failed open in this order, no
    descriptor is duplicated, no file changes, and the writer is returned
    as it was: its [file] field still names the descriptor that has just
    been closed. *)
Theorem X4_intRotate_failure W w fd0 e :
  file w = Some fd0 ->
  open_err W (filename w) = Some e ->
  exists W',
    intRotate W w = (W', w, Some e) /\
    trace W'
      = trace W
        ++ EvClose fd0 :: EvOpen (filename w) open_flags 420 None :: nil /\
    fdt W' = delete fd0 (fdt W) /\
    fdt W' !! fd0 = None /\
    dups (trace W') = dups (trace W) /\
    fs W' = fs W.
Proof.
  intros Hf Ho. unfold intRotate. rewrite Hf. unfold OS.OpenFile.
  change (open_err (OS.Close W fd0) (filename w)) with (open_err W (filename w)).
  rewrite Ho. eexists. split; [reflexivity|].
  destruct (Close_frame W fd0) as (Hct & Hcf & Hcs & _).
  cbn [fdt trace fs OS.log]. rewrite Hct, Hcf, Hcs.
  split; [rewrite <- app_assoc; reflexivity|].
  split; [reflexivity|].
  split; [apply lookup_delete_eq|].
  rewrite !dups_app. cbn [dups List.filter is_dup2].
  rewrite !app_nil_r.
  split; reflexivity.
Qed.

(** X5.  When the open succeeds, [intRotate] has closed the old handle
    exactly once, the writer holds a new descriptor on the same file name,
    and the file has kept its content: reopening appends, it does not
    truncate. *)
Theorem X5_intRotate_reopen W w fd0 :
  file w = Some fd0 ->
  open_err W (filename w) = None ->
  exists W' fd1,
    intRotate W w = (W', set_file (Some fd1) w, None) /\
    fdt W' !! fd1 = Some (Regular (filename w)) /\
    closes (trace W') = closes (trace W) ++ EvClose fd0 :: nil /\
    opens (trace W')
      = opens (trace W) ++ EvOpen (filename w) open_flags 420 (Some fd1) :: nil /\
    is_Some (fs W' !! filename w) /\
    content W' (filename w) = content W (filename w).
Proof.
  intros Hf Ho. unfold intRotate. rewrite Hf.
  assert (Ho2 : open_err (OS.Close W fd0) (filename w) = None) by exact Ho.
  destruct (OpenFile_ok (OS.Close W fd0) (filename w) open_flags 420 Ho2)
    as (Hres & Hfdt & Htr & Hfs & _ & _ & _ & Henv & _).
  destruct (Close_frame W fd0) as (Hct & _ & Hcf & _).
  fold open_flags.
  destruct (OS.OpenFile (OS.Close W fd0) (filename w) open_flags 420)
    as [W1 res] eqn:EO.
  cbn [fst snd] in *. rewrite Hres.
  set (fd1 := OS.lowest_free (fdt (OS.Close W fd0))) in *.
  assert (Hfd1 : fdt W1 !! fd1 = Some (Regular (filename w)))
    by (rewrite Hfdt; apply lookup_insert_eq).
  assert (Hex : is_Some (fs W1 !! filename w) /\
                content W1 (filename w) = content W (filename w)).
  { unfold content. rewrite Hfs, Hcf.
    destruct (fs W !! filename w) eqn:E.
    - rewrite E. split; [eauto | reflexivity].
    - rewrite lookup_insert_eq. split; [eauto | reflexivity]. }
  destruct Hex as (Hex & Hcont).
  destruct (redirect_ok W1 fd1 (filename w) Hfd1) as (Hf2 & Ht2 & Hs2 & _).
  destruct (negb (String.eqb (OS.Getenv W1 "LOGGER_MODE") "debug")).
  - eexists _, fd1. split; [reflexivity|].
    unfold content. rewrite Hf2, Ht2, Hs2, Htr, Hct.
    rewrite !closes_app, !opens_app. cbn. rewrite !app_nil_r.
    split.
    { rewrite !lookup_insert. repeat case_decide; try reflexivity. exact Hfd1. }
    repeat split; try assumption.
  - eexists _, fd1. split; [reflexivity|].
    rewrite Htr, Hct, !closes_app, !opens_app. cbn. rewrite !app_nil_r.
    repeat split; assumption.
Qed.

(** ** Construction *)

Lemma Write_fs_other W fd d :
  (forall path, fdt W !! fd <> Some (Regular path)) ->
  fs (fst (OS.Write W fd d)) = fs W.
Proof.
  intros H. unfold OS.Write. cbn [OS.log fdt nwrites io_res].
  destruct (fdt W !! fd) as [[| |path]|] eqn:E; try reflexivity.
  exfalso. apply (H path). reflexivity.
Qed.

(** X7.  A construction that fails leaves nothing behind: no writer on the
    heap, the descriptor table as it was, no descriptor duplicated or
    closed.  When it is [filepath.Abs] that fails, the file is not even
    opened.  Unless descriptor 2 names a file, the file system is
    untouched. *)
Theorem X7_failed_construction L q fname when_ bc s s1 :
  NewPanicFileLogWriter L q fname when_ bc s = (None, s1) ->
  heap s1 = heap s /\
  fdt (os s1) = fdt (os s) /\
  dups (trace (os s1)) = dups (trace (os s)) /\
  closes (trace (os s1)) = closes (trace (os s)) /\
  (forall e, abs_res (os s) fname = inr e ->
             opens (trace (os s1)) = opens (trace (os s))) /\
  ((forall path, fdt (os s) !! OS.Stderr <> Some (Regular path)) ->
   fs (os s1) = fs (os s)).
Proof.
  rewrite New_cases. cbv zeta.
  destruct (abs_res (os s) fname) as [path|e].
  - destruct (open_err (os s) fname) as [e|]; [|discriminate].
    intros H; injection H as <-. cbn [os heap].
    match goal with
    | |- context [OS.eprint ?W ?m] =>
        destruct (eprint_frame W m) as (Ht & Hf & _);
        pose proof (Write_fs_other W OS.Stderr (list_byte_of_string m)) as Hfs
    end.
    fold (OS.eprint (OS.log (EvOpen fname open_flags 420 None) (os s))) in Hfs.
    rewrite Ht, Hf. cbn [OS.log fdt trace].
    rewrite !dups_app, !closes_app. cbn [dups closes List.filter is_dup2 is_close].
    rewrite !app_nil_r. repeat split.
    + intros e0 He0. discriminate.
    + intros H2. apply Hfs. exact H2.
  - intros H; injection H as <-. cbn [os heap].
    match goal with
    | |- context [OS.eprint ?W ?m] =>
        destruct (eprint_frame W m) as (Ht & Hf & _);
        pose proof (Write_fs_other W OS.Stderr (list_byte_of_string m)) as Hfs
    end.
    rewrite Ht, Hf, !dups_app, !closes_app, !opens_app.
    cbn [dups closes opens List.filter is_dup2 is_close is_open].
    rewrite !app_nil_r. repeat split. intros H2. apply Hfs. exact H2.
Qed.

(** A run of X7: the directory cannot be written. *)
Lemma X7_failed_construction_witness :
  heap (snd (Sample.construct Sample.W_denied "h")) = ∅ /\
  fdt (os (snd (Sample.construct Sample.W_denied "h"))) = fdt Sample.W_denied /\
  fs (os (snd (Sample.construct Sample.W_denied "h"))) = fs Sample.W_denied.
Proof.
  destruct (X7_failed_construction 2 Sample.quote "a.log" "h" 3
              {| os := Sample.W_denied; heap := ∅ |}
              (snd (Sample.construct Sample.W_denied "h")))
    as (Hh & Hf & _ & _ & _ & Hfs).
  - vm_compute. reflexivity.
  - split; [exact Hh|]. split; [exact Hf|]. apply Hfs.
    intros path. vm_compute. discriminate.
Defined.

(** ** The queue *)







(** ** The file handle *)

(** X9.  The worker's file handle stays open, on the configured file, for
    as long as the goroutine has not run its deferred function, and it is
    closed exactly once when it has, however the loop ended (drain request
    or failed write); a goroutine that has left its loop can always run the
    deferred function. *)
Theorem X9_handle_closed_once B L F q fname when_ bc s p s1 acts s2 :
  NewPanicFileLogWriter L q fname when_ bc s = (Some p, s1) ->
  exec B L F q p acts s1 = Some s2 ->
  exists k fd,
    heap s2 !! p = Some k /\ file (this k) = Some fd /\
    (goroutine k <> WDone ->
       fdt (os s2) !! fd = Some (Regular fname) /\
       closes (trace (os s2)) = closes (trace (os s))) /\
    (goroutine k = WDone ->
       closes (trace (os s2)) = closes (trace (os s)) ++ EvClose fd :: nil) /\
    (goroutine k = WReturning ->
       exists s3 k3,
         step B L F q p Teardown s2 = Some s3 /\ heap s3 !! p = Some k3 /\
         goroutine k3 = WDone /\ fdt (os s3) !! fd = None).
Proof.
  intros HN HE.
  destruct (Inv_init L F q _ _ _ _ _ _ HN) as (fd & HI & _).
  pose proof (Inv_exec B L F q _ _ _ _ _ _ acts _ _ HI HE)
    as (k & tl & junk & Hk & _ & Hfile & _ & _ & _ & _ & _ & _ & HO & HD & _).
  exists k, fd. split; [assumption|]. split; [assumption|].
  split; [exact HO|]. split; [exact HD|].
  intros Hg. eexists _, _. split.
  { unfold step, deferred. rewrite Hk, Hg, Hfile. reflexivity. }
  split; [apply lookup_insert_eq|]. split; [reflexivity|].
  cbn [put os]. destruct (Close_frame (os s2) fd) as (_ & Hf & _).
  rewrite Hf. apply lookup_delete_eq.
Qed.

(** A run of X9: the write fails, the goroutine ends, the handle is closed
    once. *)
Lemma X9_handle_closed_once_witness :
  exists k fd,
    heap (Sample.after (Produce Sample.hello :: Work :: Teardown :: nil)
            (snd (Sample.construct Sample.W_full "h"))) !! 0%nat = Some k /\
    file (this k) = Some fd /\
    closes (trace (os (Sample.after
                         (Produce Sample.hello :: Work :: Teardown :: nil)
                         (snd (Sample.construct Sample.W_full "h")))))
      = closes (trace Sample.W_full) ++ EvClose fd :: nil.
Proof.
  destruct (X9_handle_closed_once true 2 Sample.render Sample.quote
              "a.log" "h" 3 {| os := Sample.W_full; heap := ∅ |} 0%nat
              (snd (Sample.construct Sample.W_full "h"))
              (Produce Sample.hello :: Work :: Teardown :: nil)
              (Sample.after (Produce Sample.hello :: Work :: Teardown :: nil)
                 (snd (Sample.construct Sample.W_full "h"))))
    as (k & fd & Hk & Hf & _ & HD & _).
  - vm_compute. reflexivity.
  - vm_compute. reflexivity.
  - exists k, fd. split; [exact Hk|]. split; [exact Hf|].
    apply HD.
    assert (Hk' : heap (Sample.after
                          (Produce Sample.hello :: Work :: Teardown :: nil)
                          (snd (Sample.construct Sample.W_full "h"))) !! 0%nat
                  = Some (Sample.sink_of
                            (Sample.after
                               (Produce Sample.hello :: Work :: Teardown :: nil)
                               (snd (Sample.construct Sample.W_full "h")))))
      by (vm_compute; reflexivity).
    rewrite Hk' in Hk. injection Hk as <-. vm_compute. reflexivity.
Defined.

(** ** The template *)

(** X10.  A template set with [SetFormat] on the new writer, before
    anything is submitted, is the one every record is rendered with:
    whatever the schedule, the writer keeps that template, and an iteration
    of the loop that finds a record without binary payload writes its
    rendering by that template on the descriptor of the file. *)
Theorem X10_template_set_before_use
  B L F q fname when_ bc s p s1 fmt acts s2 k r rest :
  NewPanicFileLogWriter L q fname when_ bc s = (Some p, s1) ->
  exec B L F q p acts (snd (SetFormat p fmt s1)) = Some s2 ->
  heap s2 !! p = Some k ->
  goroutine k = WLoop ->
  buf (rec (this k)) = Some r :: rest ->
  Binary r = None ->
  exists fd s3 tl,
    format (this k) = fmt /\
    file (this k) = Some fd /\
    step B L F q p Work s2 = Some s3 /\
    trace (os s3)
      = trace (os s2) ++ EvWrite fd (list_byte_of_string (F fmt r)) :: tl.
Proof.
  intros HN HE Hk Hg Hb Hbin.
  destruct (Inv_init L F q _ _ _ _ _ _ HN) as (fd & HI & _).
  pose proof (New_untouched _ _ _ _ _ _ _ _ HN) as HU.
  destruct (Inv_SetFormat F fname fd _ fmt _ _ p s1 HI HU) as (HIc & _).
  pose proof (Inv_exec B L F q _ _ _ _ _ _ acts _ _ HIc HE)
    as (k' & _ & _ & Hk' & _ & Hf & Hfmt & _).
  assert (k' = k) by congruence. subst k'.
  exists fd.
  rewrite (Work_record B L F q p _ _ r rest fd Hk Hg Hb Hf). cbv zeta.
  rewrite Hfmt. unfold payload. rewrite Hbin.
  pose proof (Write_frame (os s2) fd (list_byte_of_string (F fmt r))) as (Ht & _).
  destruct (OS.Write (os s2) fd (list_byte_of_string (F fmt r))) as [W [e|]];
    cbn [fst] in Ht.
  - eexists _, _. split; [reflexivity|]. split; [exact Hf|].
    split; [reflexivity|]. cbn [put os].
    match goal with
    | |- context [OS.eprint W ?m] => destruct (eprint_frame W m) as (Ht' & _)
    end.
    rewrite Ht', Ht, <- app_assoc. reflexivity.
  - eexists _, nil. split; [reflexivity|]. split; [exact Hf|].
    split; [reflexivity|]. exact Ht.
Qed.

(** X11.  [SetFormat] returns its receiver, so calls can be chained, and of
    two chained calls the last one wins: the state is the one a single call
    with the last template gives. *)
Theorem X11_SetFormat_chained p a b s :
  fst (SetFormat (fst (SetFormat p a s)) b (snd (SetFormat p a s))) = p /\
  snd (SetFormat (fst (SetFormat p a s)) b (snd (SetFormat p a s)))
  = snd (SetFormat p b s).
Proof.
  split; [reflexivity|]. unfold SetFormat. cbn [fst snd os heap]. f_equal.
  apply map_eq. intros i. destruct (decide (p = i)) as [->|Hne].
  - rewrite !lookup_alter_eq. destruct (heap s !! i); reflexivity.
  - rewrite !lookup_alter_ne by assumption. reflexivity.
Qed.

(** ** Records through the loop *)

(** X12.  A record whose binary payload is present but empty adds nothing
    to the file, whatever its message: the template is used only when the
    payload is nil.  The record counts as written and the loop goes on. *)
Theorem X12_empty_binary_payload B L F q p s k r rest fd path :
  heap s !! p = Some k ->
  goroutine k = WLoop ->
  buf (rec (this k)) = Some r :: rest ->
  file (this k) = Some fd ->
  Binary r = Some nil ->
  fdt (os s) !! fd = Some (Regular path) ->
  is_Some (fs (os s) !! path) ->
  (forall n, io_res (os s) n = None) ->
  exists s' k',
    step B L F q p Work s = Some s' /\ heap s' !! p = Some k' /\
    goroutine k' = WLoop /\ written k' = written k ++ r :: nil /\
    content (os s') path = content (os s) path /\
    tty_err (os s') = tty_err (os s).
Proof.
  intros Hk Hg Hb Hf Hbin Hfd Hs Hio.
  rewrite (Work_record B L F q p s k r rest fd Hk Hg Hb Hf). cbv zeta.
  unfold payload. rewrite Hbin.
  destruct (Write_accepts (os s) fd nil path Hfd Hs Hio)
    as (Hsnd & _ & _ & _ & Hc & _ & Hte).
  destruct (OS.Write (os s) fd nil) as [W1 [e|]]; cbn [fst snd] in *;
    [discriminate|].
  eexists _, _. split; [reflexivity|]. split; [apply lookup_insert_eq|].
  cbn [goroutine written put os]. rewrite Hc, app_nil_r.
  repeat split. exact Hte.
Qed.

(** X13.  On a device that accepts every write, the loop takes the records
    at the head of the queue one per iteration and writes each of them with
    a single write on its descriptor: after as many iterations as there are
    records, they are all written, in order, the file has grown by exactly
    their bytes, nothing has been written on the original error stream, and
    the rest of the queue is untouched. *)
Theorem X13_loop_drains_queue B L F q p rs : forall s k rest fd path,
  heap s !! p = Some k ->
  goroutine k = WLoop ->
  buf (rec (this k)) = map Some rs ++ rest ->
  file (this k) = Some fd ->
  fdt (os s) !! fd = Some (Regular path) ->
  is_Some (fs (os s) !! path) ->
  (forall n, io_res (os s) n = None) ->
  exists s' k',
    exec B L F q p (repeat Work (length rs)) s = Some s' /\
    heap s' !! p = Some k' /\
    goroutine k' = WLoop /\
    buf (rec (this k')) = rest /\
    written k' = written k ++ rs /\
    content (os s') path
      = content (os s) path ++ concat (map (payload F (format (this k))) rs) /\
    trace (os s')
      = trace (os s)
        ++ map (fun r => EvWrite fd (payload F (format (this k)) r)) rs /\
    tty_err (os s') = tty_err (os s).
Proof.
  induction rs as [|r rs IH]; intros s k rest fd path Hk Hg Hb Hf Hfd Hs Hio.
  - exists s, k. cbn. rewrite !app_nil_r. repeat split; assumption.
  - cbn [map app] in Hb. cbn [length repeat exec].
    rewrite (Work_record B L F q p s k r _ fd Hk Hg Hb Hf). cbv zeta.
    destruct (Write_accepts (os s) fd (payload F (format (this k)) r) path
                Hfd Hs Hio)
      as (Hsnd & Hfd1 & Hs1 & Hio1 & Hc1 & Ht1 & Hte1).
    destruct (OS.Write (os s) fd (payload F (format (this k)) r))
      as [W1 [e|]]; cbn [fst snd] in *; [discriminate|].
    match goal with
    | |- context [exec B L F q p _ (put p W1 ?k1 s)] =>
        destruct (IH (put p W1 k1 s) k1 rest fd path) as
          (s' & k' & HE & Hk' & Hg' & Hb' & Hw' & Hc' & Ht' & Hte')
    end; try reflexivity; try assumption.
    + apply lookup_insert_eq.
    + cbn [put os]. rewrite Hfd1. exact Hfd.
    + exists s', k'. split; [exact HE|]. split; [exact Hk'|].
      split; [exact Hg'|]. split; [exact Hb'|].
      cbn [written put os this format set_rec] in Hw', Hc', Ht', Hte'.
      split; [rewrite Hw', <- app_assoc; reflexivity|].
      split; [rewrite Hc', Hc1; cbn [map concat]; rewrite <- app_assoc;
              reflexivity|].
      split; [rewrite Ht', Ht1; cbn [map]; rewrite <- app_assoc; reflexivity|].
      rewrite Hte', Hte1. reflexivity.
Qed.

(** X15.  A failed write is final.  Once a write has failed, whatever the
    producers, the caller of [Close] and the clock do, the worker never
    takes another value from the queue: the records written stay those
    written before the failure and no file changes any more. *)
Theorem X15_failure_is_final B L F q p s k r rest fd e s1 acts s2 :
  heap s !! p = Some k ->
  goroutine k = WLoop ->
  buf (rec (this k)) = Some r :: rest ->
  file (this k) = Some fd ->
  snd (OS.Write (os s) fd (payload F (format (this k)) r)) = Some e ->
  step B L F q p Work s = Some s1 ->
  exec B L F q p acts s1 = Some s2 ->
  exists k2,
    heap s2 !! p = Some k2 /\
    goroutine k2 <> WLoop /\
    written k2 = written k /\
    consumed k2 = consumed k ++ Some r :: nil /\
    fs (os s2) = fs (os s1) /\
    step B L F q p Work s2 = None.
Proof.
  intros Hk Hg Hb Hf Hfail Hstep HE.
  rewrite (Work_record B L F q p s k r rest fd Hk Hg Hb Hf) in Hstep.
  cbv zeta in Hstep.
  destruct (OS.Write (os s) fd (payload F (format (this k)) r)) as [W1 [e'|]];
    cbn [snd] in Hfail; [|discriminate].
  injection Hstep as <-.
  match type of HE with
  | exec _ _ _ _ _ _ (put p ?W ?k1 s) = _ =>
      assert (Hk1 : heap (put p W k1 s) !! p = Some k1) by apply lookup_insert_eq;
      assert (Hg1 : goroutine k1 <> WLoop) by (cbn; discriminate)
  end.
  destruct (exec_dead B L F q p acts _ _ _ Hk1 Hg1 HE)
    as (Hfs & k2 & Hk2 & Hg2 & Hw2 & Hc2).
  exists k2. split; [exact Hk2|]. split; [exact Hg2|].
  split; [exact Hw2|]. split; [exact Hc2|]. split; [exact Hfs|].
  unfold step. rewrite Hk2. destruct (goroutine k2); [contradiction | |];
    reflexivity.
Qed.

(** ** Two writers *)

(** X14.  The redirection is process-wide and the last writer takes it
    over.  Of two writers built one after the other outside debug mode, the
    second gets a pointer of its own and leaves the first writer as it was,
    but descriptors 1 and 2, which named the first writer's file, now name
    the second writer's file. *)
Theorem X14_last_writer_takes_stdio L q f1 u1 b1 f2 u2 b2 s p1 s1 p2 s2 :
  NewPanicFileLogWriter L q f1 u1 b1 s = (Some p1, s1) ->
  NewPanicFileLogWriter L q f2 u2 b2 s1 = (Some p2, s2) ->
  OS.Getenv (os s) "LOGGER_MODE" <> "debug" ->
  p1 <> p2 /\
  heap s2 !! p1 = heap s1 !! p1 /\
  fdt (os s1) !! OS.Stdout = Some (Regular f1) /\
  fdt (os s1) !! OS.Stderr = Some (Regular f1) /\
  fdt (os s2) !! OS.Stdout = Some (Regular f2) /\
  fdt (os s2) !! OS.Stderr = Some (Regular f2).
Proof.
  intros H1 H2 Hdbg.
  destruct (New_redirects _ _ _ _ _ _ _ _ H1) as (He1 & _ & _ & Hr1).
  destruct (New_redirects _ _ _ _ _ _ _ _ H2) as (_ & Hn2 & Ho2 & Hr2).
  destruct (New_success _ _ _ _ _ _ _ _ H1)
    as (_ & w1 & fd & _ & _ & _ & _ & _ & _ & _ & Hh & _).
  assert (Hk1 : is_Some (heap s1 !! p1))
    by (rewrite Hh, lookup_insert_eq; eauto).
  assert (Hne : p1 <> p2).
  { intros ->. rewrite Hn2 in Hk1. destruct Hk1 as [? ?]. discriminate. }
  assert (Hdbg1 : OS.Getenv (os s1) "LOGGER_MODE" <> "debug")
    by (unfold OS.Getenv in *; rewrite He1; exact Hdbg).
  destruct (Hr1 Hdbg) as (A1 & A2). destruct (Hr2 Hdbg1) as (B1 & B2).
  split; [exact Hne|]. split; [apply Ho2; exact Hne|].
  repeat split; assumption.
Qed.

(** ** Runs of the further properties *)

(** A run of X3: a.log was modified at 100 and the writer is built at 1000
    with the minute unit; the deadline, 120, has passed. *)
Lemma X3_deadline_of_an_old_file_witness :
  exists k,
    heap (snd (Sample.construct Sample.W_stale "m")) !! 0%nat = Some k /\
    100 < rolloverAt (this k)
      <= now (os (snd (Sample.construct Sample.W_stale "m"))).
Proof.
  apply (X3_deadline_of_an_old_file 2 Sample.quote "a.log" "m" 3
           {| os := Sample.W_stale; heap := ∅ |} 0%nat
           (snd (Sample.construct Sample.W_stale "m"))
           {| mtime := 100; mode := 420; data := nil |}).
  - vm_compute. reflexivity.
  - vm_compute. reflexivity.
  - vm_compute. discriminate.
  - vm_compute. discriminate.
  - vm_compute. discriminate.
Defined.

(** A run of X4: the writer of a.log rotates when nothing can be opened. *)
Lemma X4_intRotate_failure_witness :
  let s1 := snd (Sample.construct Sample.W0 "h") in
  exists W',
    intRotate (Sample.deny (os s1)) (this (Sample.sink_of s1))
      = (W', this (Sample.sink_of s1), Some "too many open files") /\
    file (this (Sample.sink_of s1)) = Some 3%nat /\
    fdt W' !! 3%nat = None /\
    fs W' = fs (os s1).
Proof.
  cbv zeta.
  destruct (X4_intRotate_failure
              (Sample.deny (os (snd (Sample.construct Sample.W0 "h"))))
              (this (Sample.sink_of (snd (Sample.construct Sample.W0 "h"))))
              3%nat "too many open files")
    as (W' & HR & _ & _ & Hf & _ & Hs).
  - vm_compute. reflexivity.
  - vm_compute. reflexivity.
  - exists W'. split; [exact HR|]. split; [vm_compute; reflexivity|].
    split; [exact Hf | exact Hs].
Defined.

(** A run of X5: after one record the writer of a.log rotates; the record
    is still in the file. *)
Lemma X5_intRotate_reopen_witness :
  let s2 := Sample.after (Produce Sample.hello :: Work :: nil)
              (snd (Sample.construct Sample.W0 "h")) in
  exists W' fd1,
    intRotate (os s2) (this (Sample.sink_of s2))
      = (W', set_file (Some fd1) (this (Sample.sink_of s2)), None) /\
    closes (trace W') = closes (trace (os s2)) ++ EvClose 3 :: nil /\
    content W' "a.log" = content (os s2) "a.log".
Proof.
  cbv zeta.
  destruct (X5_intRotate_reopen
              (os (Sample.after (Produce Sample.hello :: Work :: nil)
                     (snd (Sample.construct Sample.W0 "h"))))
              (this (Sample.sink_of
                       (Sample.after (Produce Sample.hello :: Work :: nil)
                          (snd (Sample.construct Sample.W0 "h")))))
              3%nat)
    as (W' & fd1 & HR & _ & Hc & _ & _ & Hcont).
  - vm_compute. reflexivity.
  - vm_compute. reflexivity.
  - exists W', fd1. split; [exact HR|]. split; [exact Hc | exact Hcont].
Defined.

(** A run of X10: the template is changed while a record waits. *)
Lemma X10_template_set_before_use_witness :
  let s2 := Sample.after (Produce Sample.hello :: nil)
              (snd (SetFormat 0 "%M" (snd (Sample.construct Sample.W0 "h")))) in
  exists fd s3 tl,
    format (this (Sample.sink_of s2)) = "%M" /\
    file (this (Sample.sink_of s2)) = Some fd /\
    step true 2 Sample.render Sample.quote 0 Work s2 = Some s3 /\
    trace (os s3)
      = trace (os s2)
        ++ EvWrite fd (list_byte_of_string (Sample.render "%M" Sample.hello))
           :: tl.
Proof.
  cbv zeta.
  apply (X10_template_set_before_use true 2 Sample.render Sample.quote
           "a.log" "h" 3 {| os := Sample.W0; heap := ∅ |} 0%nat
           (snd (Sample.construct Sample.W0 "h")) "%M"
           (Produce Sample.hello :: nil)
           (Sample.after (Produce Sample.hello :: nil)
              (snd (SetFormat 0 "%M" (snd (Sample.construct Sample.W0 "h")))))
           (Sample.sink_of
              (Sample.after (Produce Sample.hello :: nil)
                 (snd (SetFormat 0 "%M"
                         (snd (Sample.construct Sample.W0 "h"))))))
           Sample.hello nil).
  - vm_compute. reflexivity.
  - vm_compute. reflexivity.
  - vm_compute. reflexivity.
  - vm_compute. reflexivity.
  - vm_compute. reflexivity.
  - vm_compute. reflexivity.
Defined.

(** A run of X12. *)
Lemma X12_empty_binary_payload_witness :
  let s := Sample.after (Produce Sample.blank :: nil)
             (snd (Sample.construct Sample.W0 "h")) in
  exists s' k',
    step true 2 Sample.render Sample.quote 0 Work s = Some s' /\
    heap s' !! 0%nat = Some k' /\
    written k' = Sample.blank :: nil /\
    content (os s') "a.log" = content (os s) "a.log".
Proof.
  cbv zeta.
  destruct (X12_empty_binary_payload true 2 Sample.render Sample.quote 0%nat
              (Sample.after (Produce Sample.blank :: nil)
                 (snd (Sample.construct Sample.W0 "h")))
              (Sample.sink_of
                 (Sample.after (Produce Sample.blank :: nil)
                    (snd (Sample.construct Sample.W0 "h"))))
              Sample.blank nil 3%nat "a.log")
    as (s' & k' & Hs & Hk & _ & Hw & Hc & _).
  - vm_compute. reflexivity.
  - vm_compute. reflexivity.
  - vm_compute. reflexivity.
  - vm_compute. reflexivity.
  - vm_compute. reflexivity.
  - vm_compute. reflexivity.
  - vm_compute. eauto.
  - intros n. vm_compute. reflexivity.
  - exists s', k'. split; [exact Hs|]. split; [exact Hk|].
    split; [exact Hw | exact Hc].
Defined.

(** A run of X13: two queued records, two iterations. *)
Lemma X13_loop_drains_queue_witness :
  let s := Sample.after (Produce Sample.hello :: Produce Sample.raw :: nil)
             (snd (Sample.construct Sample.W0 "h")) in
  exists s' k',
    exec true 2 Sample.render Sample.quote 0 (Work :: Work :: nil) s = Some s' /\
    heap s' !! 0%nat = Some k' /\
    buf (rec (this k')) = nil /\
    written k' = Sample.hello :: Sample.raw :: nil /\
    content (os s') "a.log"
      = content (os s) "a.log"
        ++ concat (map (payload Sample.render "[%D %T] [%L] (%S) %M")
                     (Sample.hello :: Sample.raw :: nil)).
Proof.
  cbv zeta.
  destruct (X13_loop_drains_queue true 2 Sample.render Sample.quote 0%nat
              (Sample.hello :: Sample.raw :: nil)
              (Sample.after (Produce Sample.hello :: Produce Sample.raw :: nil)
                 (snd (Sample.construct Sample.W0 "h")))
              (Sample.sink_of
                 (Sample.after (Produce Sample.hello :: Produce Sample.raw :: nil)
                    (snd (Sample.construct Sample.W0 "h"))))
              nil 3%nat "a.log")
    as (s' & k' & HE & Hk & _ & Hb & Hw & Hc & _).
  - vm_compute. reflexivity.
  - vm_compute. reflexivity.
  - vm_compute. reflexivity.
  - vm_compute. reflexivity.
  - vm_compute. reflexivity.
  - vm_compute. eauto.
  - intros n. vm_compute. reflexivity.
  - exists s', k'. split; [exact HE|]. split; [exact Hk|].
    split; [exact Hb|]. split; [exact Hw | exact Hc].
Defined.

(** A run of X14: a.log, then b.log. *)
Lemma X14_last_writer_takes_stdio_witness :
  let s1 := snd (Sample.construct Sample.W0 "h") in
  let s2 := snd (NewPanicFileLogWriter 2 Sample.quote "b.log" "d" 3 s1) in
  fdt (os s1) !! OS.Stderr = Some (Regular "a.log") /\
  fdt (os s2) !! OS.Stderr = Some (Regular "b.log") /\
  heap s2 !! 0%nat = heap s1 !! 0%nat.
Proof.
  cbv zeta.
  destruct (X14_last_writer_takes_stdio 2 Sample.quote "a.log" "h" 3
              "b.log" "d" 3 {| os := Sample.W0; heap := ∅ |} 0%nat
              (snd (Sample.construct Sample.W0 "h")) 1%nat
              (snd (NewPanicFileLogWriter 2 Sample.quote "b.log" "d" 3
                      (snd (Sample.construct Sample.W0 "h")))))
    as (_ & Hh & _ & H1 & _ & H2).
  - vm_compute. reflexivity.
  - vm_compute. reflexivity.
  - vm_compute. discriminate.
  - split; [exact H1|]. split; [exact H2 | exact Hh].
Defined.

(** A run of X15: the first write fails; later submissions, the clock and
    the deferred function leave the files alone. *)
Lemma X15_failure_is_final_witness :
  let s := Sample.after (Produce Sample.hello :: nil)
             (snd (Sample.construct Sample.W_full "h")) in
  let s1 := Sample.after (Work :: nil) s in
  let s2 := Sample.after (Produce Sample.raw :: Tick 5 :: Teardown :: nil) s1 in
  exists k2,
    heap s2 !! 0%nat = Some k2 /\ written k2 = nil /\
    fs (os s2) = fs (os s1) /\
    step true 2 Sample.render Sample.quote 0 Work s2 = None.
Proof.
  cbv zeta.
  destruct (X15_failure_is_final true 2 Sample.render Sample.quote 0%nat
              (Sample.after (Produce Sample.hello :: nil)
                 (snd (Sample.construct Sample.W_full "h")))
              (Sample.sink_of
                 (Sample.after (Produce Sample.hello :: nil)
                    (snd (Sample.construct Sample.W_full "h"))))
              Sample.hello nil 3%nat "no space left on device"
              (Sample.after (Work :: nil)
                 (Sample.after (Produce Sample.hello :: nil)
                    (snd (Sample.construct Sample.W_full "h"))))
              (Produce Sample.raw :: Tick 5 :: Teardown :: nil)
              (Sample.after (Produce Sample.raw :: Tick 5 :: Teardown :: nil)
                 (Sample.after (Work :: nil)
                    (Sample.after (Produce Sample.hello :: nil)
                       (snd (Sample.construct Sample.W_full "h"))))))
    as (k2 & Hk & _ & Hw & _ & Hfs & Hstop).
  - vm_compute. reflexivity.
  - vm_compute. reflexivity.
  - vm_compute. reflexivity.
  - vm_compute. reflexivity.
  - vm_compute. reflexivity.
  - vm_compute. reflexivity.
  - vm_compute. reflexivity.
  - exists k2. split; [exact Hk|]. split; [exact Hw|].
    split; [exact Hfs | exact Hstop].
Defined.

(** ** What the writer leaves alone *)

(** X16.  The writer only ever appends.  From construction on, whatever is
    submitted, written or closed, every file that existed keeps existing
    and keeps its content as an initial segment of what it holds later:
    nothing is truncated, renamed or removed, and the retention count
    [backupCount] is stored but never acted upon. *)
Theorem X16_append_only B L F q fname when_ bc s p s1 acts s2 :
  NewPanicFileLogWriter L q fname when_ bc s = (Some p, s1) ->
  exec B L F q p acts s1 = Some s2 ->
  (forall path,
     is_Some (fs (os s) !! path) ->
     is_Some (fs (os s2) !! path) /\
     exists x, content (os s2) path = content (os s) path ++ x) /\
  exists k2, heap s2 !! p = Some k2 /\ backupCount (this k2) = bc.
Proof.
  intros HN HE.
  destruct (New_success _ _ _ _ _ _ _ _ HN)
    as (path & w1 & fd & W1 & Ha & Ho & Hw1 & Hfd & HW1 & Hp & Hh & Hos & Hfdt).
  assert (Hk1 : heap s1 !! p = Some (fresh_sink (set_file (Some fd) w1)))
    by (rewrite Hh; apply lookup_insert_eq).
  destruct (exec_world _ _ _ _ _ _ _ _ _ Hk1 HE) as (G2 & _).
  destruct (exec_frame _ _ _ _ _ _ _ _ _ Hk1 HE) as (k2 & Hk2 & Hc & _).
  split.
  - apply (grows_trans (os s) (os s1) (os s2)); [|exact G2].
    destruct (OpenFile_ok (os s) fname open_flags 420 Ho)
      as (_ & _ & _ & Hfs & _). rewrite <- HW1 in Hfs.
    destruct (redirect_ok W1 fd fname Hfdt) as (_ & _ & Hfs2 & _).
    assert (G0 : grows (os s) W1).
    { intros x Hx. unfold content. rewrite Hfs.
      destruct (fs (os s) !! fname) eqn:E.
      - split; [exact Hx|]. exists nil. rewrite app_nil_r. reflexivity.
      - destruct (decide (fname = x)) as [->|Hne].
        + rewrite E in Hx. destruct Hx as [? ?]. discriminate.
        + rewrite lookup_insert_ne by assumption. split; [exact Hx|].
          exists nil. rewrite app_nil_r. reflexivity. }
    rewrite Hos.
    destruct (negb (String.eqb (OS.Getenv (os s) "LOGGER_MODE") "debug"));
      [|exact G0].
    eapply grows_trans; [exact G0|]. apply grows_same_fs. exact Hfs2.
  - exists k2. split; [exact Hk2|].
    change (backupCount (config (this k2)) = bc). rewrite Hc.
    cbn [this fresh_sink config set_closer set_rec set_file backupCount].
    rewrite Hw1. etrans; [apply prepare_frame | reflexivity].
Qed.

(** X17.  The writer touches no descriptor but its own and, at activation,
    descriptors 1 and 2: every other descriptor of the process, standard
    input for one, names after any schedule what it named before
    construction. *)
Theorem X17_other_descriptors B L F q fname when_ bc s p s1 acts s2 :
  NewPanicFileLogWriter L q fname when_ bc s = (Some p, s1) ->
  exec B L F q p acts s1 = Some s2 ->
  exists k fd,
    heap s1 !! p = Some k /\ file (this k) = Some fd /\
    forall n, n <> fd -> n <> OS.Stdout -> n <> OS.Stderr ->
              fdt (os s2) !! n = fdt (os s) !! n.
Proof.
  intros HN HE.
  destruct (New_success _ _ _ _ _ _ _ _ HN)
    as (path & w1 & fd & W1 & Ha & Ho & Hw1 & Hfd & HW1 & Hp & Hh & Hos & Hfdt).
  assert (Hk1 : heap s1 !! p = Some (fresh_sink (set_file (Some fd) w1)))
    by (rewrite Hh; apply lookup_insert_eq).
  destruct (exec_world _ _ _ _ _ _ _ _ _ Hk1 HE) as (_ & F2).
  exists (fresh_sink (set_file (Some fd) w1)), fd.
  split; [exact Hk1|]. split; [reflexivity|].
  intros n Hn H1 H2. rewrite F2 by (cbn; congruence).
  unfold OS.Stdout in H1. unfold OS.Stderr in H2.
  destruct (OpenFile_ok (os s) fname open_flags 420 Ho) as (_ & Hf1 & _).
  rewrite <- HW1, <- Hfd in Hf1.
  destruct (redirect_ok W1 fd fname Hfdt) as (Hf2 & _).
  assert (Hfd' : fd <> n) by congruence.
  assert (H1' : 1%nat <> n) by congruence.
  assert (H2' : 2%nat <> n) by congruence.
  rewrite Hos.
  destruct (negb (String.eqb (OS.Getenv (os s) "LOGGER_MODE") "debug")).
  - rewrite Hf2.
    rewrite (lookup_insert_ne _ _ _ _ H2'), (lookup_insert_ne _ _ _ _ H1').
    rewrite Hf1. apply lookup_insert_ne. exact Hfd'.
  - rewrite Hf1. apply lookup_insert_ne. exact Hfd'.
Qed.

(** A run of X16: the content a.log had before construction is still at the
    head of the file after a record. *)
Lemma X16_append_only_witness :
  is_Some (fs (os (Sample.after (Produce Sample.hello :: Work :: nil)
                     (snd (Sample.construct Sample.W_stale "h")))) !! "a.log") /\
  exists x,
    content (os (Sample.after (Produce Sample.hello :: Work :: nil)
                   (snd (Sample.construct Sample.W_stale "h")))) "a.log"
    = content Sample.W_stale "a.log" ++ x.
Proof.
  destruct (X16_append_only true 2 Sample.render Sample.quote "a.log" "h" 3
              {| os := Sample.W_stale; heap := ∅ |} 0%nat
              (snd (Sample.construct Sample.W_stale "h"))
              (Produce Sample.hello :: Work :: nil)
              (Sample.after (Produce Sample.hello :: Work :: nil)
                 (snd (Sample.construct Sample.W_stale "h"))))
    as (H & _).
  - vm_compute. reflexivity.
  - vm_compute. reflexivity.
  - apply (H "a.log"). vm_compute. eauto.
Defined.

(** A run of X17: standard input. *)
Lemma X17_other_descriptors_witness :
  fdt (os (Sample.after (Produce Sample.hello :: Work :: nil)
             (snd (Sample.construct Sample.W0 "h")))) !! 0%nat
  = fdt Sample.W0 !! 0%nat.
Proof.
  destruct (X17_other_descriptors true 2 Sample.render Sample.quote "a.log" "h"
              3 {| os := Sample.W0; heap := ∅ |} 0%nat
              (snd (Sample.construct Sample.W0 "h"))
              (Produce Sample.hello :: Work :: nil)
              (Sample.after (Produce Sample.hello :: Work :: nil)
                 (snd (Sample.construct Sample.W0 "h"))))
    as (k & fd & Hk & Hf & H).
  - vm_compute. reflexivity.
  - vm_compute. reflexivity.
  - apply H; [|discriminate|discriminate].
    assert (Hk' : heap (snd (Sample.construct Sample.W0 "h")) !! 0%nat
                  = Some (Sample.sink_of (snd (Sample.construct Sample.W0 "h"))))
      by (vm_compute; reflexivity).
    rewrite Hk' in Hk. injection Hk as <-.
    vm_compute in Hf. injection Hf as <-. discriminate.
Defined.
